(** * tienda_patrones1.1.py: a shallow embedding of the shop back end

    The Python program keeps all its data in one process-wide object
    ([ConexionBaseDatos]), prints to a console, and raises exceptions.  It is
    embedded here as state-passing functions over a record [Mundo] holding
    every mutable object of the program; a computation returns the new world
    together with either a value or the exception that escaped.  Mutations
    made before an exception is raised are kept, as in Python.

    Numbers are the program's own: [int] is [Z]; [float] is IEEE 754
    binary64, i.e. Rocq's primitive [float], so sums and products of prices
    round exactly as they do in the interpreter. *)

From Stdlib Require Import ZArith Floats Lia.
From stdpp Require Import gmap strings list pretty.

Open Scope Z_scope.

(** ** Exceptions and the state-and-exception monad *)

Inductive Excepcion :=
| ValueError (msg : string)
| RuntimeError (msg : string)
| OverflowError (msg : string)
| AttributeError (msg : string).

Inductive Resultado (A : Type) :=
| Devuelve (a : A)
| Lanza (e : Excepcion).
Arguments Devuelve {A} a.
Arguments Lanza {A} e.

Definition M (St A : Type) : Type := St -> St * Resultado A.

#[global] Instance M_ret {St} : MRet (M St) :=
  fun A a s => (s, Devuelve a).

#[global] Instance M_bind {St} : MBind (M St) :=
  fun A B f m s =>
    match m s with
    | (s', Devuelve a) => f a s'
    | (s', Lanza e) => (s', Lanza e)
    end.

Definition lanzar {St A} (e : Excepcion) : M St A := fun s => (s, Lanza e).

(** Lifts a pure partial computation (no state touched). *)
Definition puro {St A} (r : Resultado A) : M St A := fun s => (s, r).

(** [for x in l: f x] *)
Fixpoint para_cada {St A} (l : list A) (f : A -> M St unit) : M St unit :=
  match l with
  | [] => mret tt
  | x :: r => f x ≫= λ _, para_cada r f
  end.

(** [for _ in range(n): m]; [range] of a negative number is empty. *)
Fixpoint repetir {St} (n : nat) (m : M St unit) : M St unit :=
  match n with
  | O => mret tt
  | S k => m ≫= λ _, repetir k m
  end.

Definition range_veces (n : Z) : nat := Z.to_nat n.

(** ** Numbers *)

(** Python converts an [int] operand of a [float] operation to binary64,
    rounding to nearest even, and raises [OverflowError] when the integer
    is too large. *)
Definition redondear (z : Z) : float :=
  SF2Prim (binary_normalize prec emax z 0 false).

Definition float_of_int (z : Z) : Resultado float :=
  let f := redondear z in
  if PrimFloat.is_infinity f
  then Lanza (OverflowError "int too large to convert to float")
  else Devuelve f.

(** A price as a caller may hand it over in a product DTO. *)
Inductive Numero :=
| Entero (z : Z)
| Flotante (f : float).

(** [float(x)] *)
Definition a_float (x : Numero) : Resultado float :=
  match x with
  | Entero z => float_of_int z
  | Flotante f => Devuelve f
  end.

(** [str(n)] for an [int] *)
Definition str (n : Z) : string := pretty n.

(** ** Data model *)

(** The payload handed to event handlers:
    [{"idProducto": ..., "evento": ...}]. *)
Record Datos := { d_idProducto : Z; d_evento : string }.

(** A row of [db.productos]. *)
Record ProductoRow := {
  idProducto : Z;
  nombre : string;
  descripcion : string;
  precio : float;
  stock : Z
}.

(** The product DTO accepted by [guardar] and [ingresarProducto]. *)
Record ProductoDto := {
  dto_idProducto : Z;
  dto_nombre : string;
  dto_descripcion : option string;
  dto_precio : Numero;
  dto_stock : Z
}.

(** class Producto *)
Record Producto := {
  p_idProducto : Z;
  p_nombre : string;
  p_descripcion : string;
  p_precio : float;
  inventario : Z
}.

(** A row of [db.clientes], and class Cliente (same four attributes). *)
Record ClienteRow := {
  cr_idCliente : Z;
  cr_nombre : string;
  cr_direccion : string;
  cr_telefono : string
}.

Record Cliente := {
  idCliente : Z;
  cl_nombre : string;
  cl_direccion : string;
  cl_telefono : string
}.

(** Python lists are objects: a [Carrito] and a [Factura] hold a reference
    to their list of line items, not the items.  [Ref] is an address in
    the world's heap of list objects. *)
Abbreviation Ref := nat.

(** class Carrito.  [c_productos] refers to the list of
    [(idProducto, cantidad)]. *)
Record Carrito := {
  idCarrito : Z;
  c_productos : Ref;
  c_total : float
}.

(** class Factura *)
Record Factura := {
  idFactura : Z;
  f_cliente : Cliente;
  f_productos : Ref;
  f_total : float;
  f_fecha : Z
}.

Record UsuarioRow := { u_id : Z; u_nombre : string; u_pass : string }.

(** class ConexionBaseDatos: the tables created by [__new__]. *)
Record ConexionBaseDatos := {
  productos : gmap Z ProductoRow;
  clientes : gmap Z ClienteRow;
  carritos : gmap Z Carrito;
  facturas : gmap Z Factura;
  usuarios : gmap string UsuarioRow;
  seq_factura : Z
}.

(** class Contabilidad *)
Record Contabilidad := { ingresos : float; egresos : float }.

(** The callables the program subscribes to its bus: one per observer
    class; each lambda unpacks the payload into the two arguments of
    [actualizar]. *)
Inductive Handler :=
| HObservadorCarrito
| HObservadorContabilidad
| HObservadorAuditoria
| HObservadorNotificacion.

(** What the program writes to the console, one constructor per message,
    carrying the values the message is formatted from. *)
Inductive Salida :=
| InfoPublicando (nombreEvento : string) (datos : Datos)
| InfoSuscrito (nombreEvento : string)
| InfoProcesandoPago (monto : float)
| InfoTotalCarrito (idCarrito : Z) (total : float)
| InfoCarritoVaciado (idCarrito : Z)
| InfoCarritoRemovido (idCarrito idProducto : Z)
| InfoIngresoRegistrado (total : float)
| InfoProductoGuardado (nombre : string)
| InfoInventarioActualizado (idProducto nuevo : Z)
| InfoAgregado (idCliente : Z) (nombre : string) (cantidad : Z)
| ErrorLog (mensaje : string)
| PrintObservadorCarrito (idProducto : Z) (evento : string)
| PrintObservadorContabilidad (precio total : float)
| PrintObservadorAuditoria (idProducto : Z) (evento : string) (fecha : Z)
| PrintObservadorNotificacion (nombre : string) (evento : string)
| PrintFactura (idFactura : Z) (nombre : string) (total : float) (fecha : Z).

(** Everything mutable in the process.
    - [db]: the singleton store;
    - [listas]: the heap of line-item lists, addressed by [Ref];
    - [conta]: the [Contabilidad] of the accounting service;
    - [ingresos_acumulados], [historial]: class attributes of
      [ObservadorContabilidad] and [ObservadorAuditoria];
    - [suscriptores]: the dictionary of the [BusEventos] shared by the
      services;
    - [consola]: the lines written so far, oldest first;
    - [reloj], [tic]: [datetime.now()] read as an oracle, [reloj tic] being
      the next reading. *)
Record Mundo := {
  db : ConexionBaseDatos;
  listas : list (list (Z * Z));
  conta : Contabilidad;
  ingresos_acumulados : float;
  historial : list (Z * string * Z);
  suscriptores : gmap string (list Handler);
  consola : list Salida;
  reloj : nat -> Z;
  tic : nat
}.

Definition con_db (f : ConexionBaseDatos -> ConexionBaseDatos) (w : Mundo) : Mundo :=
  {| db := f (db w); listas := listas w; conta := conta w;
     ingresos_acumulados := ingresos_acumulados w; historial := historial w;
     suscriptores := suscriptores w; consola := consola w;
     reloj := reloj w; tic := tic w |}.

Definition con_listas (f : list (list (Z * Z)) -> list (list (Z * Z))) (w : Mundo) : Mundo :=
  {| db := db w; listas := f (listas w); conta := conta w;
     ingresos_acumulados := ingresos_acumulados w; historial := historial w;
     suscriptores := suscriptores w; consola := consola w;
     reloj := reloj w; tic := tic w |}.

Definition con_conta (f : Contabilidad -> Contabilidad) (w : Mundo) : Mundo :=
  {| db := db w; listas := listas w; conta := f (conta w);
     ingresos_acumulados := ingresos_acumulados w; historial := historial w;
     suscriptores := suscriptores w; consola := consola w;
     reloj := reloj w; tic := tic w |}.

Definition con_ingresos_acumulados (x : float) (w : Mundo) : Mundo :=
  {| db := db w; listas := listas w; conta := conta w;
     ingresos_acumulados := x; historial := historial w;
     suscriptores := suscriptores w; consola := consola w;
     reloj := reloj w; tic := tic w |}.

Definition con_historial (f : list (Z * string * Z) -> list (Z * string * Z)) (w : Mundo) : Mundo :=
  {| db := db w; listas := listas w; conta := conta w;
     ingresos_acumulados := ingresos_acumulados w; historial := f (historial w);
     suscriptores := suscriptores w; consola := consola w;
     reloj := reloj w; tic := tic w |}.

Definition con_suscriptores (f : gmap string (list Handler) -> gmap string (list Handler)) (w : Mundo) : Mundo :=
  {| db := db w; listas := listas w; conta := conta w;
     ingresos_acumulados := ingresos_acumulados w; historial := historial w;
     suscriptores := f (suscriptores w); consola := consola w;
     reloj := reloj w; tic := tic w |}.

Definition con_consola (f : list Salida -> list Salida) (w : Mundo) : Mundo :=
  {| db := db w; listas := listas w; conta := conta w;
     ingresos_acumulados := ingresos_acumulados w; historial := historial w;
     suscriptores := suscriptores w; consola := f (consola w);
     reloj := reloj w; tic := tic w |}.

Definition con_tic (f : nat -> nat) (w : Mundo) : Mundo :=
  {| db := db w; listas := listas w; conta := conta w;
     ingresos_acumulados := ingresos_acumulados w; historial := historial w;
     suscriptores := suscriptores w; consola := consola w;
     reloj := reloj w; tic := f (tic w) |}.

Definition con_productos (f : gmap Z ProductoRow -> gmap Z ProductoRow) (d : ConexionBaseDatos) : ConexionBaseDatos :=
  {| productos := f (productos d); clientes := clientes d; carritos := carritos d;
     facturas := facturas d; usuarios := usuarios d; seq_factura := seq_factura d |}.

Definition con_clientes (f : gmap Z ClienteRow -> gmap Z ClienteRow) (d : ConexionBaseDatos) : ConexionBaseDatos :=
  {| productos := productos d; clientes := f (clientes d); carritos := carritos d;
     facturas := facturas d; usuarios := usuarios d; seq_factura := seq_factura d |}.

Definition con_carritos (f : gmap Z Carrito -> gmap Z Carrito) (d : ConexionBaseDatos) : ConexionBaseDatos :=
  {| productos := productos d; clientes := clientes d; carritos := f (carritos d);
     facturas := facturas d; usuarios := usuarios d; seq_factura := seq_factura d |}.

Definition con_facturas (f : gmap Z Factura -> gmap Z Factura) (d : ConexionBaseDatos) : ConexionBaseDatos :=
  {| productos := productos d; clientes := clientes d; carritos := carritos d;
     facturas := f (facturas d); usuarios := usuarios d; seq_factura := seq_factura d |}.

Definition con_seq_factura (f : Z -> Z) (d : ConexionBaseDatos) : ConexionBaseDatos :=
  {| productos := productos d; clientes := clientes d; carritos := carritos d;
     facturas := facturas d; usuarios := usuarios d; seq_factura := f (seq_factura d) |}.

(** The state of a fresh process: [ConexionBaseDatos.__new__] creates empty
    tables and sets [seq_factura] to 1; nothing is subscribed or printed. *)
Definition db_inicial : ConexionBaseDatos :=
  {| productos := ∅; clientes := ∅; carritos := ∅; facturas := ∅;
     usuarios := ∅; seq_factura := 1 |}.

Definition mundo_inicial (r : nat -> Z) : Mundo :=
  {| db := db_inicial; listas := []; conta := {| ingresos := 0; egresos := 0 |};
     ingresos_acumulados := 0; historial := [];
     suscriptores := ∅; consola := []; reloj := r; tic := 0 |}.

(** The heap of lists. *)
Definition leer_lista (w : Mundo) (r : Ref) : list (Z * Z) :=
  default [] (listas w !! r).

(** A new list object; its address is the first one never used. *)
Definition nueva_lista (l : list (Z * Z)) : M Mundo Ref :=
  fun w => (con_listas (fun h => h ++ [l]) w, Devuelve (length (listas w))).

Definition escribir_lista (r : Ref) (l : list (Z * Z)) : M Mundo unit :=
  fun w => (con_listas (fun h => <[r := l]> h) w, Devuelve tt).

(** [datetime.now()] *)
Definition ahora : M Mundo Z :=
  fun w => (con_tic S w, Devuelve (reloj w (tic w))).

(** [print(...)] and the two methods of class Logger. *)
Definition escribir (s : Salida) (w : Mundo) : Mundo :=
  con_consola (fun c => c ++ [s]) w.

Definition print (s : Salida) : M Mundo unit :=
  fun w => (escribir s w, Devuelve tt).

Module Logger.
Definition info (s : Salida) : M Mundo unit := print s.
Definition error (mensaje : string) : M Mundo unit := print (ErrorLog mensaje).
End Logger.

(** ** class BusEventos

    The bus is written once for any kind of handler and any state the
    handlers act on: [llamar h datos] is the call [handler(datos)] and
    [info] is [Logger().info], which only prints.  A handler that raises
    ends the dispatch: the bus has no [try]. *)
Module BusEventos.
Section Bus.
Context {H St : Type}.
Variable llamar : H -> Datos -> M St unit.
Variable info : Salida -> St -> St.

(** [self.suscriptores.get(nombreEvento, [])] *)
Definition handlers_de (sus : gmap string (list H)) (nombreEvento : string) : list H :=
  default [] (sus !! nombreEvento).

Definition publicar (sus : gmap string (list H)) (nombreEvento : string)
    (datos : Datos) : M St unit :=
  fun s =>
    para_cada (handlers_de sus nombreEvento) (fun handler => llamar handler datos)
              (info (InfoPublicando nombreEvento datos) s).

(** [self.suscriptores.setdefault(nombreEvento, []).append(handler)] *)
Definition anexar (sus : gmap string (list H)) (nombreEvento : string)
    (handler : H) : gmap string (list H) :=
  <[nombreEvento := handlers_de sus nombreEvento ++ [handler]]> sus.

(** The result is the dictionary after the call. *)
Definition suscribir (sus : gmap string (list H)) (nombreEvento : string)
    (handler : H) : M St (gmap string (list H)) :=
  fun s => (info (InfoSuscrito nombreEvento) s, Devuelve (anexar sus nombreEvento handler)).
End Bus.
End BusEventos.

(** A handler that does nothing but note that it was called, and with
    what: the state is the list of calls made so far. *)
Definition anotar {H : Type} (h : H) (datos : Datos) : M (list (H * Datos)) unit :=
  fun llamadas => (llamadas ++ [(h, datos)], Devuelve tt).

(** The dictionary after a series of subscriptions, oldest first. *)
Definition suscribir_todos {H : Type} (subs : list (string * H))
    (sus : gmap string (list H)) : gmap string (list H) :=
  foldl (fun m p => BusEventos.anexar m p.1 p.2) sus subs.

(** The handlers subscribed to [ev] in a series of subscriptions, in the
    order of the calls. *)
Definition suscritos_a {H : Type} (ev : string) (subs : list (string * H)) : list H :=
  (filter (fun p => p.1 = ev) subs).*2.

(** ** Observers *)

Module ObservadorCarrito.
Definition actualizar (idProducto : Z) (evento : string) : M Mundo unit :=
  print (PrintObservadorCarrito idProducto evento).
End ObservadorCarrito.

Module ObservadorContabilidad.
Definition actualizar (idProducto : Z) (evento : string) : M Mundo unit :=
  fun w =>
    match productos (db w) !! idProducto with
    | None => (w, Devuelve tt)
    | Some prod =>
        let total := (ingresos_acumulados w + precio prod)%float in
        print (PrintObservadorContabilidad (precio prod) total)
              (con_ingresos_acumulados total w)
    end.
End ObservadorContabilidad.

Module ObservadorAuditoria.
Definition actualizar (idProducto : Z) (evento : string) : M Mundo unit :=
  fecha ← ahora;
  (fun w => (con_historial (fun h => h ++ [(idProducto, evento, fecha)]) w, Devuelve tt)) ≫= λ _,
  print (PrintObservadorAuditoria idProducto evento fecha).
End ObservadorAuditoria.

Module ObservadorNotificacion.
Definition actualizar (idProducto : Z) (evento : string) : M Mundo unit :=
  fun w =>
    let nombre_ := match productos (db w) !! idProducto with
                   | Some prod => nombre prod
                   | None => "#" +:+ str idProducto
                   end in
    print (PrintObservadorNotificacion nombre_ evento) w.
End ObservadorNotificacion.

(** [handler(datos)] for the program's handlers. *)
Definition llamar (h : Handler) (datos : Datos) : M Mundo unit :=
  match h with
  | HObservadorCarrito => ObservadorCarrito.actualizar (d_idProducto datos) (d_evento datos)
  | HObservadorContabilidad => ObservadorContabilidad.actualizar (d_idProducto datos) (d_evento datos)
  | HObservadorAuditoria => ObservadorAuditoria.actualizar (d_idProducto datos) (d_evento datos)
  | HObservadorNotificacion => ObservadorNotificacion.actualizar (d_idProducto datos) (d_evento datos)
  end.

(** The bus of the running program: its dictionary lives in the world. *)
Definition publicar (nombreEvento : string) (datos : Datos) : M Mundo unit :=
  fun w => BusEventos.publicar llamar escribir
             (suscriptores w) nombreEvento datos w.

Definition suscribir (nombreEvento : string) (handler : Handler) : M Mundo unit :=
  fun w =>
    match BusEventos.suscribir escribir
            (suscriptores w) nombreEvento handler w with
    | (w', Devuelve sus') => (con_suscriptores (fun _ => sus') w', Devuelve tt)
    | (w', Lanza e) => (w', Lanza e)
    end.

(** ** class PasarelaPago *)

Record ResultadoPago := { ok : bool; autorizacion : Z; monto : float }.

Module PasarelaPago.
(** The simulated gateway approves every payment; the authorisation
    string is made from the time of day. *)
Definition procesarPago (monto_ : float) (datosPago : gmap string string)
    : M Mundo ResultadoPago :=
  Logger.info (InfoProcesandoPago monto_) ≫= λ _,
  t ← ahora;
  mret {| ok := true; autorizacion := t; monto := monto_ |}.
End PasarelaPago.

(** ** class Carrito

    A [Carrito] object is reachable only through [db.carritos], where
    [agregarAlCarrito] stores it under its own [idCarrito]; a method's
    [self] is therefore given as that key.  Calling a method on a key that
    holds no cart is what Python does with [None]. *)

(** The loop of [calcularTotal]: [total += p.get("precio", 0) * cant], the
    product of a [float] price and an [int] quantity, or the [int] 0 times
    the quantity when the product is not in the table. *)
Fixpoint sumar_lineas (prods : gmap Z ProductoRow) (lineas : list (Z * Z))
    (total : float) : Resultado float :=
  match lineas with
  | [] => Devuelve total
  | (idP, cant) :: resto =>
      match prods !! idP with
      | None => sumar_lineas prods resto (total + 0)%float
      | Some p =>
          match float_of_int cant with
          | Lanza e => Lanza e
          | Devuelve c => sumar_lineas prods resto (total + precio p * c)%float
          end
      end
  end.

(** ASCII lower-casing; no other character lower-cases to a letter of
    "agotado", the only word searched for. *)
Definition lower_ascii (a : Ascii.ascii) : Ascii.ascii :=
  let n := Ascii.nat_of_ascii a in
  if ((65 <=? n) && (n <=? 90))%nat then Ascii.ascii_of_nat (n + 32) else a.

Fixpoint lower (s : string) : string :=
  match s with
  | EmptyString => EmptyString
  | String a r => String (lower_ascii a) (lower r)
  end.

(** [sub in s] *)
Fixpoint contiene (sub s : string) : bool :=
  String.prefix sub s ||
  match s with
  | EmptyString => false
  | String _ r => contiene sub r
  end.

Definition sin_carrito {A} : M Mundo A :=
  lanzar (AttributeError "'NoneType' object has no attribute").

Definition poner_carrito (k : Z) (c : Carrito) : M Mundo unit :=
  fun w => (con_db (con_carritos (fun m => <[k := c]> m)) w, Devuelve tt).

Module Carrito.
(** [Carrito(idCliente)]: allocates the empty list of the new cart. *)
Definition nuevo (idCliente : Z) : M Mundo Carrito :=
  r ← nueva_lista [];
  mret {| idCarrito := idCliente; c_productos := r; c_total := 0 |}.

Definition calcularTotal (self : Z) : M Mundo float :=
  fun w =>
    match carritos (db w) !! self with
    | None => sin_carrito w
    | Some c =>
        (total ← puro (sumar_lineas (productos (db w)) (leer_lista w (c_productos c)) 0);
         poner_carrito self {| idCarrito := idCarrito c; c_productos := c_productos c;
                               c_total := total |} ≫= λ _,
         Logger.info (InfoTotalCarrito (idCarrito c) total) ≫= λ _,
         mret total) w
    end.

Definition vaciarCarrito (self : Z) : M Mundo unit :=
  fun w =>
    match carritos (db w) !! self with
    | None => sin_carrito w
    | Some c =>
        (escribir_lista (c_productos c) [] ≫= λ _,
         poner_carrito self {| idCarrito := idCarrito c; c_productos := c_productos c;
                               c_total := 0 |} ≫= λ _,
         Logger.info (InfoCarritoVaciado (idCarrito c))) w
    end.

(** The comprehension builds a new list and rebinds [self.productos] to
    it; the old list object is left as it was. *)
Definition onProductoActualizado (self : Z) (idProducto : Z) (evento : string)
    : M Mundo unit :=
  fun w =>
    match carritos (db w) !! self with
    | None => sin_carrito w
    | Some c =>
        if contiene "agotado" (lower evento) then
          let antes := leer_lista w (c_productos c) in
          let nuevos := filter (fun l => l.1 ≠ idProducto) antes in
          (r ← nueva_lista nuevos;
           poner_carrito self {| idCarrito := idCarrito c; c_productos := r;
                                 c_total := c_total c |} ≫= λ _,
           if (length nuevos <? length antes)%nat
           then Logger.info (InfoCarritoRemovido (idCarrito c) idProducto)
           else mret tt) w
        else (w, Devuelve tt)
    end.

Definition actualizar (self : Z) (idProducto : Z) (evento : string) : M Mundo unit :=
  onProductoActualizado self idProducto evento.
End Carrito.

(** ** class Contabilidad and the accounting service *)

Module Contabilidad.
Definition registrarIngreso (venta : Factura) : M Mundo unit :=
  (fun w => (con_conta (fun c => {| ingresos := (ingresos c + f_total venta)%float;
                                    egresos := egresos c |}) w, Devuelve tt)) ≫= λ _,
  Logger.info (InfoIngresoRegistrado (f_total venta)).
End Contabilidad.

Module ContabilidadServiceImpl.
Definition registrarIngreso (factura : Factura) : M Mundo unit :=
  Contabilidad.registrarIngreso factura.
End ContabilidadServiceImpl.

(** ** class ProductoRepositorioImpl *)

(** [list(db.productos.values())].  Python lists the rows in the order in
    which their keys were first inserted; the table being kept here as a
    finite map, that order is not part of the model, and what is proved of
    a listing is about which rows it holds. *)
Definition valores_productos (w : Mundo) : list ProductoRow :=
  (map_to_list (productos (db w))).*2.

Module ProductoRepositorioImpl.
Definition obtenerPorId (idProducto_ : Z) : M Mundo Producto :=
  fun w =>
    match productos (db w) !! idProducto_ with
    | None => (w, Lanza (ValueError "Producto no encontrado"))
    | Some row =>
        (w, Devuelve {| p_idProducto := idProducto_; p_nombre := nombre row;
                        p_descripcion := descripcion row; p_precio := precio row;
                        inventario := stock row |})
    end.

Definition guardar (producto : ProductoDto) : M Mundo unit :=
  pr ← puro (a_float (dto_precio producto));
  (fun w => (con_db (con_productos (fun m =>
     <[dto_idProducto producto :=
         {| idProducto := dto_idProducto producto;
            nombre := dto_nombre producto;
            descripcion := default "" (dto_descripcion producto);
            precio := pr;
            stock := dto_stock producto |}]> m)) w, Devuelve tt)) ≫= λ _,
  Logger.info (InfoProductoGuardado (dto_nombre producto)).

Definition actualizarInventario (idProducto_ : Z) (delta : Z) : M Mundo unit :=
  fun w =>
    match productos (db w) !! idProducto_ with
    | None => (w, Lanza (ValueError "Producto no existe"))
    | Some row =>
        let nuevo := stock row + delta in
        Logger.info (InfoInventarioActualizado idProducto_ nuevo)
          (con_db (con_productos (fun m =>
             <[idProducto_ := {| idProducto := idProducto row; nombre := nombre row;
                                 descripcion := descripcion row; precio := precio row;
                                 stock := nuevo |}]> m)) w)
    end.

(** [q in p["nombre"].lower() or q in p.get("descripcion", "").lower()],
    with [lower] as above: Python's on ASCII text. *)
Definition buscar (consulta : string) : M Mundo (list ProductoRow) :=
  fun w =>
    let q := lower consulta in
    (w, Devuelve (List.filter
                    (fun p => contiene q (lower (nombre p)) ||
                              contiene q (lower (descripcion p)))
                    (valores_productos w))).
End ProductoRepositorioImpl.

(** ** class InventarioServiceImpl *)

Module InventarioServiceImpl.
Definition ingresarProducto (productoDto : ProductoDto) : M Mundo unit :=
  ProductoRepositorioImpl.guardar productoDto ≫= λ _,
  publicar "producto_actualizado"
    {| d_idProducto := dto_idProducto productoDto; d_evento := "Ingreso a inventario" |}.

Definition consultarInventario (idProducto_ : Z) : M Mundo Z :=
  p ← ProductoRepositorioImpl.obtenerPorId idProducto_;
  mret (inventario p).

Definition darSalidaProducto (idProducto_ : Z) (cantidad : Z) : M Mundo unit :=
  ProductoRepositorioImpl.actualizarInventario idProducto_ (- cantidad) ≫= λ _,
  repetir (range_veces cantidad)
    (publicar "venta_realizada"
       {| d_idProducto := idProducto_; d_evento := "Venta realizada" |}) ≫= λ _,
  stock_ ← consultarInventario idProducto_;
  if stock_ <=? 0
  then publicar "producto_actualizado"
         {| d_idProducto := idProducto_; d_evento := "Producto agotado" |}
  else mret tt.
End InventarioServiceImpl.

(** ** class OrdenServiceImpl *)

(** The row [verificar] falls back on when the client has none, and the one
    [agregarAlCarrito] stores for a new client. *)
Definition cliente_por_defecto (idCliente_ : Z) : ClienteRow :=
  {| cr_idCliente := idCliente_; cr_nombre := "Cliente " +:+ str idCliente_;
     cr_direccion := "-"; cr_telefono := "-" |}.

Module Factura.
Definition generarFactura (self : Factura) : M Mundo unit :=
  print (PrintFactura (idFactura self) (cl_nombre (f_cliente self))
           (f_total self) (f_fecha self)).
End Factura.

Module OrdenServiceImpl.
Definition verificar (idCliente_ : Z) (idCarrito_ : Z) (infoPago : gmap string string)
    : M Mundo Factura :=
  fun w =>
    match carritos (db w) !! idCarrito_ with
    | None => (w, Lanza (ValueError "Carrito vacío o inexistente"))
    | Some carrito =>
        match leer_lista w (c_productos carrito) with
        | [] => (w, Lanza (ValueError "Carrito vacío o inexistente"))
        | _ :: _ =>
            ((* 1. Calcular total *)
             total ← Carrito.calcularTotal idCarrito_;
             (* 2. Procesar pago *)
             resultado ← PasarelaPago.procesarPago total infoPago;
             (if ok resultado then mret tt
              else lanzar (RuntimeError "Pago rechazado")) ≫= λ _,
             (* 3. Descontar inventario.  No callee rebinds or mutates
                [carrito.productos] before step 7, so the loop sees the
                items the list holds when it begins. *)
             lineas ← (fun w1 => (w1, Devuelve (leer_lista w1 (c_productos carrito))));
             para_cada lineas
               (fun l => InventarioServiceImpl.darSalidaProducto l.1 l.2) ≫= λ _,
             (* 4. Crear factura *)
             idFactura_ ← (fun w1 => (w1, Devuelve (seq_factura (db w1))));
             (fun w1 => (con_db (con_seq_factura (fun n => n + 1)) w1, Devuelve tt)) ≫= λ _,
             cliente_row ← (fun w1 =>
               (w1, Devuelve (default (cliente_por_defecto idCliente_)
                                      (clientes (db w1) !! idCliente_))));
             let cliente :=
               {| idCliente := cr_idCliente cliente_row; cl_nombre := cr_nombre cliente_row;
                  cl_direccion := cr_direccion cliente_row;
                  cl_telefono := cr_telefono cliente_row |} in
             copia ← (fun w1 => nueva_lista (leer_lista w1 (c_productos carrito)) w1);
             fecha ← ahora;
             let factura :=
               {| idFactura := idFactura_; f_cliente := cliente; f_productos := copia;
                  f_total := total; f_fecha := fecha |} in
             (fun w1 => (con_db (con_facturas (fun m => <[idFactura_ := factura]> m)) w1,
                         Devuelve tt)) ≫= λ _,
             Factura.generarFactura factura ≫= λ _,
             (* 5. Registrar ingreso *)
             ContabilidadServiceImpl.registrarIngreso factura ≫= λ _,
             (* 6. Notificar evento de orden completada *)
             publicar "orden_completada"
               {| d_idProducto := 0;
                  d_evento := "Orden #" +:+ str idFactura_ +:+ " completada" |} ≫= λ _,
             (* 7. Vaciar carrito *)
             Carrito.vaciarCarrito idCarrito_ ≫= λ _,
             mret factura) w
        end
    end.
End OrdenServiceImpl.

(** ** class FachadaTienda *)

Module FachadaTienda.
Definition agregarAlCarrito (idCliente_ : Z) (idProducto_ : Z) (cantidad : Z)
    : M Mundo unit :=
  (* aseguremos cliente y carrito *)
  (fun w => (con_db (con_clientes (fun m =>
     match m !! idCliente_ with
     | Some _ => m
     | None => <[idCliente_ := cliente_por_defecto idCliente_]> m
     end)) w, Devuelve tt)) ≫= λ _,
  nuevo ← Carrito.nuevo idCliente_;
  carrito ← (fun w =>
    match carritos (db w) !! idCliente_ with
    | Some c => (w, Devuelve c)
    | None => (con_db (con_carritos (fun m => <[idCliente_ := nuevo]> m)) w, Devuelve nuevo)
    end);
  (* validar stock *)
  prod ← (fun w => (w, Devuelve (productos (db w) !! idProducto_)));
  match prod with
  | None => Logger.error "Producto no encontrado"
  | Some prod =>
      if stock prod <? cantidad then Logger.error "Stock insuficiente"
      else
        (fun w => escribir_lista (c_productos carrito)
                    (leer_lista w (c_productos carrito) ++ [(idProducto_, cantidad)]) w) ≫= λ _,
        Carrito.calcularTotal idCliente_ ≫= λ _,
        Logger.info (InfoAgregado idCliente_ (nombre prod) cantidad)
  end.

Definition finalizarCompra (idCliente_ : Z) (idCarrito_ : Z) (infoPago : gmap string string)
    : M Mundo Factura :=
  OrdenServiceImpl.verificar idCliente_ idCarrito_ infoPago.
End FachadaTienda.

(** ** class CatalogoServiceImpl, and the search of the repository *)

(** [v >= w] and [v <= w] for a [float] [v] and an [int] [w]: Python
    compares the two exactly, without rounding the integer; an infinity
    is above or below every integer, and a NaN compares false. *)
Definition comparar_float_int (f : float) (z : Z) : option comparison :=
  match Prim2SF f with
  | S754_nan => None
  | S754_infinity s => Some (if s then Lt else Gt)
  | S754_zero _ => Some (0 ?= z)
  | S754_finite s m e =>
      let v := if s then Z.neg m else Z.pos m in
      Some (if 0 <=? e then (v * 2 ^ e ?= z) else (v ?= z * 2 ^ (- e)))
  end.

(** [precio >= x] and [precio <= x] for a bound [x] given as an [int] or
    as a [float]. *)
Definition precio_ge (f : float) (x : Numero) : bool :=
  match x with
  | Flotante g => PrimFloat.leb g f
  | Entero z => match comparar_float_int f z with
                | Some Gt | Some Eq => true
                | _ => false
                end
  end.

Definition precio_le (f : float) (x : Numero) : bool :=
  match x with
  | Flotante g => PrimFloat.leb f g
  | Entero z => match comparar_float_int f z with
                | Some Lt | Some Eq => true
                | _ => false
                end
  end.

(** The keys [listarProductos] reads from its [filtros]; a key that is
    absent (or [None]) is [None] here, and [disponibles] is its truth
    value. *)
Record Filtros := {
  min_precio : option Numero;
  max_precio : option Numero;
  disponibles : bool
}.

Module CatalogoServiceImpl.
(** [filtros] is [None] for a call with [None] or with an empty dict. *)
Definition listarProductos (filtros : option Filtros) : M Mundo (list ProductoRow) :=
  fun w =>
    let prods := valores_productos w in
    match filtros with
    | None => (w, Devuelve prods)
    | Some f =>
        let prods := match min_precio f with
                     | Some minp => List.filter (fun p => precio_ge (precio p) minp) prods
                     | None => prods
                     end in
        let prods := match max_precio f with
                     | Some maxp => List.filter (fun p => precio_le (precio p) maxp) prods
                     | None => prods
                     end in
        let prods := if disponibles f
                     then List.filter (fun p => 0 <? stock p) prods
                     else prods in
        (w, Devuelve prods)
    end.

Definition buscar (consulta : string) : M Mundo (list ProductoRow) :=
  ProductoRepositorioImpl.buscar consulta.
End CatalogoServiceImpl.

(** ** Runs of the program

    What a caller holding the services and the facade can do, one call at
    a time.  A call that raises leaves the world as it was when the
    exception escaped, and the caller goes on. *)
Inductive Llamada :=
| LlSuscribir (nombreEvento : string) (handler : Handler)
| LlIngresarProducto (dto : ProductoDto)
| LlActualizarInventario (idProducto delta : Z)
| LlDarSalidaProducto (idProducto cantidad : Z)
| LlAgregarAlCarrito (idCliente idProducto cantidad : Z)
| LlFinalizarCompra (idCliente idCarrito : Z) (infoPago : gmap string string)
| LlVaciarCarrito (idCarrito : Z)
| LlCarritoActualizar (idCarrito idProducto : Z) (evento : string).

(** The outcome of a call, as its caller sees it: the invoice of a
    checkout, nothing for the other calls, or the exception. *)
Definition llamar_a (ll : Llamada) : M Mundo (option Factura) :=
  match ll with
  | LlSuscribir ev h => suscribir ev h ≫= λ _, mret None
  | LlIngresarProducto dto => InventarioServiceImpl.ingresarProducto dto ≫= λ _, mret None
  | LlActualizarInventario i d =>
      ProductoRepositorioImpl.actualizarInventario i d ≫= λ _, mret None
  | LlDarSalidaProducto i n =>
      InventarioServiceImpl.darSalidaProducto i n ≫= λ _, mret None
  | LlAgregarAlCarrito c i n => FachadaTienda.agregarAlCarrito c i n ≫= λ _, mret None
  | LlFinalizarCompra c k info => f ← FachadaTienda.finalizarCompra c k info; mret (Some f)
  | LlVaciarCarrito k => Carrito.vaciarCarrito k ≫= λ _, mret None
  | LlCarritoActualizar k i ev => Carrito.actualizar k i ev ≫= λ _, mret None
  end.

Fixpoint ejecutar (lls : list Llamada) (w : Mundo) : Mundo * list (Resultado (option Factura)) :=
  match lls with
  | [] => (w, [])
  | ll :: resto =>
      let '(w1, r) := llamar_a ll w in
      let '(w2, rs) := ejecutar resto w1 in
      (w2, r :: rs)
  end.

(** The invoices returned by the checkouts of a run that succeeded, in
    order. *)
Fixpoint facturas_emitidas (rs : list (Resultado (option Factura))) : list Factura :=
  match rs with
  | [] => []
  | Devuelve (Some f) :: resto => f :: facturas_emitidas resto
  | _ :: resto => facturas_emitidas resto
  end.

(** ** The demonstration of the source file ([demo]), up to the checkout *)

Definition zapatilla_deportiva : ProductoDto :=
  {| dto_idProducto := 101; dto_nombre := "Zapatilla Deportiva";
     dto_descripcion := Some "Running pro"; dto_precio := Entero 120000; dto_stock := 10 |}.
Definition zapatilla_casual : ProductoDto :=
  {| dto_idProducto := 102; dto_nombre := "Zapatilla Casual";
     dto_descripcion := Some "Daily"; dto_precio := Entero 95000; dto_stock := 5 |}.
Definition zapatilla_urbana : ProductoDto :=
  {| dto_idProducto := 103; dto_nombre := "Zapatilla Urbana";
     dto_descripcion := Some "Street"; dto_precio := Entero 130000; dto_stock := 2 |}.

Definition demo_suscripciones : list Llamada :=
  [ LlSuscribir "producto_actualizado" HObservadorCarrito;
    LlSuscribir "producto_actualizado" HObservadorAuditoria;
    LlSuscribir "producto_actualizado" HObservadorNotificacion;
    LlSuscribir "venta_realizada" HObservadorCarrito;
    LlSuscribir "venta_realizada" HObservadorContabilidad;
    LlSuscribir "venta_realizada" HObservadorAuditoria;
    LlSuscribir "venta_realizada" HObservadorNotificacion;
    LlSuscribir "orden_completada" HObservadorAuditoria ].

Definition demo_productos : list Llamada :=
  [ LlIngresarProducto zapatilla_deportiva;
    LlIngresarProducto zapatilla_casual;
    LlIngresarProducto zapatilla_urbana ].

Definition tarjeta : gmap string string :=
  <["metodo" := "tarjeta"]> (<["numero" := "4111-****"]> ∅).

Definition reloj_demo : nat -> Z := fun n => Z.of_nat n.

(** The world just before [fachada.finalizarCompra] in [demo]. *)
Definition mundo_demo : Mundo :=
  (ejecutar (demo_suscripciones ++ demo_productos ++
             [LlAgregarAlCarrito 1 101 2; LlAgregarAlCarrito 1 102 1])
            (mundo_inicial reloj_demo)).1.


(** ** Notions used in the statements *)

(** The events published so far, oldest first: [publicar] logs each one
    before dispatching it. *)
Fixpoint publicaciones (c : list Salida) : list (string * Datos) :=
  match c with
  | [] => []
  | InfoPublicando ev d :: r => (ev, d) :: publicaciones r
  | _ :: r => publicaciones r
  end.

(** Two worlds that differ at most in what was printed, in the observers'
    own attributes and in the clock readings consumed. *)
Definition mismo_nucleo (w w' : Mundo) : Prop :=
  db w' = db w /\ listas w' = listas w /\ conta w' = conta w /\
  suscriptores w' = suscriptores w /\ reloj w' = reloj w.

Definition venta_realizada (idP : Z) : string * Datos :=
  ("venta_realizada", {| d_idProducto := idP; d_evento := "Venta realizada" |}).

Definition producto_agotado (idP : Z) : string * Datos :=
  ("producto_actualizado", {| d_idProducto := idP; d_evento := "Producto agotado" |}).

(** A product row with its stock changed by [delta]. *)
Definition con_stock (row : ProductoRow) (delta : Z) : ProductoRow :=
  {| idProducto := idProducto row; nombre := nombre row;
     descripcion := descripcion row; precio := precio row;
     stock := stock row + delta |}.

(** A cart with its cached total replaced. *)
Definition con_total (c : Carrito) (t : float) : Carrito :=
  {| idCarrito := idCarrito c; c_productos := c_productos c; c_total := t |}.

(** [Cliente(row["idCliente"], row["nombre"], row["direccion"], row["telefono"])] *)
Definition cliente_de (row : ClienteRow) : Cliente :=
  {| idCliente := cr_idCliente row; cl_nombre := cr_nombre row;
     cl_direccion := cr_direccion row; cl_telefono := cr_telefono row |}.

(** The product table after the dispatch loop of a checkout over [lineas],
    and whether the loop got to its end: it stops, keeping the decrements
    already made, at the first line whose product is not in the table. *)
Fixpoint descontar (lineas : list (Z * Z)) (prods : gmap Z ProductoRow)
    : gmap Z ProductoRow * bool :=
  match lineas with
  | [] => (prods, true)
  | (idP, cant) :: resto =>
      match prods !! idP with
      | None => (prods, false)
      | Some row => descontar resto (<[idP := con_stock row (- cant)]> prods)
      end
  end.

(** The sum the specification asks of an invoice total: over the line
    items, unit price times quantity, with the price the product has in the
    table; added up in binary64 from 0.0 in the order of the lines, a line
    whose product is not in the table counting 0. *)
Definition precio_por_cantidad (prods : gmap Z ProductoRow) (l : Z * Z) : float :=
  match prods !! l.1 with
  | Some p => (precio p * redondear l.2)%float
  | None => 0%float
  end.

Definition suma_de_lineas (prods : gmap Z ProductoRow) (lineas : list (Z * Z)) : float :=
  fold_left (fun acc l => (acc + precio_por_cantidad prods l)%float) lineas 0%float.

(** A line a checkout can carry out: its product is in the table and its
    quantity is within the range of a float. *)
Definition linea_valida (prods : gmap Z ProductoRow) (l : Z * Z) : Prop :=
  is_Some (prods !! l.1) /\ exists c, float_of_int l.2 = Devuelve c.

(** What a checkout that returned invoice [f] has done, from world [w] to
    world [w'], to the cart [c] stored under [k] and its lines [lineas]. *)
Record compra_hecha (idC k : Z) (w w' : Mundo) (f : Factura)
    (c : Carrito) (lineas : list (Z * Z)) : Prop := {
  ch_carrito : carritos (db w) !! k = Some c;
  ch_lineas : leer_lista w (c_productos c) = lineas;
  ch_no_vacio : lineas <> [];
  ch_total : sumar_lineas (productos (db w)) lineas 0 = Devuelve (f_total f);
  ch_descontar : descontar lineas (productos (db w)) = (productos (db w'), true);
  ch_idFactura : idFactura f = seq_factura (db w);
  ch_cliente : f_cliente f =
               cliente_de (default (cliente_por_defecto idC) (clientes (db w) !! idC));
  ch_copia : f_productos f = length (listas w);
  ch_clientes : clientes (db w') = clientes (db w);
  ch_usuarios : usuarios (db w') = usuarios (db w);
  ch_carritos : carritos (db w') = <[k := con_total c 0]> (carritos (db w));
  ch_facturas : facturas (db w') = <[seq_factura (db w) := f]> (facturas (db w));
  ch_seq : seq_factura (db w') = seq_factura (db w) + 1;
  ch_listas : listas w' = <[c_productos c := []]> (listas w ++ [lineas]);
  ch_conta : conta w' = {| ingresos := (ingresos (conta w) + f_total f)%float;
                           egresos := egresos (conta w) |};
  ch_suscriptores : suscriptores w' = suscriptores w;
  ch_reloj : reloj w' = reloj w
}.

(** The shape every world reached by the program has: a cart refers to an
    allocated list; an invoice is stored under a number already given out,
    and refers to an allocated list that no cart refers to. *)
Definition invariante (w : Mundo) : Prop :=
  (forall k c, carritos (db w) !! k = Some c ->
               (c_productos c < length (listas w))%nat) /\
  (forall i f, facturas (db w) !! i = Some f ->
               i < seq_factura (db w) /\
               (f_productos f < length (listas w))%nat /\
               forall k c, carritos (db w) !! k = Some c ->
                           c_productos c <> f_productos f).

(** Every invoice stored in [w] is stored unchanged in [w'], and the list
    it refers to holds the same items. *)
Definition conserva_facturas (w w' : Mundo) : Prop :=
  forall i f, facturas (db w) !! i = Some f ->
              facturas (db w') !! i = Some f /\
              listas w' !! f_productos f = listas w !! f_productos f.

(** A list address that the carts of [w] may write to or be given: the
    list of one of its carts, or one of [n] lists allocated since. *)
Definition propia (w : Mundo) (n : nat) (r : nat) : Prop :=
  (exists k0 c0, carritos (db w) !! k0 = Some c0 /\ c_productos c0 = r) \/
  (length (listas w) <= r < length (listas w) + n)%nat.

(** What a call that issues no invoice may do to invoices, lists and carts:
    nothing to the invoices and their counter; it may allocate lists, write
    to lists that a cart refers to, and make carts refer to lists of carts
    or to the new ones. *)
Definition sin_facturar (w w' : Mundo) : Prop :=
  facturas (db w') = facturas (db w) /\
  seq_factura (db w') = seq_factura (db w) /\
  (length (listas w) <= length (listas w'))%nat /\
  (forall r, (r < length (listas w))%nat ->
             (forall k c, carritos (db w) !! k = Some c -> c_productos c <> r) ->
             listas w' !! r = listas w !! r) /\
  (forall k c', carritos (db w') !! k = Some c' ->
                propia w (length (listas w') - length (listas w)) (c_productos c')).

(** The world [demo] would be in had the client put product 102 (five in
    stock) in the cart twice, three units each time, instead. *)
Definition mundo_sobreventa : Mundo :=
  (ejecutar (demo_suscripciones ++ demo_productos ++
             [LlAgregarAlCarrito 1 102 3; LlAgregarAlCarrito 1 102 3])
            (mundo_inicial reloj_demo)).1.

(** ** Further notions: the inventory and its observers *)

#[global] Instance Handler_eq_dec : EqDecision Handler.
Proof. solve_decision. Defined.

(** How many times a handler is subscribed in a list of subscribers. *)
Definition veces (h : Handler) (hs : list Handler) : nat :=
  length (filter (fun x => x = h) hs).

(** The audit history without its timestamps. *)
Definition sin_fecha (h : list (Z * string * Z)) : list (Z * string) :=
  (fun r => r.1) <$> h.

(** The running total of [ObservadorContabilidad] after [k] events about
    product [idP]: the product's price is added once per event, and
    nothing is added for a product that is not in the table. *)
Definition acumular (prods : gmap Z ProductoRow) (idP : Z) (k : nat) (acc : float) : float :=
  match prods !! idP with
  | Some p => Nat.iter k (fun a => (a + precio p)%float) acc
  | None => acc
  end.

Definition ingreso_a_inventario (idP : Z) : string * Datos :=
  ("producto_actualizado", {| d_idProducto := idP; d_evento := "Ingreso a inventario" |}).

(** The row [guardar] stores for a DTO whose price converts to [pr]. *)
Definition fila_de (dto : ProductoDto) (pr : float) : ProductoRow :=
  {| idProducto := dto_idProducto dto; nombre := dto_nombre dto;
     descripcion := default "" (dto_descripcion dto);
     precio := pr; stock := dto_stock dto |}.

(** ** Further notions: text *)

(** Text made of ASCII characters only, on which [lower] is Python's
    [str.lower]. *)
Definition es_ascii (s : string) : Prop :=
  Forall (fun a => (Ascii.nat_of_ascii a < 128)%nat) (String.list_ascii_of_string s).

(** ** Further notions: checkout *)

(** The number of units of product [idP] in a list of line items. *)
Definition cantidad_de (idP : Z) (lineas : list (Z * Z)) : Z :=
  foldr (fun l acc => if decide (l.1 = idP) then l.2 + acc else acc) 0 lineas.

(** A world of [demo] in which the cart of client 1 holds two units of
    product 101 and then one unit of a product, 999, that is not in the
    table: [db] and the lists are public attributes, and nothing keeps a
    caller from writing to them. *)
Definition mundo_linea_huerfana : Mundo :=
  con_listas (fun h => <[0%nat := [(101, 2); (999, 1)]]> h) mundo_demo.

(** ** Further notions: the worlds the program reaches *)

(** How the tables hang together: a cart is stored under its own id and
    its owner has a row in the client table; two carts never refer to the
    same list; a product row is stored under its own id; and every line of
    every cart names a product of the table. *)
Record ordenado (w : Mundo) : Prop := {
  or_carrito : forall k c, carritos (db w) !! k = Some c ->
                           idCarrito c = k /\ is_Some (clientes (db w) !! k);
  or_listas : forall k1 k2 c1 c2,
      carritos (db w) !! k1 = Some c1 -> carritos (db w) !! k2 = Some c2 ->
      c_productos c1 = c_productos c2 -> k1 = k2;
  or_producto : forall k p, productos (db w) !! k = Some p -> idProducto p = k;
  or_lineas : forall k c l,
      carritos (db w) !! k = Some c -> l ∈ leer_lista w (c_productos c) ->
      is_Some (productos (db w) !! l.1)
}.


(** The events the dispatch loop of a checkout publishes for the lines of
    a cart, from the product table it starts with: for each line in order,
    one sale event per unit, then the sold-out event when the stock left is
    not positive.  The loop ends at the first line whose product is not in
    the table. *)
Fixpoint eventos_despacho (lineas : list (Z * Z)) (prods : gmap Z ProductoRow)
    : list (string * Datos) :=
  match lineas with
  | [] => []
  | (idP, cant) :: resto =>
      match prods !! idP with
      | None => []
      | Some row =>
          replicate (Z.to_nat cant) (venta_realizada idP) ++
          (if stock row - cant <=? 0 then [producto_agotado idP] else []) ++
          eventos_despacho resto (<[idP := con_stock row (- cant)]> prods)
      end
  end.

Definition orden_completada (idF : Z) : string * Datos :=
  ("orden_completada",
   {| d_idProducto := 0; d_evento := "Orden #" +:+ str idF +:+ " completada" |}).

(** * Properties *)

(** ** Reasoning about computations *)

Lemma bind_devuelve {St A B} (m : M St A) (f : A -> M St B) s s1 a :
  m s = (s1, Devuelve a) -> (m ≫= f) s = f a s1.
Proof. intros E. unfold mbind, M_bind. by rewrite E. Qed.

Lemma bind_lanza {St A B} (m : M St A) (f : A -> M St B) s s1 e :
  m s = (s1, Lanza e) -> (m ≫= f) s = (s1, Lanza e).
Proof. intros E. unfold mbind, M_bind. by rewrite E. Qed.

(** ** The event bus *)

Section BusProps.
Context {H St : Type}.
Variable llamar_ : H -> Datos -> M St unit.
Variable info : Salida -> St -> St.

Lemma handlers_de_anexar (sus : gmap string (list H)) ev h ev' :
  BusEventos.handlers_de (BusEventos.anexar sus ev h) ev' =
  if decide (ev = ev') then BusEventos.handlers_de sus ev ++ [h]
  else BusEventos.handlers_de sus ev'.
Proof.
  unfold BusEventos.anexar, BusEventos.handlers_de at 1. rewrite lookup_insert.
  by destruct (decide (ev = ev')).
Qed.

Lemma publicar_sin_suscriptores (sus : gmap string (list H)) ev d s :
  BusEventos.handlers_de sus ev = [] ->
  BusEventos.publicar llamar_ info sus ev d s = (info (InfoPublicando ev d) s, Devuelve tt).
Proof. intros E. unfold BusEventos.publicar. by rewrite E. Qed.
End BusProps.

Lemma para_cada_anotar {H : Type} (hs : list H) d (t : list (H * Datos)) :
  para_cada hs (fun h => anotar h d) t = (t ++ map (fun h => (h, d)) hs, Devuelve tt).
Proof.
  revert t. induction hs as [|h hs IH]; intros t; simpl.
  - by rewrite app_nil_r.
  - unfold mbind, M_bind, anotar at 1. rewrite IH. by rewrite <- app_assoc.
Qed.

Lemma handlers_de_suscribir_todos {H : Type} (subs : list (string * H)) sus ev :
  BusEventos.handlers_de (suscribir_todos subs sus) ev =
  BusEventos.handlers_de sus ev ++ suscritos_a ev subs.
Proof.
  revert sus. induction subs as [|[ev' h] subs IH]; intros sus; simpl.
  - by rewrite app_nil_r.
  - unfold suscribir_todos in *. simpl. rewrite IH, handlers_de_anexar.
    unfold suscritos_a. rewrite filter_cons. simpl.
    destruct (decide (ev' = ev)) as [->|Hne]; simpl; [by rewrite <- app_assoc | done].
Qed.

Lemma para_cada_app {St A} (l1 l2 : list A) (f : A -> M St unit) (s : St) :
  para_cada (l1 ++ l2) f s = (para_cada l1 f ≫= λ _, para_cada l2 f) s.
Proof.
  revert s. induction l1 as [|x l1 IH]; intros s; cbn [app para_cada].
  - unfold mbind, M_bind, mret, M_ret. reflexivity.
  - unfold mbind, M_bind in *. destruct (f x s) as [s1 [[]|e]]; [apply IH | done].
Qed.

Lemma para_cada_uno {St A} (x : A) (f : A -> M St unit) (s : St) :
  para_cada [x] f s = f x s.
Proof.
  cbn [para_cada]. unfold mbind, M_bind, mret, M_ret.
  by destruct (f x s) as [s1 [[]|e]].
Qed.

(** C7. For every event name, [suscribir] appends the handler at the end of
    that name's list and leaves the other names alone, so a handler
    registered twice is listed twice.  [publicar] calls the handlers
    registered for the name once each, in the order of registration, with
    the payload: whatever the handlers do, publishing after one more
    subscription is publishing as before and then calling the new handler
    (unless an earlier one raised); and on handlers that note their calls,
    after any series of subscriptions the calls made by a publication are
    exactly the handlers subscribed to that name, in order, each with the
    payload.  When the name has no subscriber no handler is called and
    nothing is raised: the state is the one left by the bus's own log
    line, which in the program means that only the console has changed. *)
Theorem bus_suscribir_publicar :
  forall (H St : Type) (llamar_ : H -> Datos -> M St unit) (info : Salida -> St -> St),
    (forall (sus : gmap string (list H)) ev h s,
        exists sus',
          BusEventos.suscribir info sus ev h s = (info (InfoSuscrito ev) s, Devuelve sus') /\
          BusEventos.handlers_de sus' ev = BusEventos.handlers_de sus ev ++ [h] /\
          (forall ev', ev' <> ev ->
                       BusEventos.handlers_de sus' ev' = BusEventos.handlers_de sus ev')) /\
    (forall (sus : gmap string (list H)) ev h,
        BusEventos.handlers_de (BusEventos.anexar (BusEventos.anexar sus ev h) ev h) ev =
        BusEventos.handlers_de sus ev ++ [h; h]) /\
    (forall (sus : gmap string (list H)) ev h d s,
        BusEventos.publicar llamar_ info (BusEventos.anexar sus ev h) ev d s =
        (BusEventos.publicar llamar_ info sus ev d ≫= λ _, llamar_ h d) s) /\
    (forall (sus : gmap string (list H)) ev d (t : list (H * Datos)),
        BusEventos.publicar anotar (fun _ t => t) sus ev d t =
        (t ++ map (fun h => (h, d)) (BusEventos.handlers_de sus ev), Devuelve tt)) /\
    (forall (subs : list (string * H)) ev d,
        BusEventos.publicar anotar (fun _ t => t) (suscribir_todos subs ∅) ev d [] =
        (map (fun h => (h, d)) (suscritos_a ev subs), Devuelve tt)) /\
    (forall (sus : gmap string (list H)) ev d s,
        BusEventos.handlers_de sus ev = [] ->
        BusEventos.publicar llamar_ info sus ev d s =
        (info (InfoPublicando ev d) s, Devuelve tt)) /\
    (forall w ev d,
        BusEventos.handlers_de (suscriptores w) ev = [] ->
        publicar ev d w =
        (con_consola (fun c => c ++ [InfoPublicando ev d]) w, Devuelve tt)).
Proof.
  intros H St llamar_ info. repeat split.
  - intros sus ev h s. exists (BusEventos.anexar sus ev h). repeat split.
    + rewrite handlers_de_anexar. by rewrite decide_True.
    + intros ev' Hne. rewrite handlers_de_anexar. by rewrite decide_False.
  - intros sus ev h. rewrite !handlers_de_anexar, !decide_True by done.
    by rewrite <- app_assoc.
  - intros sus ev h d s. unfold BusEventos.publicar.
    rewrite handlers_de_anexar, decide_True by done.
    rewrite para_cada_app. unfold mbind, M_bind.
    destruct (para_cada _ _ _) as [s1 [[]|e]]; [|done].
    exact (para_cada_uno h (fun x => llamar_ x d) s1).
  - intros. unfold BusEventos.publicar. apply para_cada_anotar.
  - intros. unfold BusEventos.publicar. rewrite para_cada_anotar.
    rewrite handlers_de_suscribir_todos. unfold BusEventos.handlers_de.
    by rewrite lookup_empty.
  - intros. by apply publicar_sin_suscriptores.
  - intros w ev d Hno. unfold publicar. by rewrite publicar_sin_suscriptores.
Qed.

(** ** Frame lemmas for the observers and the bus of the program *)

Ltac simpl_mundo :=
  cbn [db listas conta ingresos_acumulados historial suscriptores consola reloj tic
       con_db con_listas con_conta con_ingresos_acumulados con_historial
       con_suscriptores con_consola con_tic escribir
       productos clientes carritos facturas usuarios seq_factura
       con_productos con_clientes con_carritos con_facturas con_seq_factura
       ingresos egresos fst snd] in *.

Lemma db_ext (d d' : ConexionBaseDatos) :
  productos d = productos d' -> clientes d = clientes d' ->
  carritos d = carritos d' -> facturas d = facturas d' ->
  usuarios d = usuarios d' -> seq_factura d = seq_factura d' -> d = d'.
Proof. destruct d, d'; simpl; intros; by subst. Qed.

Lemma publicaciones_app c1 c2 :
  publicaciones (c1 ++ c2) = publicaciones c1 ++ publicaciones c2.
Proof.
  induction c1 as [|s c1 IH]; [done|]. destruct s; simpl; by rewrite ?IH.
Qed.

Lemma mismo_nucleo_refl w : mismo_nucleo w w.
Proof. by repeat split. Qed.

Lemma mismo_nucleo_trans w1 w2 w3 :
  mismo_nucleo w1 w2 -> mismo_nucleo w2 w3 -> mismo_nucleo w1 w3.
Proof. unfold mismo_nucleo. intros (?&?&?&?&?) (?&?&?&?&?). repeat split; congruence. Qed.

Lemma llamar_spec h d w :
  exists w', llamar h d w = (w', Devuelve tt) /\ mismo_nucleo w w' /\
             publicaciones (consola w') = publicaciones (consola w).
Proof.
  destruct h; unfold llamar.
  - eexists. split; [reflexivity|]. split; [by repeat split|].
    simpl_mundo. by rewrite publicaciones_app, app_nil_r.
  - unfold ObservadorContabilidad.actualizar.
    destruct (productos (db w) !! d_idProducto d).
    + eexists. split; [reflexivity|]. split; [by repeat split|].
      simpl_mundo. by rewrite publicaciones_app, app_nil_r.
    + eexists. split; [reflexivity|]. split; [by repeat split|]. done.
  - eexists. split; [reflexivity|]. split; [by repeat split|].
    simpl_mundo. by rewrite publicaciones_app, app_nil_r.
  - eexists. split; [reflexivity|]. split; [by repeat split|].
    simpl_mundo. by rewrite publicaciones_app, app_nil_r.
Qed.

Lemma para_cada_llamar hs d w :
  exists w', para_cada hs (fun h => llamar h d) w = (w', Devuelve tt) /\
             mismo_nucleo w w' /\
             publicaciones (consola w') = publicaciones (consola w).
Proof.
  revert w. induction hs as [|h hs IH]; intros w.
  - exists w. split; [done|]. split; [apply mismo_nucleo_refl | done].
  - destruct (llamar_spec h d w) as (w1 & E1 & N1 & P1).
    destruct (IH w1) as (w2 & E2 & N2 & P2).
    exists w2. split; [|split].
    + cbn [para_cada]. by rewrite (bind_devuelve _ _ _ _ _ E1).
    + by eapply mismo_nucleo_trans.
    + congruence.
Qed.

Lemma publicar_spec ev d w :
  exists w', publicar ev d w = (w', Devuelve tt) /\ mismo_nucleo w w' /\
             publicaciones (consola w') = publicaciones (consola w) ++ [(ev, d)].
Proof.
  unfold publicar, BusEventos.publicar.
  destruct (para_cada_llamar (BusEventos.handlers_de (suscriptores w) ev) d
              (escribir (InfoPublicando ev d) w)) as (w' & E & N & P).
  exists w'. split; [done|]. split.
  - eapply mismo_nucleo_trans; [|exact N]. by repeat split.
  - rewrite P. simpl_mundo. by rewrite publicaciones_app.
Qed.

Lemma repetir_publicar n ev d w :
  exists w', repetir n (publicar ev d) w = (w', Devuelve tt) /\ mismo_nucleo w w' /\
             publicaciones (consola w') = publicaciones (consola w) ++ replicate n (ev, d).
Proof.
  revert w. induction n as [|n IH]; intros w.
  - exists w. split; [done|]. split; [apply mismo_nucleo_refl|]. by rewrite app_nil_r.
  - destruct (publicar_spec ev d w) as (w1 & E1 & N1 & P1).
    destruct (IH w1) as (w2 & E2 & N2 & P2).
    exists w2. split; [|split].
    + cbn [repetir]. by rewrite (bind_devuelve _ _ _ _ _ E1).
    + by eapply mismo_nucleo_trans.
    + rewrite P2, P1. by rewrite <- app_assoc.
Qed.

(** ** The repository and the inventory service *)

Lemma actualizarInventario_ausente idP delta w :
  productos (db w) !! idP = None ->
  ProductoRepositorioImpl.actualizarInventario idP delta w =
  (w, Lanza (ValueError "Producto no existe")).
Proof. intros E. unfold ProductoRepositorioImpl.actualizarInventario. by rewrite E. Qed.

Lemma actualizarInventario_presente idP delta w row :
  productos (db w) !! idP = Some row ->
  ProductoRepositorioImpl.actualizarInventario idP delta w =
  (escribir (InfoInventarioActualizado idP (stock row + delta))
     (con_db (con_productos (fun m => <[idP := con_stock row delta]> m)) w),
   Devuelve tt).
Proof. intros E. unfold ProductoRepositorioImpl.actualizarInventario. by rewrite E. Qed.

Lemma darSalidaProducto_ausente idP n w :
  productos (db w) !! idP = None ->
  InventarioServiceImpl.darSalidaProducto idP n w =
  (w, Lanza (ValueError "Producto no existe")).
Proof.
  intros E. unfold InventarioServiceImpl.darSalidaProducto.
  by rewrite (bind_lanza _ _ _ _ _ (actualizarInventario_ausente _ _ _ E)).
Qed.

Lemma darSalidaProducto_presente idP n w row :
  productos (db w) !! idP = Some row ->
  exists w',
    InventarioServiceImpl.darSalidaProducto idP n w = (w', Devuelve tt) /\
    db w' = con_productos (fun m => <[idP := con_stock row (- n)]> m) (db w) /\
    listas w' = listas w /\ conta w' = conta w /\
    suscriptores w' = suscriptores w /\ reloj w' = reloj w /\
    publicaciones (consola w') =
      publicaciones (consola w) ++ replicate (Z.to_nat n) (venta_realizada idP) ++
      (if stock row - n <=? 0 then [producto_agotado idP] else []).
Proof.
  intros E. unfold InventarioServiceImpl.darSalidaProducto.
  rewrite (bind_devuelve _ _ _ _ _ (actualizarInventario_presente _ (- n) _ _ E)).
  set (w0 := escribir _ _).
  destruct (repetir_publicar (range_veces n) "venta_realizada"
              {| d_idProducto := idP; d_evento := "Venta realizada" |} w0)
    as (w1 & E1 & (D1 & L1 & C1 & S1 & R1) & P1).
  rewrite (bind_devuelve _ _ _ _ _ E1).
  assert (Hrow : productos (db w1) !! idP = Some (con_stock row (- n))).
  { rewrite D1. subst w0. simpl_mundo. apply lookup_insert_eq. }
  unfold InventarioServiceImpl.consultarInventario, ProductoRepositorioImpl.obtenerPorId.
  unfold mbind at 1 2, M_bind. rewrite Hrow. unfold mret, M_ret.
  cbn [inventario con_stock stock].
  replace (stock row + - n) with (stock row - n) by lia.
  assert (P0 : publicaciones (consola w0) = publicaciones (consola w)).
  { subst w0. simpl_mundo. by rewrite publicaciones_app, app_nil_r. }
  destruct (stock row - n <=? 0).
  - destruct (publicar_spec "producto_actualizado"
                {| d_idProducto := idP; d_evento := "Producto agotado" |} w1)
      as (w2 & E2 & (D2 & L2 & C2 & S2 & R2) & P2).
    exists w2. rewrite E2. split; [done|].
    subst w0. simpl_mundo.
    repeat split; try congruence.
    rewrite P2, P1, P0. unfold range_veces. by rewrite <- app_assoc.
  - exists w1. split; [done|]. subst w0. simpl_mundo.
    repeat split; try congruence.
    rewrite P1, P0. unfold range_veces. by rewrite app_nil_r.
Qed.

(** C4. For an existing product and a quantity [n] (a number of units, so
    not negative), [darSalidaProducto] returns normally and publishes,
    in this order and nothing else: exactly [n] "venta_realizada" events
    for that product, then one "Producto agotado" event if the stock it
    leaves is 0 and none if the stock it leaves is positive.  The stock
    left is the old stock less [n]. *)
Theorem darSalidaProducto_eventos :
  forall w idP n row,
    productos (db w) !! idP = Some row ->
    0 <= n ->
    exists w' ventas agotado row',
      InventarioServiceImpl.darSalidaProducto idP n w = (w', Devuelve tt) /\
      publicaciones (consola w') = publicaciones (consola w) ++ ventas ++ agotado /\
      ventas = replicate (Z.to_nat n) (venta_realizada idP) /\
      Z.of_nat (length ventas) = n /\
      productos (db w') !! idP = Some row' /\
      stock row' = stock row - n /\
      (stock row' = 0 -> agotado = [producto_agotado idP]) /\
      (stock row' > 0 -> agotado = []).
Proof.
  intros w idP n row Hrow Hn.
  destruct (darSalidaProducto_presente idP n w row Hrow)
    as (w' & E & D & _ & _ & _ & _ & P).
  exists w', (replicate (Z.to_nat n) (venta_realizada idP)),
    (if stock row - n <=? 0 then [producto_agotado idP] else []),
    (con_stock row (- n)).
  split; [done|]. split; [done|]. split; [done|].
  split; [rewrite length_replicate; lia|].
  split; [rewrite D; simpl_mundo; apply lookup_insert_eq|].
  cbn [con_stock stock]. split; [lia|].
  split; intros Hs.
  - replace (stock row - n) with 0 by lia. done.
  - destruct (Z.leb_spec (stock row - n) 0); [lia | done].
Qed.

(** C8. For a product in the store and any [n], adjusting its stock by
    [-n] and then by [+n] succeeds both times and leaves the product table
    as it was: the stock is back at its value and no other field of any
    product has changed.  In between the stock was the original less [n]. *)
Theorem actualizarInventario_ida_y_vuelta :
  forall w idP n row,
    productos (db w) !! idP = Some row ->
    exists w1 w2,
      ProductoRepositorioImpl.actualizarInventario idP (- n) w = (w1, Devuelve tt) /\
      ProductoRepositorioImpl.actualizarInventario idP n w1 = (w2, Devuelve tt) /\
      productos (db w1) !! idP = Some (con_stock row (- n)) /\
      productos (db w2) !! idP = Some row /\
      db w2 = db w.
Proof.
  intros w idP n row Hrow.
  pose proof (actualizarInventario_presente idP (- n) w row Hrow) as E1.
  set (w1 := escribir _ _) in E1.
  assert (H1 : productos (db w1) !! idP = Some (con_stock row (- n))).
  { subst w1. simpl_mundo. apply lookup_insert_eq. }
  pose proof (actualizarInventario_presente idP n w1 _ H1) as E2.
  set (w2 := escribir _ _) in E2.
  assert (Hback : con_stock (con_stock row (- n)) n = row).
  { destruct row. unfold con_stock. simpl. f_equal. lia. }
  assert (Hp : productos (db w2) = productos (db w)).
  { subst w2 w1. simpl_mundo. rewrite Hback, insert_insert_eq. by apply insert_id. }
  exists w1, w2. split; [done|]. split; [done|]. split; [done|].
  split; [by rewrite Hp|].
  apply db_ext; try (subst w2 w1; simpl_mundo; reflexivity). exact Hp.
Qed.

(** Three units of product 102 taken out of the world of [demo] and put
    back. *)
Lemma actualizarInventario_ida_y_vuelta_en_demo :
  productos (db mundo_demo) !! 102 =
    Some {| idProducto := 102; nombre := "Zapatilla Casual"; descripcion := "Daily";
            precio := 95000; stock := 5 |} /\
  exists w1 w2,
    ProductoRepositorioImpl.actualizarInventario 102 (- 3) mundo_demo = (w1, Devuelve tt) /\
    ProductoRepositorioImpl.actualizarInventario 102 3 w1 = (w2, Devuelve tt) /\
    productos (db w1) !! 102 =
      Some (con_stock {| idProducto := 102; nombre := "Zapatilla Casual";
                         descripcion := "Daily"; precio := 95000; stock := 5 |} (- 3)) /\
    productos (db w2) !! 102 =
      Some {| idProducto := 102; nombre := "Zapatilla Casual"; descripcion := "Daily";
              precio := 95000; stock := 5 |} /\
    db w2 = db mundo_demo.
Proof.
  split; [vm_compute; reflexivity|].
  apply (actualizarInventario_ida_y_vuelta mundo_demo 102 3). vm_compute. reflexivity.
Defined.

(** The two units of product 103 dispatched from the world of [demo]:
    two sale events, then the sold-out event. *)
Lemma darSalidaProducto_eventos_en_demo :
  (productos (db mundo_demo) !! 103 =
     Some {| idProducto := 103; nombre := "Zapatilla Urbana"; descripcion := "Street";
             precio := 130000; stock := 2 |} /\ 0 <= 2) /\
  exists w' ventas agotado row',
    InventarioServiceImpl.darSalidaProducto 103 2 mundo_demo = (w', Devuelve tt) /\
    publicaciones (consola w') = publicaciones (consola mundo_demo) ++ ventas ++ agotado /\
    ventas = replicate (Z.to_nat 2) (venta_realizada 103) /\
    Z.of_nat (length ventas) = 2 /\
    productos (db w') !! 103 = Some row' /\
    stock row' = 2 - 2 /\
    (stock row' = 0 -> agotado = [producto_agotado 103]) /\
    (stock row' > 0 -> agotado = []).
Proof.
  split; [split; [vm_compute; reflexivity | lia]|].
  apply (darSalidaProducto_eventos mundo_demo 103 2
           {| idProducto := 103; nombre := "Zapatilla Urbana"; descripcion := "Street";
              precio := 130000; stock := 2 |}); [vm_compute; reflexivity | lia].
Defined.

(** ** The cart *)

Lemma calcularTotal_lanza k w c e :
  carritos (db w) !! k = Some c ->
  sumar_lineas (productos (db w)) (leer_lista w (c_productos c)) 0 = Lanza e ->
  Carrito.calcularTotal k w = (w, Lanza e).
Proof.
  intros Hc Hs. unfold Carrito.calcularTotal. rewrite Hc.
  unfold mbind, M_bind, puro. by rewrite Hs.
Qed.

Lemma calcularTotal_devuelve k w c total :
  carritos (db w) !! k = Some c ->
  sumar_lineas (productos (db w)) (leer_lista w (c_productos c)) 0 = Devuelve total ->
  Carrito.calcularTotal k w =
  (escribir (InfoTotalCarrito (idCarrito c) total)
     (con_db (con_carritos (fun m => <[k := con_total c total]> m)) w),
   Devuelve total).
Proof.
  intros Hc Hs. unfold Carrito.calcularTotal. rewrite Hc.
  unfold mbind, M_bind, puro. by rewrite Hs.
Qed.

Lemma vaciarCarrito_presente k w c :
  carritos (db w) !! k = Some c ->
  Carrito.vaciarCarrito k w =
  (escribir (InfoCarritoVaciado (idCarrito c))
     (con_db (con_carritos (fun m => <[k := con_total c 0]> m))
        (con_listas (fun h => <[c_productos c := []]> h) w)),
   Devuelve tt).
Proof. intros Hc. unfold Carrito.vaciarCarrito. by rewrite Hc. Qed.

(** ** The dispatch loop of a checkout *)

Lemma despachar_spec lineas w :
  exists w',
    para_cada lineas (fun l => InventarioServiceImpl.darSalidaProducto l.1 l.2) w =
      (w', if (descontar lineas (productos (db w))).2 then Devuelve tt
           else Lanza (ValueError "Producto no existe")) /\
    productos (db w') = (descontar lineas (productos (db w))).1 /\
    clientes (db w') = clientes (db w) /\ carritos (db w') = carritos (db w) /\
    facturas (db w') = facturas (db w) /\ usuarios (db w') = usuarios (db w) /\
    seq_factura (db w') = seq_factura (db w) /\
    listas w' = listas w /\ conta w' = conta w /\
    suscriptores w' = suscriptores w /\ reloj w' = reloj w.
Proof.
  revert w. induction lineas as [|[idP cant] resto IH]; intros w.
  - exists w. by repeat split.
  - cbn [para_cada descontar fst snd].
    destruct (productos (db w) !! idP) as [row|] eqn:Hrow.
    + destruct (darSalidaProducto_presente idP cant w row Hrow)
        as (w1 & E1 & D1 & L1 & C1 & S1 & R1 & _).
      destruct (IH w1) as (w2 & E2 & P2 & ? & ? & ? & ? & ? & ? & ? & ? & ?).
      exists w2. rewrite (bind_devuelve _ _ _ _ _ E1).
      rewrite D1 in *. simpl_mundo.
      repeat split; congruence.
    + exists w. rewrite (bind_lanza _ _ _ _ _ (darSalidaProducto_ausente idP cant w Hrow)).
      by repeat split.
Qed.

(** ** Checkout *)

Lemma procesarPago_eq m info w :
  PasarelaPago.procesarPago m info w =
  (con_tic S (escribir (InfoProcesandoPago m) w),
   Devuelve {| ok := true; autorizacion := reloj w (tic w); monto := m |}).
Proof. reflexivity. Qed.

Ltac paso := erewrite bind_devuelve by reflexivity.

Lemma verificar_spec idC k info w c l ls :
  carritos (db w) !! k = Some c ->
  leer_lista w (c_productos c) = l :: ls ->
  match sumar_lineas (productos (db w)) (l :: ls) 0 with
  | Lanza e => OrdenServiceImpl.verificar idC k info w = (w, Lanza e)
  | Devuelve total =>
      exists w',
        productos (db w') = (descontar (l :: ls) (productos (db w))).1 /\
        clientes (db w') = clientes (db w) /\
        usuarios (db w') = usuarios (db w) /\
        suscriptores w' = suscriptores w /\ reloj w' = reloj w /\
        if (descontar (l :: ls) (productos (db w))).2 then
          exists fecha,
            let f := {| idFactura := seq_factura (db w);
                        f_cliente := cliente_de (default (cliente_por_defecto idC)
                                                         (clientes (db w) !! idC));
                        f_productos := length (listas w);
                        f_total := total; f_fecha := fecha |} in
            OrdenServiceImpl.verificar idC k info w = (w', Devuelve f) /\
            carritos (db w') = <[k := con_total c 0]> (carritos (db w)) /\
            facturas (db w') = <[seq_factura (db w) := f]> (facturas (db w)) /\
            seq_factura (db w') = seq_factura (db w) + 1 /\
            listas w' = <[c_productos c := []]> (listas w ++ [l :: ls]) /\
            conta w' = {| ingresos := (ingresos (conta w) + total)%float;
                          egresos := egresos (conta w) |}
        else
          OrdenServiceImpl.verificar idC k info w =
            (w', Lanza (ValueError "Producto no existe")) /\
          carritos (db w') = <[k := con_total c total]> (carritos (db w)) /\
          facturas (db w') = facturas (db w) /\
          seq_factura (db w') = seq_factura (db w) /\
          listas w' = listas w /\ conta w' = conta w
  end.
Proof.
  intros Hc Hl. unfold OrdenServiceImpl.verificar. rewrite Hc, Hl.
  destruct (sumar_lineas _ _ _) as [total|e] eqn:Hs.
  2:{ rewrite <- Hl in Hs. by rewrite (bind_lanza _ _ _ _ _ (calcularTotal_lanza _ _ _ _ Hc Hs)). }
  rewrite <- Hl in Hs.
  rewrite (bind_devuelve _ _ _ _ _ (calcularTotal_devuelve _ _ _ _ Hc Hs)).
  rewrite (bind_devuelve _ _ _ _ _ (procesarPago_eq _ _ _)).
  cbn [ok]. paso. paso.
  set (w1 := con_tic _ _).
  assert (Hl1 : leer_lista w1 (c_productos c) = l :: ls) by (rewrite <- Hl; reflexivity).
  rewrite Hl1.
  destruct (despachar_spec (l :: ls) w1)
    as (w2 & E2 & P2 & Cl2 & Ca2 & Fa2 & Us2 & Sq2 & L2 & Co2 & Su2 & R2).
  assert (Hp1 : productos (db w1) = productos (db w)) by reflexivity.
  rewrite Hp1 in *.
  destruct (descontar (l :: ls) (productos (db w))) as [prods2 [|]] eqn:Hd;
    cbn [fst snd] in *.
  - rewrite (bind_devuelve _ _ _ _ _ E2).
    do 8 paso.
    match goal with
    | |- context [(publicar ?ev ?d ≫= ?f) ?wx] =>
        destruct (publicar_spec ev d wx) as (w3 & E3 & (D3 & L3 & C3 & S3 & R3) & _);
        rewrite (bind_devuelve _ f _ _ _ E3)
    end.
    assert (Hc3 : carritos (db w3) !! k = Some (con_total c total)).
    { rewrite D3. simpl_mundo. rewrite Ca2. subst w1. simpl_mundo. apply lookup_insert_eq. }
    rewrite (bind_devuelve _ _ _ _ _ (vaciarCarrito_presente _ _ _ Hc3)).
    unfold mret, M_ret. simpl_mundo.
    assert (Hll : leer_lista (con_db (con_seq_factura (fun n => n + 1)) w2) (c_productos c)
                  = l :: ls).
    { rewrite <- Hl1. unfold leer_lista. simpl_mundo. by rewrite L2. }
    rewrite Hll in *.
    eexists. repeat (split; [shelve|]). exists (reloj w2 (tic w2)).
    cbn zeta. split; [|shelve].
    unfold cliente_de. rewrite Sq2, Cl2, L2. reflexivity.
    Unshelve.
    all: simpl_mundo; rewrite ?D3, ?L3, ?C3, ?S3, ?R3; simpl_mundo;
      rewrite ?P2, ?Cl2, ?Ca2, ?Fa2, ?Us2, ?Sq2, ?L2, ?Co2, ?Su2, ?R2;
      subst w1; simpl_mundo; try reflexivity.
    split; [by rewrite insert_insert_eq|].
    repeat split; reflexivity.
  - exists w2. rewrite (bind_lanza _ _ _ _ _ E2).
    rewrite ?P2, ?Cl2, ?Ca2, ?Fa2, ?Us2, ?Sq2, ?L2, ?Co2, ?Su2, ?R2.
    subst w1. simpl_mundo. by repeat split.
Qed.


Lemma sumar_lineas_suma prods lineas acc total :
  sumar_lineas prods lineas acc = Devuelve total ->
  total = fold_left (fun a l => (a + precio_por_cantidad prods l)%float) lineas acc.
Proof.
  revert acc. induction lineas as [|[idP cant] resto IH]; intros acc; cbn [sumar_lineas fold_left].
  - congruence.
  - unfold precio_por_cantidad at 2. cbn [fst snd].
    destruct (prods !! idP) as [p|]; [|apply IH].
    unfold float_of_int. destruct (PrimFloat.is_infinity (redondear cant)); [done|].
    apply IH.
Qed.

Lemma sumar_lineas_valida prods lineas acc :
  Forall (linea_valida prods) lineas ->
  exists total, sumar_lineas prods lineas acc = Devuelve total.
Proof.
  intros Hv. revert acc. induction Hv as [|[idP cant] resto [[p Hp] [c Hc]] _ IH]; intros acc.
  - by exists acc.
  - cbn [sumar_lineas]. cbn [fst snd] in *. rewrite Hp, Hc. apply IH.
Qed.

Lemma descontar_valida lineas prods :
  Forall (fun l : Z * Z => is_Some (prods !! l.1)) lineas ->
  (descontar lineas prods).2 = true.
Proof.
  revert prods. induction lineas as [|[idP cant] resto IH]; intros prods Hv; [done|].
  inversion Hv as [|? ? [row Hrow] Hresto]; subst. cbn [descontar fst snd] in *.
  rewrite Hrow. apply IH. eapply Forall_impl; [exact Hresto|].
  intros [i n] [r Hr]. cbn [fst] in *. rewrite lookup_insert.
  destruct (decide (idP = i)); eauto.
Qed.

Lemma verificar_sin_lineas w idC k info :
  (carritos (db w) !! k = None \/
   exists c, carritos (db w) !! k = Some c /\ leer_lista w (c_productos c) = []) ->
  OrdenServiceImpl.verificar idC k info w =
  (w, Lanza (ValueError "Carrito vacío o inexistente")).
Proof.
  intros [Hn | (c & Hc & Hl)]; unfold OrdenServiceImpl.verificar.
  - by rewrite Hn.
  - by rewrite Hc, Hl.
Qed.

(** C2. When no cart is stored under the cart id, or the cart stored there
    has an empty list of line items, [verificar] raises the error of an
    invalid cart (a [ValueError] saying the cart is empty or missing) and
    the world is exactly as before: no invoice, the invoice counter, the
    accounting totals and every stock untouched. *)
Theorem verificar_carrito_vacio_o_inexistente :
  forall w idC k info,
    (carritos (db w) !! k = None \/
     exists c, carritos (db w) !! k = Some c /\ leer_lista w (c_productos c) = []) ->
    exists w' e,
      OrdenServiceImpl.verificar idC k info w = (w', Lanza e) /\
      e = ValueError "Carrito vacío o inexistente" /\
      w' = w /\
      facturas (db w') = facturas (db w) /\
      seq_factura (db w') = seq_factura (db w) /\
      conta w' = conta w /\
      productos (db w') = productos (db w).
Proof.
  intros w idC k info H. exists w, (ValueError "Carrito vacío o inexistente").
  split; [by apply verificar_sin_lineas|]. by repeat split.
Qed.

(** The cart of a client who never added anything: no cart is stored under
    id 2 in the world of [demo]. *)
Lemma verificar_carrito_inexistente_en_demo :
  exists w' e,
    OrdenServiceImpl.verificar 1 2 tarjeta mundo_demo = (w', Lanza e) /\
    e = ValueError "Carrito vacío o inexistente" /\
    w' = mundo_demo /\
    facturas (db w') = facturas (db mundo_demo) /\
    seq_factura (db w') = seq_factura (db mundo_demo) /\
    conta w' = conta mundo_demo /\
    productos (db w') = productos (db mundo_demo).
Proof.
  apply (verificar_carrito_vacio_o_inexistente mundo_demo 1 2 tarjeta).
  left. vm_compute. reflexivity.
Defined.

(** C10. A checkout for a client id that has no row in the client table,
    on a cart that is not empty and whose lines can all be carried out,
    succeeds all the same: the invoice carries a client made up on the spot
    (name "Cliente <id>", address "-", phone "-"), the invoice is stored,
    and the client table is left as it was, still without a row for that
    id. *)
Theorem verificar_cliente_sin_registro :
  forall w idC k info c,
    clientes (db w) !! idC = None ->
    carritos (db w) !! k = Some c ->
    leer_lista w (c_productos c) <> [] ->
    Forall (linea_valida (productos (db w))) (leer_lista w (c_productos c)) ->
    exists w' f,
      OrdenServiceImpl.verificar idC k info w = (w', Devuelve f) /\
      f_cliente f = {| idCliente := idC; cl_nombre := "Cliente " +:+ str idC;
                       cl_direccion := "-"; cl_telefono := "-" |} /\
      facturas (db w') !! idFactura f = Some f /\
      clientes (db w') = clientes (db w) /\
      clientes (db w') !! idC = None.
Proof.
  intros w idC k info c Hcl Hc Hne Hv.
  destruct (leer_lista w (c_productos c)) as [|l ls] eqn:Hl; [done|].
  pose proof (verificar_spec idC k info w c l ls Hc Hl) as Hspec.
  destruct (sumar_lineas_valida _ _ 0%float Hv) as [total Ht]. rewrite Ht in Hspec.
  destruct Hspec as (w' & _ & Hcl' & _ & _ & _ & Hspec).
  rewrite descontar_valida in Hspec.
  2:{ eapply Forall_impl; [exact Hv|]. by intros ? [? _]. }
  destruct Hspec as (fecha & E & _ & Hf & _). cbn zeta in E, Hf.
  eexists w', _. split; [exact E|]. cbn [f_cliente idFactura].
  rewrite Hcl. split; [done|]. split; [|split; congruence].
  rewrite Hf, Hcl. apply lookup_insert_eq.
Qed.

Lemma verificar_exito idC k info w w' f :
  OrdenServiceImpl.verificar idC k info w = (w', Devuelve f) ->
  exists c lineas, compra_hecha idC k w w' f c lineas.
Proof.
  intros E.
  destruct (carritos (db w) !! k) as [c|] eqn:Hc.
  2:{ rewrite verificar_sin_lineas in E by (by left). congruence. }
  destruct (leer_lista w (c_productos c)) as [|l ls] eqn:Hl.
  { rewrite verificar_sin_lineas in E by (right; eauto). congruence. }
  pose proof (verificar_spec idC k info w c l ls Hc Hl) as Hspec.
  destruct (sumar_lineas _ _ _) as [total|e] eqn:Ht; [|congruence].
  destruct Hspec as (w1 & Hp & Hcl & Hus & Hsu & Hre & Hspec).
  destruct (descontar (l :: ls) (productos (db w))) as [prods [|]] eqn:Hd;
    cbn [fst snd] in *.
  2:{ destruct Hspec as [E' _]. congruence. }
  destruct Hspec as (fecha & E' & Hca & Hfa & Hsq & Hli & Hco). cbn zeta in *.
  rewrite E in E'. injection E' as -> ->.
  exists c, (l :: ls). split; cbn [f_total idFactura f_cliente f_productos];
    try done; congruence.
Qed.

Lemma verificar_fallo idC k info w w' e :
  OrdenServiceImpl.verificar idC k info w = (w', Lanza e) ->
  clientes (db w') = clientes (db w) /\ facturas (db w') = facturas (db w) /\
  seq_factura (db w') = seq_factura (db w) /\ listas w' = listas w /\
  conta w' = conta w /\
  (carritos (db w') = carritos (db w) \/
   exists c t, carritos (db w) !! k = Some c /\
               carritos (db w') = <[k := con_total c t]> (carritos (db w))).
Proof.
  intros E.
  destruct (carritos (db w) !! k) as [c|] eqn:Hc.
  2:{ rewrite verificar_sin_lineas in E by (by left).
      injection E as <- _. repeat split; try done; by left. }
  destruct (leer_lista w (c_productos c)) as [|l ls] eqn:Hl.
  { rewrite verificar_sin_lineas in E by (right; eauto).
    injection E as <- _. repeat split; try done; by left. }
  pose proof (verificar_spec idC k info w c l ls Hc Hl) as Hspec.
  destruct (sumar_lineas _ _ _) as [total|e'] eqn:Ht.
  2:{ rewrite E in Hspec. injection Hspec as <- _. repeat split; try done; by left. }
  destruct Hspec as (w1 & Hp & Hcl & Hus & Hsu & Hre & Hspec).
  destruct (descontar (l :: ls) (productos (db w))) as [prods [|]] eqn:Hd;
    cbn [fst snd] in *.
  { destruct Hspec as (fecha & E' & _). cbn zeta in E'. congruence. }
  destruct Hspec as (E' & Hca & Hfa & Hsq & Hli & Hco).
  rewrite E in E'. injection E' as -> _.
  repeat split; try done. right. eauto.
Qed.

Lemma leer_lista_vaciada (h : list (list (Z * Z))) r lineas w' :
  default [] (h !! r) <> [] ->
  listas w' = <[r := []]> (h ++ [lineas]) ->
  leer_lista w' r = [] /\ leer_lista w' (length h) = lineas.
Proof.
  intros Hne Hl. unfold leer_lista. rewrite Hl.
  assert (Hr : (r < length h)%nat).
  { apply lookup_lt_is_Some. destruct (h !! r) as [x|]; [eexists; reflexivity | by destruct Hne]. }
  split.
  - rewrite list_lookup_insert_eq by (rewrite length_app; simpl; lia). done.
  - rewrite list_lookup_insert_ne by lia.
    rewrite lookup_app_r by lia. by rewrite Nat.sub_diag.
Qed.

(** C5. The invoice of a successful checkout has for total the sum, over
    the line items the cart held, of the unit price now in the product
    table times the quantity (in the floats of the program, added in the
    order of the lines); the income of the accounting service grows by that
    total and its expenses do not change; and afterwards the cart has no
    line items and a cached total of zero.  In particular, when the cart
    holds two units of a product priced 120000 and one unit of a product
    priced 95000, the total is 335000. *)
Theorem verificar_total :
  forall w idC k info w' f,
    OrdenServiceImpl.verificar idC k info w = (w', Devuelve f) ->
    exists c lineas,
      carritos (db w) !! k = Some c /\
      leer_lista w (c_productos c) = lineas /\
      f_total f = suma_de_lineas (productos (db w)) lineas /\
      ingresos (conta w') = (ingresos (conta w) + f_total f)%float /\
      egresos (conta w') = egresos (conta w) /\
      (exists c', carritos (db w') !! k = Some c' /\
                  leer_lista w' (c_productos c') = [] /\ c_total c' = 0%float) /\
      (forall a b pa pb,
          lineas = [(a, 2); (b, 1)] ->
          productos (db w) !! a = Some pa -> precio pa = 120000%float ->
          productos (db w) !! b = Some pb -> precio pb = 95000%float ->
          f_total f = 335000%float).
Proof.
  intros w idC k info w' f E.
  destruct (verificar_exito _ _ _ _ _ _ E) as (c & lineas & H).
  destruct H. exists c, lineas.
  assert (Hsum : f_total f = suma_de_lineas (productos (db w)) lineas).
  { by apply sumar_lineas_suma. }
  split; [done|]. split; [done|]. split; [done|].
  split; [by rewrite ch_conta0|]. split; [by rewrite ch_conta0|]. split.
  - exists (con_total c 0). split; [rewrite ch_carritos0; apply lookup_insert_eq|].
    split; [|done]. cbn [con_total c_productos].
    eapply leer_lista_vaciada; [|exact ch_listas0].
    unfold leer_lista in ch_lineas0. by rewrite ch_lineas0.
  - intros a b pa pb -> Ha Hpa Hb Hpb. rewrite Hsum.
    unfold suma_de_lineas, precio_por_cantidad. cbn [fold_left fst snd].
    rewrite Ha, Hb, Hpa, Hpb. vm_compute. reflexivity.
Qed.

(** The checkout of [demo]: client 1, two of product 101 and one of 102. *)
Lemma verificar_total_en_demo :
  exists c lineas,
    carritos (db mundo_demo) !! 1 = Some c /\
    leer_lista mundo_demo (c_productos c) = lineas /\
    335000%float = suma_de_lineas (productos (db mundo_demo)) lineas /\
    ingresos (conta (OrdenServiceImpl.verificar 1 1 tarjeta mundo_demo).1) =
      (ingresos (conta mundo_demo) + 335000)%float /\
    egresos (conta (OrdenServiceImpl.verificar 1 1 tarjeta mundo_demo).1) =
      egresos (conta mundo_demo) /\
    (exists c', carritos (db (OrdenServiceImpl.verificar 1 1 tarjeta mundo_demo).1) !! 1
                = Some c' /\
                leer_lista (OrdenServiceImpl.verificar 1 1 tarjeta mundo_demo).1
                           (c_productos c') = [] /\
                c_total c' = 0%float) /\
    (forall a b pa pb,
        lineas = [(a, 2); (b, 1)] ->
        productos (db mundo_demo) !! a = Some pa -> precio pa = 120000%float ->
        productos (db mundo_demo) !! b = Some pb -> precio pb = 95000%float ->
        335000%float = 335000%float).
Proof.
  apply (verificar_total mundo_demo 1 1 tarjeta
           (OrdenServiceImpl.verificar 1 1 tarjeta mundo_demo).1
           {| idFactura := 1;
              f_cliente := {| idCliente := 1; cl_nombre := "Cliente 1";
                              cl_direccion := "-"; cl_telefono := "-" |};
              f_productos := 2%nat; f_total := 335000; f_fecha := 7 |}).
  vm_compute. reflexivity.
Defined.

(** The cart of client 1 in [demo], checked out for client id 7, who has
    no row. *)
Lemma verificar_cliente_sin_registro_en_demo :
  exists w' f,
    OrdenServiceImpl.verificar 7 1 tarjeta mundo_demo = (w', Devuelve f) /\
    f_cliente f = {| idCliente := 7; cl_nombre := "Cliente " +:+ str 7;
                     cl_direccion := "-"; cl_telefono := "-" |} /\
    facturas (db w') !! idFactura f = Some f /\
    clientes (db w') = clientes (db mundo_demo) /\
    clientes (db w') !! 7 = None.
Proof.
  assert (Hl : leer_lista mundo_demo 0%nat = [(101, 2); (102, 1)])
    by (vm_compute; reflexivity).
  apply (verificar_cliente_sin_registro mundo_demo 7 1 tarjeta
           {| idCarrito := 1; c_productos := 0%nat; c_total := 335000 |}).
  - vm_compute. reflexivity.
  - vm_compute. reflexivity.
  - cbn [c_productos]. rewrite Hl. discriminate.
  - cbn [c_productos]. rewrite Hl.
    repeat constructor; cbn [fst snd]; eexists; vm_compute; reflexivity.
Defined.

Lemma agregarAlCarrito_eq idC idP n w :
  let nuevo := {| idCarrito := idC; c_productos := length (listas w); c_total := 0 |} in
  let carrito := default nuevo (carritos (db w) !! idC) in
  let w1 := con_listas (fun h => h ++ [[]])
              (con_db (con_clientes (fun m =>
                 match m !! idC with
                 | Some _ => m
                 | None => <[idC := cliente_por_defecto idC]> m
                 end)) w) in
  let w2 := match carritos (db w) !! idC with
            | Some _ => w1
            | None => con_db (con_carritos (fun m => <[idC := nuevo]> m)) w1
            end in
  FachadaTienda.agregarAlCarrito idC idP n w =
  match productos (db w) !! idP with
  | None => (escribir (ErrorLog "Producto no encontrado") w2, Devuelve tt)
  | Some prod =>
      if stock prod <? n then (escribir (ErrorLog "Stock insuficiente") w2, Devuelve tt)
      else
        let lineas := leer_lista w2 (c_productos carrito) ++ [(idP, n)] in
        let w3 := con_listas (fun h => <[c_productos carrito := lineas]> h) w2 in
        match sumar_lineas (productos (db w)) (leer_lista w3 (c_productos carrito)) 0 with
        | Lanza e => (w3, Lanza e)
        | Devuelve total =>
            (escribir (InfoAgregado idC (nombre prod) n)
               (escribir (InfoTotalCarrito (idCarrito carrito) total)
                  (con_db (con_carritos (fun m => <[idC := con_total carrito total]> m)) w3)),
             Devuelve tt)
        end
  end.
Proof.
  cbn zeta. unfold FachadaTienda.agregarAlCarrito.
  paso. paso.
  unfold mbind at 1, M_bind at 1. simpl_mundo.
  destruct (carritos (db w) !! idC) as [c0|] eqn:Hc; cbn [default from_option id].
  - paso. simpl_mundo. destruct (productos (db w) !! idP) as [prod|]; [|reflexivity].
    destruct (stock prod <? n); [reflexivity|].
    paso.
    match goal with |- (_ ≫= _) ?wx = _ => set (w3 := wx) end.
    assert (Hc3 : carritos (db w3) !! idC = Some c0) by exact Hc.
    destruct (sumar_lineas (productos (db w)) (leer_lista w3 (c_productos c0)) 0)
      as [total|e] eqn:Hs.
    + rewrite (bind_devuelve _ _ _ _ _ (calcularTotal_devuelve _ _ _ _ Hc3 Hs)).
      reflexivity.
    + by rewrite (bind_lanza _ _ _ _ _ (calcularTotal_lanza _ _ _ _ Hc3 Hs)).
  - paso. simpl_mundo. destruct (productos (db w) !! idP) as [prod|]; [|reflexivity].
    destruct (stock prod <? n); [reflexivity|].
    paso. cbn [c_productos idCarrito].
    match goal with |- (_ ≫= _) ?wx = _ => set (w3 := wx) end.
    assert (Hc3 : carritos (db w3) !! idC =
                  Some {| idCarrito := idC; c_productos := length (listas w); c_total := 0 |}).
    { subst w3. simpl_mundo. apply lookup_insert_eq. }
    destruct (sumar_lineas (productos (db w)) (leer_lista w3 (length (listas w))) 0)
      as [total|e] eqn:Hs.
    + rewrite (bind_devuelve _ _ _ _ _ (calcularTotal_devuelve _ _ _ _ Hc3 Hs)).
      reflexivity.
    + by rewrite (bind_lanza _ _ _ _ _ (calcularTotal_lanza _ _ _ _ Hc3 Hs)).
Qed.

(** ** Invoices, carts and the heap of lists along a run *)

Lemma sin_facturar_intro w w' extra (upd : option (nat * list (Z * Z)))
    (ins : option (Z * Carrito)) :
  facturas (db w') = facturas (db w) ->
  seq_factura (db w') = seq_factura (db w) ->
  listas w' = from_option (fun p h => <[p.1 := p.2]> h) id upd (listas w ++ extra) ->
  carritos (db w') = from_option (fun p m => <[p.1 := p.2]> m) id ins (carritos (db w)) ->
  from_option (fun p => propia w (length extra) p.1) True upd ->
  from_option (fun p => propia w (length extra) (c_productos p.2)) True ins ->
  sin_facturar w w'.
Proof.
  intros Hf Hs Hl Hc Hu Hi.
  assert (Hlen : length (listas w') = (length (listas w) + length extra)%nat).
  { rewrite Hl. destruct upd as [[r0 l0]|]; cbn [from_option id];
      rewrite ?length_insert, length_app; done. }
  repeat split; [done | done | lia | |].
  - intros r Hr Hno. rewrite Hl. destruct upd as [[r0 l0]|]; cbn [from_option id fst snd] in *.
    + rewrite list_lookup_insert_ne.
      * by apply lookup_app_l.
      * destruct Hu as [(k0 & c0 & Hk0 & <-)|?]; [by eapply Hno | lia].
    + by apply lookup_app_l.
  - intros k c' Hk. replace (length (listas w') - length (listas w))%nat
      with (length extra) by lia.
    rewrite Hc in Hk. destruct ins as [[k1 c1]|]; cbn [from_option id fst snd] in *.
    + rewrite lookup_insert in Hk. destruct (decide (k1 = k)).
      * by injection Hk as <-.
      * left. eauto.
    + left. eauto.
Qed.

Lemma sin_facturar_quieto w w' :
  carritos (db w') = carritos (db w) -> facturas (db w') = facturas (db w) ->
  seq_factura (db w') = seq_factura (db w) -> listas w' = listas w ->
  sin_facturar w w'.
Proof.
  intros Hc Hf Hs Hl.
  apply (sin_facturar_intro w w' [] None None); try done.
  cbn [from_option id]. by rewrite app_nil_r.
Qed.

Lemma sin_facturar_estable w w' :
  invariante w -> sin_facturar w w' -> invariante w' /\ conserva_facturas w w'.
Proof.
  intros [Hca Hfa] (Hf & Hs & Hlen & Hl & Hc). split; [split|].
  - intros k c' Hk. destruct (Hc k c' Hk) as [(k0 & c0 & Hk0 & <-)|?]; [|lia].
    specialize (Hca k0 c0 Hk0). lia.
  - intros i f Hi. rewrite Hf in Hi. destruct (Hfa i f Hi) as (Hlt & Hr & Hne).
    split; [lia|]. split; [lia|].
    intros k c' Hk. destruct (Hc k c' Hk) as [(k0 & c0 & Hk0 & <-)|?]; [by eapply Hne | lia].
  - intros i f Hi. destruct (Hfa i f Hi) as (Hlt & Hr & Hne).
    split; [by rewrite Hf|]. apply Hl; [done|]. intros k c Hk. by eapply Hne.
Qed.

Lemma compra_hecha_estable idC k w w' f c lineas :
  invariante w -> compra_hecha idC k w w' f c lineas ->
  invariante w' /\ conserva_facturas w w'.
Proof.
  intros [Hca Hfa] []. 
  assert (Hlen : length (listas w') = S (length (listas w))).
  { rewrite ch_listas0, length_insert, length_app. simpl. lia. }
  assert (Hcarts : forall k' c', carritos (db w') !! k' = Some c' ->
             exists c0, carritos (db w) !! k' = Some c0 /\ c_productos c0 = c_productos c').
  { intros k' c' Hk'. rewrite ch_carritos0, lookup_insert in Hk'.
    destruct (decide (k = k')) as [<-|]; [|eauto].
    injection Hk' as <-. eauto. }
  split; [split|].
  - intros k' c' Hk'. destruct (Hcarts _ _ Hk') as (c0 & Hk0 & <-).
    specialize (Hca _ _ Hk0). lia.
  - intros i f' Hi. rewrite ch_facturas0, lookup_insert in Hi.
    destruct (decide (seq_factura (db w) = i)) as [<-|Hne].
    + injection Hi as <-. split; [lia|]. split; [lia|].
      intros k' c' Hk'. destruct (Hcarts _ _ Hk') as (c0 & Hk0 & <-).
      specialize (Hca _ _ Hk0). lia.
    + destruct (Hfa i f' Hi) as (Hlt & Hr & Hno). split; [lia|]. split; [lia|].
      intros k' c' Hk'. destruct (Hcarts _ _ Hk') as (c0 & Hk0 & <-). by eapply Hno.
  - intros i f' Hi. destruct (Hfa i f' Hi) as (Hlt & Hr & Hno). split.
    + rewrite ch_facturas0, lookup_insert_ne; [done | lia].
    + rewrite ch_listas0, list_lookup_insert_ne by (by eapply Hno).
      by apply lookup_app_l.
Qed.

Lemma bind_inv {St A B} (m : M St A) (f : A -> M St B) s s' r :
  (m ≫= f) s = (s', r) ->
  (exists e, m s = (s', Lanza e) /\ r = Lanza e) \/
  (exists a s1, m s = (s1, Devuelve a) /\ f a s1 = (s', r)).
Proof.
  unfold mbind, M_bind. destruct (m s) as [s1 [a|e]]; intros E.
  - right. eauto.
  - left. injection E as <- <-. eauto.
Qed.

Lemma sin_resultado_inv (m : M Mundo unit) w w' (r : Resultado (option Factura)) :
  (m ≫= λ _, mret None) w = (w', r) ->
  (exists r0, m w = (w', r0)) /\ forall f, r <> Devuelve (Some f).
Proof.
  intros E. destruct (bind_inv _ _ _ _ _ E) as [(e & Em & ->)|(a & s1 & Em & Ef)].
  - split; [eauto | done].
  - unfold mret, M_ret in Ef. injection Ef as <- <-. split; [eauto | done].
Qed.

Lemma suscribir_sin_facturar ev h w w' r :
  suscribir ev h w = (w', r) -> sin_facturar w w'.
Proof. intros E. injection E as <- _. by apply sin_facturar_quieto. Qed.

Lemma guardar_eq dto w :
  ProductoRepositorioImpl.guardar dto w =
  match a_float (dto_precio dto) with
  | Lanza e => (w, Lanza e)
  | Devuelve pr =>
      (escribir (InfoProductoGuardado (dto_nombre dto))
         (con_db (con_productos (fun m =>
            <[dto_idProducto dto :=
                {| idProducto := dto_idProducto dto; nombre := dto_nombre dto;
                   descripcion := default "" (dto_descripcion dto);
                   precio := pr; stock := dto_stock dto |}]> m)) w),
       Devuelve tt)
  end.
Proof.
  unfold ProductoRepositorioImpl.guardar, mbind, M_bind, puro.
  by destruct (a_float (dto_precio dto)).
Qed.

Lemma ingresarProducto_sin_facturar dto w w' r :
  InventarioServiceImpl.ingresarProducto dto w = (w', r) -> sin_facturar w w'.
Proof.
  unfold InventarioServiceImpl.ingresarProducto. intros E.
  destruct (bind_inv _ _ _ _ _ E) as [(e & Em & ->)|([] & w1 & Em & Ef)];
    rewrite guardar_eq in Em; destruct (a_float (dto_precio dto)); try done.
  - injection Em as <-. by apply sin_facturar_quieto.
  - injection Em as <-.
    destruct (publicar_spec "producto_actualizado"
                {| d_idProducto := dto_idProducto dto; d_evento := "Ingreso a inventario" |}
                (escribir (InfoProductoGuardado (dto_nombre dto))
                   (con_db (con_productos (fun m =>
                      <[dto_idProducto dto :=
                          {| idProducto := dto_idProducto dto; nombre := dto_nombre dto;
                             descripcion := default "" (dto_descripcion dto);
                             precio := a; stock := dto_stock dto |}]> m)) w)))
      as (w2 & E2 & (D2 & L2 & _) & _).
    rewrite E2 in Ef. injection Ef as <- _.
    apply sin_facturar_quieto; rewrite ?D2, ?L2; reflexivity.
Qed.

Lemma actualizarInventario_sin_facturar idP delta w w' r :
  ProductoRepositorioImpl.actualizarInventario idP delta w = (w', r) -> sin_facturar w w'.
Proof.
  destruct (productos (db w) !! idP) as [row|] eqn:Hrow.
  - rewrite (actualizarInventario_presente _ _ _ _ Hrow). intros E. injection E as <- _.
    by apply sin_facturar_quieto.
  - rewrite (actualizarInventario_ausente _ _ _ Hrow). intros E. injection E as <- _.
    by apply sin_facturar_quieto.
Qed.

Lemma darSalidaProducto_sin_facturar idP n w w' r :
  InventarioServiceImpl.darSalidaProducto idP n w = (w', r) -> sin_facturar w w'.
Proof.
  destruct (productos (db w) !! idP) as [row|] eqn:Hrow.
  - destruct (darSalidaProducto_presente idP n w row Hrow) as (w1 & E1 & D1 & L1 & _).
    rewrite E1. intros E. injection E as <- _.
    apply sin_facturar_quieto; rewrite ?D1, ?L1; reflexivity.
  - rewrite (darSalidaProducto_ausente _ _ _ Hrow). intros E. injection E as <- _.
    by apply sin_facturar_quieto.
Qed.

Lemma vaciarCarrito_sin_facturar k w w' r :
  Carrito.vaciarCarrito k w = (w', r) -> sin_facturar w w'.
Proof.
  destruct (carritos (db w) !! k) as [c|] eqn:Hc.
  - rewrite (vaciarCarrito_presente _ _ _ Hc). intros E. injection E as <- _.
    apply (sin_facturar_intro w _ [] (Some (c_productos c, [])) (Some (k, con_total c 0)));
      try reflexivity.
    + simpl_mundo. cbn [from_option fst snd]. by rewrite app_nil_r.
    + left. eauto.
    + left. eauto.
  - unfold Carrito.vaciarCarrito. rewrite Hc. intros E. injection E as <- _.
    by apply sin_facturar_quieto.
Qed.

Lemma actualizar_sin_facturar k idP ev w w' r :
  Carrito.actualizar k idP ev w = (w', r) -> sin_facturar w w'.
Proof.
  unfold Carrito.actualizar, Carrito.onProductoActualizado.
  destruct (carritos (db w) !! k) as [c|] eqn:Hc.
  2:{ intros E. injection E as <- _. by apply sin_facturar_quieto. }
  destruct (contiene "agotado" (lower ev)).
  2:{ intros E. injection E as <- _. by apply sin_facturar_quieto. }
  set (nuevos := filter _ _).
  assert (Hshape : forall w0,
    listas w0 = listas w ++ [nuevos] ->
    carritos (db w0) = <[k := {| idCarrito := idCarrito c; c_productos := length (listas w);
                                 c_total := c_total c |}]> (carritos (db w)) ->
    facturas (db w0) = facturas (db w) -> seq_factura (db w0) = seq_factura (db w) ->
    sin_facturar w w0).
  { intros w0 Hl Hca Hf Hs.
    apply (sin_facturar_intro w w0 [nuevos] None
             (Some (k, {| idCarrito := idCarrito c; c_productos := length (listas w);
                          c_total := c_total c |}))); try done.
    right. cbn [fst snd c_productos length]. lia. }
  paso. paso.
  destruct (_ <? _)%nat; intros E; injection E as <- _; by apply Hshape.
Qed.

Lemma leer_lista_mas_vacia (h : list (list (Z * Z))) (r : nat) :
  default [] ((h ++ [[]]) !! r) = default [] (h !! r).
Proof.
  destruct (decide (r < length h)%nat) as [Hlt|Hge].
  - by rewrite lookup_app_l.
  - rewrite lookup_app_r by lia. rewrite (lookup_ge_None_2 h r) by lia.
    by destruct (r - length h)%nat as [|[|?]].
Qed.

Lemma agregarAlCarrito_sin_facturar idC idP n w w' r :
  FachadaTienda.agregarAlCarrito idC idP n w = (w', r) -> sin_facturar w w'.
Proof.
  rewrite agregarAlCarrito_eq.
  set (nuevo := {| idCarrito := idC; c_productos := length (listas w); c_total := 0 |}).
  assert (Hpropia : propia w 1 (c_productos (default nuevo (carritos (db w) !! idC)))).
  { destruct (carritos (db w) !! idC) as [c0|] eqn:Hc; cbn [default from_option id].
    - left. eauto.
    - right. cbn [nuevo c_productos]. lia. }
  assert (Herror : forall s r0,
    (escribir s
       match carritos (db w) !! idC with
       | Some _ =>
           con_listas (fun h => h ++ [[]])
             (con_db (con_clientes (fun m =>
                match m !! idC with
                | Some _ => m
                | None => <[idC := cliente_por_defecto idC]> m
                end)) w)
       | None =>
           con_db (con_carritos (fun m => <[idC := nuevo]> m))
             (con_listas (fun h => h ++ [[]])
                (con_db (con_clientes (fun m =>
                   match m !! idC with
                   | Some _ => m
                   | None => <[idC := cliente_por_defecto idC]> m
                   end)) w))
       end, r0) = (w', r) -> sin_facturar w w').
  { intros s r0 E. injection E as <- _.
    destruct (carritos (db w) !! idC) as [c0|] eqn:Hc.
    - by apply (sin_facturar_intro w _ [[]] None None).
    - by apply (sin_facturar_intro w _ [[]] None (Some (idC, nuevo))). }
  destruct (productos (db w) !! idP) as [prod|]; [|apply Herror].
  destruct (stock prod <? n); [apply Herror|].
  cbn zeta. destruct (sumar_lineas _ _ _) as [total|e]; intros E; injection E as <- _.
  - destruct (carritos (db w) !! idC) as [c0|] eqn:Hc; cbn [default from_option id] in *.
    + eapply (sin_facturar_intro w _ [[]] (Some (c_productos c0, _))
                (Some (idC, con_total c0 total))); try reflexivity; done.
    + eapply (sin_facturar_intro w _ [[]] (Some (c_productos nuevo, _))
                (Some (idC, con_total nuevo total))); try reflexivity; try done.
      simpl_mundo. cbn [from_option fst snd]. by rewrite insert_insert_eq.
  - destruct (carritos (db w) !! idC) as [c0|] eqn:Hc; cbn [default from_option id] in *.
    + eapply (sin_facturar_intro w _ [[]] (Some (c_productos c0, _)) None);
        try reflexivity; done.
    + eapply (sin_facturar_intro w _ [[]] (Some (c_productos nuevo, _))
                (Some (idC, nuevo))); try reflexivity; done.
Qed.

Lemma verificar_fallo_sin_facturar idC k info w w' e :
  OrdenServiceImpl.verificar idC k info w = (w', Lanza e) -> sin_facturar w w'.
Proof.
  intros E. destruct (verificar_fallo _ _ _ _ _ _ E) as (_ & Hf & Hs & Hl & _ & Hc).
  destruct Hc as [Hc|(c & t & Hk & Hc)].
  - by apply sin_facturar_quieto.
  - apply (sin_facturar_intro w w' [] None (Some (k, con_total c t))); try done.
    + cbn [from_option id]. by rewrite app_nil_r.
    + left. eauto.
Qed.

Lemma llamar_a_spec ll w w' r :
  llamar_a ll w = (w', r) ->
  match r with
  | Devuelve (Some f) =>
      exists idC k info c lineas,
        ll = LlFinalizarCompra idC k info /\ compra_hecha idC k w w' f c lineas
  | _ => sin_facturar w w'
  end.
Proof.
  destruct ll; cbn [llamar_a]; intros E.
  1-5, 7-8:
    destruct (sin_resultado_inv _ _ _ _ E) as [[r0 E0] Hno];
    assert (Hsf : sin_facturar w w')
      by eauto using suscribir_sin_facturar, ingresarProducto_sin_facturar,
           actualizarInventario_sin_facturar, darSalidaProducto_sin_facturar,
           agregarAlCarrito_sin_facturar, vaciarCarrito_sin_facturar,
           actualizar_sin_facturar;
    destruct r as [[f|]|]; [by destruct (Hno f) | done | done].
  unfold FachadaTienda.finalizarCompra in E.
  destruct (bind_inv _ _ _ _ _ E) as [(e & Em & ->)|(f & w1 & Em & Ef)].
  - by eapply verificar_fallo_sin_facturar.
  - unfold mret, M_ret in Ef. injection Ef as <- <-.
    destruct (verificar_exito _ _ _ _ _ _ Em) as (c & lineas & H). eauto 10.
Qed.

Lemma conserva_facturas_trans w1 w2 w3 :
  conserva_facturas w1 w2 -> conserva_facturas w2 w3 -> conserva_facturas w1 w3.
Proof.
  intros H12 H23 i f Hi. destruct (H12 i f Hi) as [Hi2 Hl2].
  destruct (H23 i f Hi2) as [Hi3 Hl3]. split; [done | congruence].
Qed.

Lemma llamar_a_estable ll w w' r :
  llamar_a ll w = (w', r) -> invariante w -> invariante w' /\ conserva_facturas w w'.
Proof.
  intros E Hinv. pose proof (llamar_a_spec _ _ _ _ E) as H.
  destruct r as [[f|]|]; try by apply sin_facturar_estable.
  destruct H as (idC & k & info & c & lineas & _ & H).
  by eapply compra_hecha_estable.
Qed.

Lemma ejecutar_cons ll resto w :
  ejecutar (ll :: resto) w =
  ((ejecutar resto (llamar_a ll w).1).1,
   (llamar_a ll w).2 :: (ejecutar resto (llamar_a ll w).1).2).
Proof.
  cbn [ejecutar]. destruct (llamar_a ll w) as [w1 r].
  cbn [fst snd]. by destruct (ejecutar resto w1).
Qed.

Lemma ejecutar_estable lls w :
  invariante w ->
  invariante (ejecutar lls w).1 /\ conserva_facturas w (ejecutar lls w).1.
Proof.
  revert w. induction lls as [|ll resto IH]; intros w Hinv.
  - split; [done|]. by intros i f Hi.
  - rewrite ejecutar_cons. cbn [fst].
    destruct (llamar_a ll w) as [w1 r] eqn:E. cbn [fst].
    destruct (llamar_a_estable _ _ _ _ E Hinv) as [Hinv1 Hc1].
    destruct (IH w1 Hinv1) as [Hinv2 Hc2].
    split; [done|]. by eapply conserva_facturas_trans.
Qed.

Lemma invariante_inicial r : invariante (mundo_inicial r).
Proof. split; intros ? ? H; cbn in H; by rewrite lookup_empty in H. Qed.

Lemma ejecutar_facturas lls w :
  invariante w ->
  seq_factura (db (ejecutar lls w).1) =
    seq_factura (db w) + Z.of_nat (length (facturas_emitidas (ejecutar lls w).2)) /\
  forall (i : nat) f,
    facturas_emitidas (ejecutar lls w).2 !! i = Some f ->
    idFactura f = seq_factura (db w) + Z.of_nat i /\
    facturas (db (ejecutar lls w).1) !! idFactura f = Some f.
Proof.
  revert w. induction lls as [|ll resto IH]; intros w Hinv.
  - cbn. split; [lia|]. intros i f Hi. by rewrite lookup_nil in Hi.
  - rewrite ejecutar_cons. cbn [fst snd].
    destruct (llamar_a ll w) as [w1 r] eqn:E. cbn [fst snd].
    destruct (llamar_a_estable _ _ _ _ E Hinv) as [Hinv1 _].
    destruct (IH w1 Hinv1) as [IHs IHf].
    destruct (ejecutar_estable resto w1 Hinv1) as [_ Hcons].
    pose proof (llamar_a_spec _ _ _ _ E) as H.
    destruct r as [[f0|]|]; cbn [facturas_emitidas length].
    + destruct H as (idC & k & info & c & lineas & _ & []).
      split; [lia|]. intros [|i] f Hi.
      * injection Hi as <-. split; [lia|].
        apply Hcons. rewrite ch_facturas0, <- ch_idFactura0. apply lookup_insert_eq.
      * destruct (IHf i f Hi) as [Hid Hst]. split; [lia | done].
    + destruct H as (_ & Hs & _). rewrite <- Hs. split; [done|]. exact IHf.
    + destruct H as (_ & Hs & _). rewrite <- Hs. split; [done|]. exact IHf.
Qed.

(** C3. In a process started afresh, whatever calls are made and whichever
    of them fail, the checkouts that succeed return invoices numbered
    1, 2, 3, ... in the order of the calls: the first has id 1, each later
    one has the id of the one before plus one, and at the end of the run
    each of them is stored in the invoice table under its id. *)
Theorem facturas_consecutivas :
  forall (r0 : nat -> Z) (lls : list Llamada),
    let fin := ejecutar lls (mundo_inicial r0) in
    let emitidas := facturas_emitidas fin.2 in
    (forall f, emitidas !! 0%nat = Some f -> idFactura f = 1) /\
    (forall (i : nat) f g,
        emitidas !! i = Some f -> emitidas !! S i = Some g ->
        idFactura g = idFactura f + 1) /\
    (forall (i : nat) f, emitidas !! i = Some f -> idFactura f = Z.of_nat i + 1) /\
    (forall f, f ∈ emitidas -> facturas (db fin.1) !! idFactura f = Some f).
Proof.
  intros r0 lls. cbn zeta.
  destruct (ejecutar_facturas lls (mundo_inicial r0) (invariante_inicial r0)) as [_ H].
  cbn [mundo_inicial db db_inicial seq_factura] in H.
  repeat split.
  - intros f Hf. destruct (H _ _ Hf); lia.
  - intros i f g Hf Hg. destruct (H _ _ Hf), (H _ _ Hg); lia.
  - intros i f Hf. destruct (H _ _ Hf); lia.
  - intros f Hf. apply list_elem_of_lookup in Hf as [i Hi]. by destruct (H _ _ Hi).
Qed.

(** C9. Take any world the program can be in and a checkout that succeeds
    there.  The invoice it returns is stored under its id, and the list it
    refers to holds the line items the cart had when the invoice was made,
    although the cart's own list has been emptied by the last step of the
    same checkout.  After any further calls whatever (adding to carts,
    emptying them, carts reacting to stock events, other checkouts,
    inventory changes) the invoice stored under that id is the same record,
    total included, and its list still holds those line items. *)
Theorem factura_inmutable :
  forall (r0 : nat -> Z) (antes : list Llamada) idC k info w1 f,
    let w := (ejecutar antes (mundo_inicial r0)).1 in
    OrdenServiceImpl.verificar idC k info w = (w1, Devuelve f) ->
    exists c lineas,
      carritos (db w) !! k = Some c /\
      leer_lista w (c_productos c) = lineas /\ lineas <> [] /\
      facturas (db w1) !! idFactura f = Some f /\
      leer_lista w1 (f_productos f) = lineas /\
      leer_lista w1 (c_productos c) = [] /\
      forall despues : list Llamada,
        let w2 := (ejecutar despues w1).1 in
        facturas (db w2) !! idFactura f = Some f /\
        leer_lista w2 (f_productos f) = lineas.
Proof.
  intros r0 antes idC k info w1 f w E.
  assert (Hinv : invariante w).
  { apply ejecutar_estable, invariante_inicial. }
  destruct (verificar_exito _ _ _ _ _ _ E) as (c & lineas & H).
  destruct (compra_hecha_estable _ _ _ _ _ _ _ Hinv H) as [Hinv1 _].
  destruct H. exists c, lineas.
  assert (Hst : facturas (db w1) !! idFactura f = Some f).
  { rewrite ch_facturas0, ch_idFactura0. apply lookup_insert_eq. }
  assert (Hls : leer_lista w1 (c_productos c) = [] /\
                leer_lista w1 (length (listas w)) = lineas).
  { eapply leer_lista_vaciada; [|exact ch_listas0].
    unfold leer_lista in ch_lineas0. by rewrite ch_lineas0. }
  destruct Hls as [Hvacio Hcopia]. rewrite <- ch_copia0 in Hcopia.
  repeat split; try done.
  - by destruct (ejecutar_estable despues w1 Hinv1) as [_ Hc]; apply Hc.
  - destruct (ejecutar_estable despues w1 Hinv1) as [_ Hc].
    destruct (Hc _ _ Hst) as [_ Hl]. unfold leer_lista in *. by rewrite Hl.
Qed.

(** The checkout of [demo] and anything after it. *)
Lemma factura_inmutable_en_demo :
  exists c lineas,
    carritos (db mundo_demo) !! 1 = Some c /\
    leer_lista mundo_demo (c_productos c) = lineas /\ lineas <> [] /\
    facturas (db (OrdenServiceImpl.verificar 1 1 tarjeta mundo_demo).1) !! 1 =
      Some {| idFactura := 1;
              f_cliente := {| idCliente := 1; cl_nombre := "Cliente 1";
                              cl_direccion := "-"; cl_telefono := "-" |};
              f_productos := 2%nat; f_total := 335000; f_fecha := 7 |} /\
    leer_lista (OrdenServiceImpl.verificar 1 1 tarjeta mundo_demo).1 2%nat = lineas /\
    leer_lista (OrdenServiceImpl.verificar 1 1 tarjeta mundo_demo).1 (c_productos c) = [] /\
    forall despues : list Llamada,
      let w2 := (ejecutar despues (OrdenServiceImpl.verificar 1 1 tarjeta mundo_demo).1).1 in
      facturas (db w2) !! 1 =
        Some {| idFactura := 1;
                f_cliente := {| idCliente := 1; cl_nombre := "Cliente 1";
                                cl_direccion := "-"; cl_telefono := "-" |};
                f_productos := 2%nat; f_total := 335000; f_fecha := 7 |} /\
      leer_lista w2 2%nat = lineas.
Proof.
  apply (factura_inmutable reloj_demo
           (demo_suscripciones ++ demo_productos ++
            [LlAgregarAlCarrito 1 101 2; LlAgregarAlCarrito 1 102 1])
           1 1 tarjeta
           (OrdenServiceImpl.verificar 1 1 tarjeta mundo_demo).1
           {| idFactura := 1;
              f_cliente := {| idCliente := 1; cl_nombre := "Cliente 1";
                              cl_direccion := "-"; cl_telefono := "-" |};
              f_productos := 2%nat; f_total := 335000; f_fecha := 7 |}).
  vm_compute. reflexivity.
Defined.

(** ** Adding to the cart *)

(** C6 (as the code has it).  When the product id is not in the store, or
    the quantity asked for is greater than the product's stock,
    [agregarAlCarrito] raises nothing: it writes one error line to the log
    ("Producto no encontrado", or "Stock insuficiente") and returns to its
    caller normally.  No line item is appended: the client's cart, made
    empty on the spot if the client had none, holds the items it held, and
    so does every other cart; products and invoices are not touched. *)
Theorem agregarAlCarrito_fallo_registrado :
  forall w idC idP n,
    (productos (db w) !! idP = None \/
     exists p, productos (db w) !! idP = Some p /\ stock p < n) ->
    exists w' c',
      FachadaTienda.agregarAlCarrito idC idP n w = (w', Devuelve tt) /\
      consola w' = consola w ++
        [ErrorLog match productos (db w) !! idP with
                  | None => "Producto no encontrado"
                  | Some _ => "Stock insuficiente"
                  end] /\
      carritos (db w') !! idC = Some c' /\
      leer_lista w' (c_productos c') =
        from_option (fun c => leer_lista w (c_productos c)) [] (carritos (db w) !! idC) /\
      (forall k c, carritos (db w) !! k = Some c ->
                   carritos (db w') !! k = Some c /\
                   leer_lista w' (c_productos c) = leer_lista w (c_productos c)) /\
      productos (db w') = productos (db w) /\
      facturas (db w') = facturas (db w).
Proof.
  intros w idC idP n Hfallo.
  rewrite agregarAlCarrito_eq.
  set (nuevo := {| idCarrito := idC; c_productos := length (listas w); c_total := 0 |}).
  set (w2 := match carritos (db w) !! idC with Some _ => _ | None => _ end).
  assert (Hw2 : exists c',
    carritos (db w2) !! idC = Some c' /\
    leer_lista w2 (c_productos c') =
      from_option (fun c => leer_lista w (c_productos c)) [] (carritos (db w) !! idC) /\
    (forall k c, carritos (db w) !! k = Some c ->
                 carritos (db w2) !! k = Some c /\
                 leer_lista w2 (c_productos c) = leer_lista w (c_productos c)) /\
    productos (db w2) = productos (db w) /\ facturas (db w2) = facturas (db w) /\
    consola w2 = consola w).
  { subst w2. destruct (carritos (db w) !! idC) as [c0|] eqn:Hc.
    - exists c0. unfold leer_lista. simpl_mundo. cbn [from_option].
      split; [done|]. split; [apply leer_lista_mas_vacia|].
      split; [|done]. intros k c Hk. split; [done | apply leer_lista_mas_vacia].
    - exists nuevo. unfold leer_lista. simpl_mundo. cbn [from_option nuevo c_productos].
      split; [apply lookup_insert_eq|]. split.
      { rewrite lookup_app_r by lia. by rewrite Nat.sub_diag. }
      split; [|done]. intros k c Hk. split; [|apply leer_lista_mas_vacia].
      rewrite lookup_insert_ne; [done | congruence]. }
  destruct Hw2 as (c' & H1 & H2 & H3 & H4 & H5 & H6).
  assert (Hfin : forall s, exists w' c'0,
    (escribir (ErrorLog s) w2, Devuelve tt) = (w', Devuelve tt) /\
    consola w' = consola w ++ [ErrorLog s] /\
    carritos (db w') !! idC = Some c'0 /\
    leer_lista w' (c_productos c'0) =
      from_option (fun c => leer_lista w (c_productos c)) [] (carritos (db w) !! idC) /\
    (forall k c, carritos (db w) !! k = Some c ->
                 carritos (db w') !! k = Some c /\
                 leer_lista w' (c_productos c) = leer_lista w (c_productos c)) /\
    productos (db w') = productos (db w) /\ facturas (db w') = facturas (db w)).
  { intros s. exists (escribir (ErrorLog s) w2), c'. split; [done|].
    split; [simpl_mundo; by rewrite H6|].
    split; [exact H1|]. split; [exact H2|]. split; [exact H3|].
    split; [exact H4 | exact H5]. }
  destruct Hfallo as [Hnone | (p & Hp & Hlt)].
  - rewrite Hnone. apply Hfin.
  - rewrite Hp. destruct (Z.ltb_spec (stock p) n); [apply Hfin | lia].
Qed.

(** Eleven units asked of product 101, which has ten, in the world of
    [demo]. *)
Lemma agregarAlCarrito_fallo_registrado_en_demo :
  exists w' c',
    FachadaTienda.agregarAlCarrito 1 101 11 mundo_demo = (w', Devuelve tt) /\
    consola w' = consola mundo_demo ++ [ErrorLog "Stock insuficiente"] /\
    carritos (db w') !! 1 = Some c' /\
    leer_lista w' (c_productos c') = [(101, 2); (102, 1)] /\
    (forall k c, carritos (db mundo_demo) !! k = Some c ->
                 carritos (db w') !! k = Some c /\
                 leer_lista w' (c_productos c) = leer_lista mundo_demo (c_productos c)) /\
    productos (db w') = productos (db mundo_demo) /\
    facturas (db w') = facturas (db mundo_demo).
Proof.
  apply (agregarAlCarrito_fallo_registrado mundo_demo 1 101 11).
  right. eexists. split; [vm_compute; reflexivity | vm_compute; reflexivity].
Defined.

(** C6 as the specification words it does not hold: asked for a product
    that is not in the store (999), and asked for eleven units of a product
    with ten in stock, the facade returns normally, the failure being only
    a line in the log. *)
Lemma agregarAlCarrito_no_lanza :
  (productos (db mundo_demo) !! 999 = None /\
   exists w', FachadaTienda.agregarAlCarrito 1 999 1 mundo_demo = (w', Devuelve tt) /\
              last (consola w') = Some (ErrorLog "Producto no encontrado")) /\
  (stock <$> productos (db mundo_demo) !! 101 = Some 10 /\
   exists w', FachadaTienda.agregarAlCarrito 1 101 11 mundo_demo = (w', Devuelve tt) /\
              last (consola w') = Some (ErrorLog "Stock insuficiente")).
Proof.
  split; (split; [vm_compute; reflexivity|]); eexists; split; vm_compute; reflexivity.
Qed.

(** C1 fails on the code.  With five units of product 102 in stock, the
    facade accepts three units twice (each request is compared with the
    stock alone, not with what the cart already holds); the checkout then
    succeeds and leaves the stock of product 102 at -1. *)
Theorem verificar_deja_stock_negativo :
  stock <$> productos (db mundo_sobreventa) !! 102 = Some 5 /\
  exists w' f,
    OrdenServiceImpl.verificar 1 1 tarjeta mundo_sobreventa = (w', Devuelve f) /\
    leer_lista mundo_sobreventa 0%nat = [(102, 3); (102, 3)] /\
    stock <$> productos (db w') !! 102 = Some (-1).
Proof.
  split; [vm_compute; reflexivity|].
  eexists _, _. split; [vm_compute; reflexivity|].
  split; vm_compute; reflexivity.
Qed.

(** * Further properties of the code *)

(** ** Storing and reading products *)

Lemma ingresarProducto_devuelve dto pr w :
  a_float (dto_precio dto) = Devuelve pr ->
  exists w',
    InventarioServiceImpl.ingresarProducto dto w = (w', Devuelve tt) /\
    db w' = con_productos (fun m => <[dto_idProducto dto := fila_de dto pr]> m) (db w) /\
    listas w' = listas w /\ conta w' = conta w /\ suscriptores w' = suscriptores w /\
    publicaciones (consola w') =
      publicaciones (consola w) ++ [ingreso_a_inventario (dto_idProducto dto)].
Proof.
  intros Hpr. unfold InventarioServiceImpl.ingresarProducto.
  assert (Eg : ProductoRepositorioImpl.guardar dto w =
               (escribir (InfoProductoGuardado (dto_nombre dto))
                  (con_db (con_productos (fun m =>
                     <[dto_idProducto dto := fila_de dto pr]> m)) w), Devuelve tt)).
  { rewrite guardar_eq, Hpr. reflexivity. }
  rewrite (bind_devuelve _ _ _ _ _ Eg).
  set (w0 := escribir _ _).
  destruct (publicar_spec "producto_actualizado"
              {| d_idProducto := dto_idProducto dto; d_evento := "Ingreso a inventario" |} w0)
    as (w1 & E1 & (D1 & L1 & C1 & S1 & _) & P1).
  exists w1. split; [done|]. rewrite D1, L1, C1, S1, P1. subst w0. simpl_mundo.
  repeat split. by rewrite publicaciones_app, app_nil_r.
Qed.

(** X1. A product handed to [ingresarProducto] with a price that converts
    to a float is stored whole under its id: read back with [obtenerPorId]
    it has the name, the description (empty when the DTO had none), the
    converted price and the stock that were handed in, [consultarInventario]
    gives that stock, every other product is as it was, and exactly one
    event, "Ingreso a inventario" for that product, has been published. *)
Theorem ingresar_y_consultar :
  forall w dto pr,
    a_float (dto_precio dto) = Devuelve pr ->
    exists w',
      InventarioServiceImpl.ingresarProducto dto w = (w', Devuelve tt) /\
      ProductoRepositorioImpl.obtenerPorId (dto_idProducto dto) w' =
        (w', Devuelve {| p_idProducto := dto_idProducto dto; p_nombre := dto_nombre dto;
                         p_descripcion := default "" (dto_descripcion dto);
                         p_precio := pr; inventario := dto_stock dto |}) /\
      InventarioServiceImpl.consultarInventario (dto_idProducto dto) w' =
        (w', Devuelve (dto_stock dto)) /\
      (forall k, k <> dto_idProducto dto ->
                 productos (db w') !! k = productos (db w) !! k) /\
      publicaciones (consola w') =
        publicaciones (consola w) ++ [ingreso_a_inventario (dto_idProducto dto)].
Proof.
  intros w dto pr Hpr.
  destruct (ingresarProducto_devuelve dto pr w Hpr) as (w' & E & D & _ & _ & _ & P).
  assert (Hrow : productos (db w') !! dto_idProducto dto = Some (fila_de dto pr)).
  { rewrite D. simpl_mundo. apply lookup_insert_eq. }
  assert (Hget : ProductoRepositorioImpl.obtenerPorId (dto_idProducto dto) w' =
                 (w', Devuelve {| p_idProducto := dto_idProducto dto;
                                  p_nombre := dto_nombre dto;
                                  p_descripcion := default "" (dto_descripcion dto);
                                  p_precio := pr; inventario := dto_stock dto |})).
  { unfold ProductoRepositorioImpl.obtenerPorId. by rewrite Hrow. }
  exists w'. split; [done|]. split; [done|]. split; [|split; [|done]].
  - unfold InventarioServiceImpl.consultarInventario.
    by rewrite (bind_devuelve _ _ _ _ _ Hget).
  - intros k Hk. rewrite D. simpl_mundo. by rewrite lookup_insert_ne.
Qed.

(** The first product of [demo], whose price is given as an [int]. *)
Lemma ingresar_y_consultar_en_demo :
  exists w',
    InventarioServiceImpl.ingresarProducto zapatilla_deportiva (mundo_inicial reloj_demo) =
      (w', Devuelve tt) /\
    ProductoRepositorioImpl.obtenerPorId 101 w' =
      (w', Devuelve {| p_idProducto := 101; p_nombre := "Zapatilla Deportiva";
                       p_descripcion := "Running pro";
                       p_precio := 120000; inventario := 10 |}) /\
    InventarioServiceImpl.consultarInventario 101 w' = (w', Devuelve 10) /\
    (forall k, k <> 101 ->
               productos (db w') !! k = productos (db (mundo_inicial reloj_demo)) !! k) /\
    publicaciones (consola w') =
      publicaciones (consola (mundo_inicial reloj_demo)) ++ [ingreso_a_inventario 101].
Proof.
  apply (ingresar_y_consultar (mundo_inicial reloj_demo) zapatilla_deportiva 120000).
  vm_compute. reflexivity.
Defined.

(** X2. [guardar] is an upsert of the whole row: saving a second DTO under
    an id already saved leaves in the table exactly what saving the second
    one alone would have left, whatever the first one held. *)
Theorem guardar_sobrescribe :
  forall w dto1 dto2 pr1 pr2,
    dto_idProducto dto1 = dto_idProducto dto2 ->
    a_float (dto_precio dto1) = Devuelve pr1 ->
    a_float (dto_precio dto2) = Devuelve pr2 ->
    exists w1 w2 w3,
      ProductoRepositorioImpl.guardar dto1 w = (w1, Devuelve tt) /\
      ProductoRepositorioImpl.guardar dto2 w1 = (w2, Devuelve tt) /\
      ProductoRepositorioImpl.guardar dto2 w = (w3, Devuelve tt) /\
      db w2 = db w3 /\
      productos (db w2) !! dto_idProducto dto2 = Some (fila_de dto2 pr2).
Proof.
  intros w dto1 dto2 pr1 pr2 Hid H1 H2.
  do 3 eexists. rewrite !guardar_eq, H1, H2.
  split; [reflexivity|]. split; [reflexivity|]. split; [reflexivity|].
  simpl_mundo. split.
  - apply db_ext; simpl_mundo; try reflexivity.
    unfold con_productos; simpl_mundo. rewrite Hid. apply insert_insert_eq.
  - apply lookup_insert_eq.
Qed.

Lemma guardar_sobrescribe_en_demo :
  exists w1 w2 w3,
    ProductoRepositorioImpl.guardar zapatilla_deportiva (mundo_inicial reloj_demo) =
      (w1, Devuelve tt) /\
    ProductoRepositorioImpl.guardar
      {| dto_idProducto := 101; dto_nombre := "Bota"; dto_descripcion := None;
         dto_precio := Flotante 99.5; dto_stock := 3 |} w1 = (w2, Devuelve tt) /\
    ProductoRepositorioImpl.guardar
      {| dto_idProducto := 101; dto_nombre := "Bota"; dto_descripcion := None;
         dto_precio := Flotante 99.5; dto_stock := 3 |} (mundo_inicial reloj_demo) =
      (w3, Devuelve tt) /\
    db w2 = db w3 /\
    productos (db w2) !! 101 =
      Some (fila_de {| dto_idProducto := 101; dto_nombre := "Bota"; dto_descripcion := None;
                       dto_precio := Flotante 99.5; dto_stock := 3 |} 99.5).
Proof.
  apply (guardar_sobrescribe (mundo_inicial reloj_demo) zapatilla_deportiva
           {| dto_idProducto := 101; dto_nombre := "Bota"; dto_descripcion := None;
              dto_precio := Flotante 99.5; dto_stock := 3 |} 120000 99.5);
    vm_compute; reflexivity.
Defined.

(** X3. Asked about a product id that is not in the table, the repository
    and the inventory service raise [ValueError] and change nothing:
    [obtenerPorId] and [consultarInventario] say "Producto no encontrado",
    [actualizarInventario] and [darSalidaProducto] say "Producto no
    existe"; in particular a dispatch of a missing product publishes no
    event and prints nothing. *)
Theorem producto_inexistente :
  forall w idP delta n,
    productos (db w) !! idP = None ->
    ProductoRepositorioImpl.obtenerPorId idP w =
      (w, Lanza (ValueError "Producto no encontrado")) /\
    InventarioServiceImpl.consultarInventario idP w =
      (w, Lanza (ValueError "Producto no encontrado")) /\
    ProductoRepositorioImpl.actualizarInventario idP delta w =
      (w, Lanza (ValueError "Producto no existe")) /\
    InventarioServiceImpl.darSalidaProducto idP n w =
      (w, Lanza (ValueError "Producto no existe")).
Proof.
  intros w idP delta n Hno.
  assert (Hget : ProductoRepositorioImpl.obtenerPorId idP w =
                 (w, Lanza (ValueError "Producto no encontrado"))).
  { unfold ProductoRepositorioImpl.obtenerPorId. by rewrite Hno. }
  split; [done|]. split.
  - unfold InventarioServiceImpl.consultarInventario.
    by rewrite (bind_lanza _ _ _ _ _ Hget).
  - split; [by apply actualizarInventario_ausente | by apply darSalidaProducto_ausente].
Qed.

Lemma producto_inexistente_en_demo :
  ProductoRepositorioImpl.obtenerPorId 999 mundo_demo =
    (mundo_demo, Lanza (ValueError "Producto no encontrado")) /\
  InventarioServiceImpl.consultarInventario 999 mundo_demo =
    (mundo_demo, Lanza (ValueError "Producto no encontrado")) /\
  ProductoRepositorioImpl.actualizarInventario 999 (-1) mundo_demo =
    (mundo_demo, Lanza (ValueError "Producto no existe")) /\
  InventarioServiceImpl.darSalidaProducto 999 1 mundo_demo =
    (mundo_demo, Lanza (ValueError "Producto no existe")).
Proof.
  apply (producto_inexistente mundo_demo 999 (-1) 1). vm_compute. reflexivity.
Defined.

(** X4. When the price of a DTO is an [int] too large for a float,
    [ingresarProducto] raises the [OverflowError] of the conversion before
    anything is stored: the world is as it was, and no event is published. *)
Theorem ingresar_precio_desmedido :
  forall w dto e,
    a_float (dto_precio dto) = Lanza e ->
    InventarioServiceImpl.ingresarProducto dto w = (w, Lanza e) /\
    ProductoRepositorioImpl.guardar dto w = (w, Lanza e) /\
    e = OverflowError "int too large to convert to float".
Proof.
  intros w dto e He.
  assert (Eg : ProductoRepositorioImpl.guardar dto w = (w, Lanza e)).
  { by rewrite guardar_eq, He. }
  split; [|split; [done|]].
  - unfold InventarioServiceImpl.ingresarProducto. by rewrite (bind_lanza _ _ _ _ _ Eg).
  - destruct (dto_precio dto) as [z|f]; [|done]. cbn [a_float] in He.
    unfold float_of_int in He. destruct (PrimFloat.is_infinity (redondear z)); congruence.
Qed.

Lemma ingresar_precio_desmedido_en_demo :
  InventarioServiceImpl.ingresarProducto
    {| dto_idProducto := 1; dto_nombre := "Caro"; dto_descripcion := None;
       dto_precio := Entero (2 ^ 1024); dto_stock := 1 |} mundo_demo =
    (mundo_demo, Lanza (OverflowError "int too large to convert to float")) /\
  ProductoRepositorioImpl.guardar
    {| dto_idProducto := 1; dto_nombre := "Caro"; dto_descripcion := None;
       dto_precio := Entero (2 ^ 1024); dto_stock := 1 |} mundo_demo =
    (mundo_demo, Lanza (OverflowError "int too large to convert to float")) /\
  OverflowError "int too large to convert to float" =
    OverflowError "int too large to convert to float".
Proof.
  apply (ingresar_precio_desmedido mundo_demo
           {| dto_idProducto := 1; dto_nombre := "Caro"; dto_descripcion := None;
              dto_precio := Entero (2 ^ 1024); dto_stock := 1 |}).
  vm_compute. reflexivity.
Defined.

Lemma con_stock_con_stock row a b :
  con_stock (con_stock row a) b = con_stock row (a + b).
Proof. unfold con_stock. cbn. f_equal. lia. Qed.

(** X5. Stock adjustments add up: for a product in the table, adjusting by
    [a] and then by [b] both succeed and leave the store exactly as one
    adjustment by [a + b] does; the stock is then the old one plus
    [a + b], whatever the signs, with no clamping at zero. *)
Theorem actualizarInventario_suma :
  forall w idP a b row,
    productos (db w) !! idP = Some row ->
    exists w1 w2 w3,
      ProductoRepositorioImpl.actualizarInventario idP a w = (w1, Devuelve tt) /\
      ProductoRepositorioImpl.actualizarInventario idP b w1 = (w2, Devuelve tt) /\
      ProductoRepositorioImpl.actualizarInventario idP (a + b) w = (w3, Devuelve tt) /\
      db w2 = db w3 /\
      stock <$> productos (db w2) !! idP = Some (stock row + (a + b)).
Proof.
  intros w idP a b row Hrow.
  pose proof (actualizarInventario_presente idP a w row Hrow) as E1.
  set (w1 := escribir _ _) in E1.
  assert (H1 : productos (db w1) !! idP = Some (con_stock row a)).
  { subst w1. simpl_mundo. apply lookup_insert_eq. }
  pose proof (actualizarInventario_presente idP b w1 _ H1) as E2.
  pose proof (actualizarInventario_presente idP (a + b) w row Hrow) as E3.
  do 3 eexists. split; [exact E1|]. split; [exact E2|]. split; [exact E3|].
  subst w1. simpl_mundo. rewrite con_stock_con_stock. split.
  - apply db_ext; simpl_mundo; try reflexivity.
    unfold con_productos; simpl_mundo. apply insert_insert_eq.
  - by rewrite lookup_insert_eq.
Qed.

Lemma actualizarInventario_suma_en_demo :
  exists w1 w2 w3,
    ProductoRepositorioImpl.actualizarInventario 102 (-7) mundo_demo = (w1, Devuelve tt) /\
    ProductoRepositorioImpl.actualizarInventario 102 4 w1 = (w2, Devuelve tt) /\
    ProductoRepositorioImpl.actualizarInventario 102 (-7 + 4) mundo_demo = (w3, Devuelve tt) /\
    db w2 = db w3 /\
    stock <$> productos (db w2) !! 102 = Some (5 + (-7 + 4)).
Proof.
  apply (actualizarInventario_suma mundo_demo 102 (-7) 4
           {| idProducto := 102; nombre := "Zapatilla Casual"; descripcion := "Daily";
              precio := 95000; stock := 5 |}).
  vm_compute. reflexivity.
Defined.



(** ** What the observers record *)

Lemma sin_fecha_app h1 h2 : sin_fecha (h1 ++ h2) = sin_fecha h1 ++ sin_fecha h2.
Proof. unfold sin_fecha. by rewrite fmap_app. Qed.

Lemma acumular_acumular prods idP a b acc :
  acumular prods idP b (acumular prods idP a acc) = acumular prods idP (a + b) acc.
Proof.
  unfold acumular. destruct (prods !! idP); [|done].
  rewrite (Nat.add_comm a b). by rewrite Nat.iter_add.
Qed.

Lemma veces_cons h x hs :
  veces h (x :: hs) = ((if decide (x = h) then 1 else 0) + veces h hs)%nat.
Proof. unfold veces. rewrite filter_cons. by destruct (decide (x = h)). Qed.

Lemma llamar_registro h d w :
  exists w' nuevos,
    llamar h d w = (w', Devuelve tt) /\ mismo_nucleo w w' /\
    historial w' = historial w ++ nuevos /\
    sin_fecha nuevos =
      replicate (if decide (h = HObservadorAuditoria) then 1 else 0)
                (d_idProducto d, d_evento d) /\
    ingresos_acumulados w' =
      acumular (productos (db w)) (d_idProducto d)
               (if decide (h = HObservadorContabilidad) then 1 else 0)
               (ingresos_acumulados w).
Proof.
  destruct h; unfold llamar.
  - exists (escribir (PrintObservadorCarrito (d_idProducto d) (d_evento d)) w), [].
    split; [reflexivity|]. split; [by repeat split|].
    simpl_mundo. split; [by rewrite app_nil_r|]. split; [done|].
    unfold acumular. by destruct (productos (db w) !! d_idProducto d).
  - unfold ObservadorContabilidad.actualizar, acumular.
    destruct (productos (db w) !! d_idProducto d).
    + eexists _, []. split; [reflexivity|]. split; [by repeat split|].
      simpl_mundo. by rewrite app_nil_r.
    + exists w, []. split; [reflexivity|]. split; [by repeat split|]. by rewrite app_nil_r.
  - eexists _, [(d_idProducto d, d_evento d, reloj w (tic w))].
    split; [reflexivity|]. split; [by repeat split|].
    simpl_mundo. split; [done|]. split; [done|].
    unfold acumular. by destruct (productos (db w) !! d_idProducto d).
  - eexists _, []. split; [reflexivity|]. split; [by repeat split|].
    simpl_mundo. split; [by rewrite app_nil_r|]. split; [done|].
    unfold acumular. by destruct (productos (db w) !! d_idProducto d).
Qed.

Lemma para_cada_registro hs d w :
  exists w' nuevos,
    para_cada hs (fun h => llamar h d) w = (w', Devuelve tt) /\ mismo_nucleo w w' /\
    historial w' = historial w ++ nuevos /\
    sin_fecha nuevos =
      replicate (veces HObservadorAuditoria hs) (d_idProducto d, d_evento d) /\
    ingresos_acumulados w' =
      acumular (productos (db w)) (d_idProducto d)
               (veces HObservadorContabilidad hs) (ingresos_acumulados w).
Proof.
  revert w. induction hs as [|h hs IH]; intros w.
  - exists w, []. split; [done|]. split; [apply mismo_nucleo_refl|].
    split; [by rewrite app_nil_r|]. split; [done|].
    unfold acumular. by destruct (productos (db w) !! d_idProducto d).
  - destruct (llamar_registro h d w) as (w1 & n1 & E1 & N1 & H1 & F1 & A1).
    destruct (IH w1) as (w2 & n2 & E2 & N2 & H2 & F2 & A2).
    exists w2, (n1 ++ n2). split; [|split; [by eapply mismo_nucleo_trans|split; [|split]]].
    + cbn [para_cada]. by rewrite (bind_devuelve _ _ _ _ _ E1).
    + by rewrite H2, H1, <- app_assoc.
    + by rewrite sin_fecha_app, F1, F2, veces_cons, replicate_add.
    + rewrite A2, A1, !veces_cons. destruct N1 as [-> _]. apply acumular_acumular.
Qed.

Lemma publicar_registro ev d w :
  exists w' nuevos,
    publicar ev d w = (w', Devuelve tt) /\ mismo_nucleo w w' /\
    historial w' = historial w ++ nuevos /\
    sin_fecha nuevos =
      replicate (veces HObservadorAuditoria (BusEventos.handlers_de (suscriptores w) ev))
                (d_idProducto d, d_evento d) /\
    ingresos_acumulados w' =
      acumular (productos (db w)) (d_idProducto d)
               (veces HObservadorContabilidad (BusEventos.handlers_de (suscriptores w) ev))
               (ingresos_acumulados w).
Proof.
  unfold publicar, BusEventos.publicar.
  destruct (para_cada_registro (BusEventos.handlers_de (suscriptores w) ev) d
              (escribir (InfoPublicando ev d) w)) as (w' & nuevos & E & N & H & F & A).
  exists w', nuevos. split; [done|]. split; [|done].
  eapply mismo_nucleo_trans; [|exact N]. by repeat split.
Qed.

Lemma repetir_publicar_registro n ev d w :
  exists w' nuevos,
    repetir n (publicar ev d) w = (w', Devuelve tt) /\ mismo_nucleo w w' /\
    historial w' = historial w ++ nuevos /\
    sin_fecha nuevos =
      replicate (n * veces HObservadorAuditoria (BusEventos.handlers_de (suscriptores w) ev))
                (d_idProducto d, d_evento d) /\
    ingresos_acumulados w' =
      acumular (productos (db w)) (d_idProducto d)
               (n * veces HObservadorContabilidad (BusEventos.handlers_de (suscriptores w) ev))
               (ingresos_acumulados w).
Proof.
  revert w. induction n as [|n IH]; intros w.
  - exists w, []. split; [done|]. split; [apply mismo_nucleo_refl|].
    split; [by rewrite app_nil_r|]. split; [done|].
    unfold acumular. by destruct (productos (db w) !! d_idProducto d).
  - destruct (publicar_registro ev d w) as (w1 & n1 & E1 & N1 & H1 & F1 & A1).
    destruct (IH w1) as (w2 & n2 & E2 & N2 & H2 & F2 & A2).
    exists w2, (n1 ++ n2). split; [|split; [by eapply mismo_nucleo_trans|]].
    + cbn [repetir]. by rewrite (bind_devuelve _ _ _ _ _ E1).
    + destruct N1 as (Hdb & _ & _ & Hsu & _). rewrite Hdb, Hsu in *.
      split; [by rewrite H2, H1, <- app_assoc|].
      rewrite sin_fecha_app, F1, F2, A2, A1. cbn [Nat.mul]. split.
      * by rewrite replicate_add.
      * apply acumular_acumular.
Qed.

Lemma darSalidaProducto_registro idP n w row :
  productos (db w) !! idP = Some row ->
  let aud ev := veces HObservadorAuditoria (BusEventos.handlers_de (suscriptores w) ev) in
  let cont ev := veces HObservadorContabilidad (BusEventos.handlers_de (suscriptores w) ev) in
  let agotado := bool_decide (stock row - n <= 0) in
  exists w' nuevos,
    InventarioServiceImpl.darSalidaProducto idP n w = (w', Devuelve tt) /\
    historial w' = historial w ++ nuevos /\
    sin_fecha nuevos =
      replicate (Z.to_nat n * aud "venta_realizada") (idP, "Venta realizada") ++
      replicate (if agotado then aud "producto_actualizado" else 0) (idP, "Producto agotado") /\
    ingresos_acumulados w' =
      Nat.iter (Z.to_nat n * cont "venta_realizada" +
                (if agotado then cont "producto_actualizado" else 0))
               (fun a => (a + precio row)%float) (ingresos_acumulados w).
Proof.
  intros Hrow aud cont agotado. unfold InventarioServiceImpl.darSalidaProducto.
  rewrite (bind_devuelve _ _ _ _ _ (actualizarInventario_presente _ (- n) _ _ Hrow)).
  set (w0 := escribir _ _).
  destruct (repetir_publicar_registro (range_veces n) "venta_realizada"
              {| d_idProducto := idP; d_evento := "Venta realizada" |} w0)
    as (w1 & n1 & E1 & (D1 & L1 & C1 & S1 & R1) & H1 & F1 & A1).
  rewrite (bind_devuelve _ _ _ _ _ E1).
  assert (Hrow0 : productos (db w0) !! idP = Some (con_stock row (- n))).
  { subst w0. simpl_mundo. apply lookup_insert_eq. }
  assert (Hrow1 : productos (db w1) !! idP = Some (con_stock row (- n))) by by rewrite D1.
  unfold InventarioServiceImpl.consultarInventario, ProductoRepositorioImpl.obtenerPorId.
  unfold mbind at 1 2, M_bind. rewrite Hrow1. unfold mret, M_ret.
  cbn [inventario con_stock stock d_idProducto d_evento] in *.
  replace (stock row + - n) with (stock row - n) by lia.
  unfold acumular in A1. rewrite Hrow0 in A1. cbn [precio con_stock] in A1.
  assert (Hs0 : suscriptores w0 = suscriptores w) by reflexivity.
  assert (Hh0 : historial w0 = historial w) by reflexivity.
  assert (Ha0 : ingresos_acumulados w0 = ingresos_acumulados w) by reflexivity.
  rewrite Hs0, Hh0, Ha0 in *. unfold range_veces in *.
  subst agotado. destruct (Z.leb_spec (stock row - n) 0) as [Hle|Hgt].
  - rewrite bool_decide_eq_true_2 by done.
    destruct (publicar_registro "producto_actualizado"
                {| d_idProducto := idP; d_evento := "Producto agotado" |} w1)
      as (w2 & n2 & E2 & _ & H2 & F2 & A2).
    exists w2, (n1 ++ n2). rewrite E2. split; [done|].
    unfold acumular in A2. cbn [d_idProducto d_evento] in *. rewrite Hrow1 in A2.
    cbn [precio con_stock] in *.
    rewrite S1 in *. split; [by rewrite H2, H1, <- app_assoc|]. split.
    + by rewrite sin_fecha_app, F1, F2.
    + rewrite A2, A1. subst aud cont. cbn beta.
      rewrite (Nat.add_comm (Z.to_nat n * _)). by rewrite Nat.iter_add.
  - rewrite bool_decide_eq_false_2 by lia.
    exists w1, n1. split; [done|]. split; [done|]. split.
    + rewrite F1. cbn [replicate]. by rewrite app_nil_r.
    + rewrite A1. by rewrite Nat.add_0_r.
Qed.

(** X7. The audit observer's history only grows, and a dispatch adds to it
    one record per sale event and per subscription: dispatching [n] units
    of a product appends, for each time the audit observer is subscribed to
    "venta_realizada", [n] records "Venta realizada" for the product, and
    then, when the stock left is zero or less, one "Producto agotado" record
    for each time it is subscribed to "producto_actualizado"; nothing
    already in the history is changed. *)
Theorem darSalidaProducto_auditoria :
  forall w idP n row,
    productos (db w) !! idP = Some row ->
    exists w' nuevos,
      InventarioServiceImpl.darSalidaProducto idP n w = (w', Devuelve tt) /\
      historial w' = historial w ++ nuevos /\
      sin_fecha nuevos =
        replicate (Z.to_nat n * veces HObservadorAuditoria
                                  (BusEventos.handlers_de (suscriptores w) "venta_realizada"))
                  (idP, "Venta realizada") ++
        replicate (if bool_decide (stock row - n <= 0)
                   then veces HObservadorAuditoria
                          (BusEventos.handlers_de (suscriptores w) "producto_actualizado")
                   else 0)
                  (idP, "Producto agotado").
Proof.
  intros w idP n row Hrow.
  destruct (darSalidaProducto_registro idP n w row Hrow) as (w' & nuevos & E & H & F & _).
  by exists w', nuevos.
Qed.

(** With the subscriptions of [demo]: both units of product 103 sold. *)
Lemma darSalidaProducto_auditoria_en_demo :
  exists w' nuevos,
    InventarioServiceImpl.darSalidaProducto 103 2 mundo_demo = (w', Devuelve tt) /\
    historial w' = historial mundo_demo ++ nuevos /\
    sin_fecha nuevos =
      replicate (Z.to_nat 2 * veces HObservadorAuditoria
                                (BusEventos.handlers_de (suscriptores mundo_demo)
                                   "venta_realizada"))
                (103, "Venta realizada") ++
      replicate (if bool_decide (2 - 2 <= 0)
                 then veces HObservadorAuditoria
                        (BusEventos.handlers_de (suscriptores mundo_demo)
                           "producto_actualizado")
                 else 0)
                (103, "Producto agotado").
Proof.
  apply (darSalidaProducto_auditoria mundo_demo 103 2
           {| idProducto := 103; nombre := "Zapatilla Urbana"; descripcion := "Street";
              precio := 130000; stock := 2 |}).
  vm_compute. reflexivity.
Defined.

(** X8. The accounting observer adds the product's unit price to its
    running total once for every event it receives about the product,
    whatever the event says: after a dispatch of [n] units the total has
    had the price added [n] times for each subscription to
    "venta_realizada", and once more for each subscription to
    "producto_actualizado" when the "Producto agotado" event went out. *)
Theorem darSalidaProducto_contabilidad :
  forall w idP n row,
    productos (db w) !! idP = Some row ->
    exists w',
      InventarioServiceImpl.darSalidaProducto idP n w = (w', Devuelve tt) /\
      ingresos_acumulados w' =
        Nat.iter (Z.to_nat n * veces HObservadorContabilidad
                                 (BusEventos.handlers_de (suscriptores w) "venta_realizada") +
                  (if bool_decide (stock row - n <= 0)
                   then veces HObservadorContabilidad
                          (BusEventos.handlers_de (suscriptores w) "producto_actualizado")
                   else 0))
                 (fun a => (a + precio row)%float) (ingresos_acumulados w).
Proof.
  intros w idP n row Hrow.
  destruct (darSalidaProducto_registro idP n w row Hrow) as (w' & nuevos & E & _ & _ & A).
  by exists w'.
Qed.

Lemma darSalidaProducto_contabilidad_en_demo :
  exists w',
    InventarioServiceImpl.darSalidaProducto 103 2 mundo_demo = (w', Devuelve tt) /\
    ingresos_acumulados w' =
      Nat.iter (Z.to_nat 2 * veces HObservadorContabilidad
                               (BusEventos.handlers_de (suscriptores mundo_demo)
                                  "venta_realizada") +
                (if bool_decide (2 - 2 <= 0)
                 then veces HObservadorContabilidad
                        (BusEventos.handlers_de (suscriptores mundo_demo)
                           "producto_actualizado")
                 else 0))
               (fun a => (a + 130000)%float) (ingresos_acumulados mundo_demo).
Proof.
  apply (darSalidaProducto_contabilidad mundo_demo 103 2
           {| idProducto := 103; nombre := "Zapatilla Urbana"; descripcion := "Street";
              precio := 130000; stock := 2 |}).
  vm_compute. reflexivity.
Defined.

(** ** The cart *)

Lemma alcanzable_invariante r0 antes :
  invariante (ejecutar antes (mundo_inicial r0)).1.
Proof. apply ejecutar_estable, invariante_inicial. Qed.

Lemma sumar_lineas_convertible prods lineas acc :
  Forall (fun l : Z * Z => exists c, float_of_int l.2 = Devuelve c) lineas ->
  exists total, sumar_lineas prods lineas acc = Devuelve total.
Proof.
  intros Hv. revert acc. induction Hv as [|[idP cant] resto [c Hc] _ IH]; intros acc.
  - by exists acc.
  - cbn [sumar_lineas]. cbn [snd] in Hc. rewrite Hc.
    destruct (prods !! idP); apply IH.
Qed.



(** X10. In any world the program can reach, adding to a cart a product
    that is in the table, in a quantity not above its stock, succeeds
    (quantities being within the range of a float): the line is appended
    after the lines the client's cart already had (the cart, and the
    client's row, being made on the spot for a new client), the cart's
    cached total becomes the sum of price times quantity over all its
    lines, the last line logged reports the addition, and the product
    table is unchanged: nothing is reserved, the stock stays as it was. *)
Theorem agregarAlCarrito_agrega :
  forall (r0 : nat -> Z) (antes : list Llamada) idC idP n prod,
    let w := (ejecutar antes (mundo_inicial r0)).1 in
    let previas :=
      from_option (fun c => leer_lista w (c_productos c)) [] (carritos (db w) !! idC) in
    productos (db w) !! idP = Some prod ->
    n <= stock prod ->
    Forall (fun l : Z * Z => exists c, float_of_int l.2 = Devuelve c)
           (previas ++ [(idP, n)]) ->
    exists w' c',
      FachadaTienda.agregarAlCarrito idC idP n w = (w', Devuelve tt) /\
      carritos (db w') !! idC = Some c' /\
      leer_lista w' (c_productos c') = previas ++ [(idP, n)] /\
      c_total c' = suma_de_lineas (productos (db w)) (previas ++ [(idP, n)]) /\
      last (consola w') = Some (InfoAgregado idC (nombre prod) n) /\
      is_Some (clientes (db w') !! idC) /\
      (forall k row, clientes (db w) !! k = Some row ->
                     clientes (db w') !! k = Some row) /\
      productos (db w') = productos (db w) /\
      facturas (db w') = facturas (db w).
Proof.
  intros r0 antes idC idP n prod w previas Hprod Hn Hconv.
  assert (Hinv : invariante w) by apply alcanzable_invariante.
  destruct Hinv as [Hrefs _].
  rewrite agregarAlCarrito_eq, Hprod.
  destruct (Z.ltb_spec (stock prod) n) as [?|_]; [lia|]. cbn zeta.
  assert (Hcl : forall (m : gmap Z ClienteRow),
    is_Some (match m !! idC with
             | Some _ => m
             | None => <[idC := cliente_por_defecto idC]> m
             end !! idC) /\
    forall k row, m !! k = Some row ->
                  match m !! idC with
                  | Some _ => m
                  | None => <[idC := cliente_por_defecto idC]> m
                  end !! k = Some row).
  { intros m. destruct (m !! idC) as [row0|] eqn:Hm.
    - split; [by rewrite Hm | done].
    - split; [rewrite lookup_insert_eq; eauto|].
      intros k row Hk. rewrite lookup_insert_ne; [done | congruence]. }
  destruct (Hcl (clientes (db w))) as [Hcl1 Hcl2].
  subst previas. destruct (carritos (db w) !! idC) as [c0|] eqn:Hc;
    cbn [default from_option id] in *.
  - specialize (Hrefs _ _ Hc).
    set (lineas := leer_lista _ _ ++ _).
    assert (Hlineas : lineas = leer_lista w (c_productos c0) ++ [(idP, n)]).
    { subst lineas. f_equal. unfold leer_lista. simpl_mundo. apply leer_lista_mas_vacia. }
    assert (Hleer : forall w3, listas w3 = <[c_productos c0 := lineas]> (listas w ++ [[]]) ->
                               leer_lista w3 (c_productos c0) = lineas).
    { intros w3 Hl. unfold leer_lista. rewrite Hl, list_lookup_insert_eq; [done|].
      rewrite length_app. lia. }
    match goal with
    | |- context [sumar_lineas _ (leer_lista ?w3 _) _] => rewrite (Hleer w3 eq_refl)
    end.
    rewrite <- Hlineas in Hconv.
    destruct (sumar_lineas_convertible (productos (db w)) lineas 0%float Hconv)
      as [total Ht].
    rewrite Ht. eexists _, (con_total c0 total). split; [reflexivity|].
    simpl_mundo. split; [apply lookup_insert_eq|]. split.
    { cbn [con_total c_productos]. rewrite <- Hlineas. by apply Hleer. }
    split; [rewrite <- Hlineas; by apply sumar_lineas_suma|].
    split; [by rewrite last_snoc|]. by repeat split.
  - set (r := length (listas w)).
    assert (Hvacia : forall w2, listas w2 = listas w ++ [[]] -> leer_lista w2 r = []).
    { intros w2 Hl. unfold leer_lista. rewrite Hl, lookup_app_r by (subst r; lia).
      by rewrite Nat.sub_diag. }
    cbn [c_productos idCarrito]. fold r.
    match goal with
    | |- context [leer_lista ?w2 r ++ _] => rewrite (Hvacia w2 eq_refl)
    end.
    assert (Hleer : forall w3 l, listas w3 = <[r := l]> (listas w ++ [[]]) ->
                                 leer_lista w3 r = l).
    { intros w3 l Hl. unfold leer_lista. rewrite Hl, list_lookup_insert_eq; [done|].
      rewrite length_app. subst r. simpl. lia. }
    match goal with
    | |- context [sumar_lineas _ (leer_lista ?w3 _) _] => rewrite (Hleer w3 _ eq_refl)
    end.
    destruct (sumar_lineas_convertible (productos (db w)) ([] ++ [(idP, n)]) 0%float Hconv)
      as [total Ht].
    rewrite Ht. eexists _, _. split; [reflexivity|].
    simpl_mundo. split; [apply lookup_insert_eq|]. split.
    { cbn [con_total c_productos]. by apply Hleer. }
    split; [by apply sumar_lineas_suma|].
    split; [by rewrite last_snoc|]. by repeat split.
Qed.

(** The first addition of [demo]: two units of product 101 for client 1,
    who has neither a row nor a cart yet. *)
Lemma agregarAlCarrito_agrega_en_demo :
  let w := (ejecutar (demo_suscripciones ++ demo_productos) (mundo_inicial reloj_demo)).1 in
  exists w' c',
    FachadaTienda.agregarAlCarrito 1 101 2 w = (w', Devuelve tt) /\
    carritos (db w') !! 1 = Some c' /\
    leer_lista w' (c_productos c') = [] ++ [(101, 2)] /\
    c_total c' = suma_de_lineas (productos (db w)) ([] ++ [(101, 2)]) /\
    last (consola w') = Some (InfoAgregado 1 "Zapatilla Deportiva" 2) /\
    is_Some (clientes (db w') !! 1) /\
    (forall k row, clientes (db w) !! k = Some row ->
                   clientes (db w') !! k = Some row) /\
    productos (db w') = productos (db w) /\
    facturas (db w') = facturas (db w).
Proof.
  apply (agregarAlCarrito_agrega reloj_demo (demo_suscripciones ++ demo_productos)
           1 101 2
           {| idProducto := 101; nombre := "Zapatilla Deportiva";
              descripcion := "Running pro"; precio := 120000; stock := 10 |}).
  - vm_compute. reflexivity.
  - vm_compute. discriminate.
  - repeat constructor. cbn [snd]. eexists. vm_compute. reflexivity.
Defined.

(** ** Checkout: stock, failures *)

Lemma con_stock_cero row : con_stock row (- 0) = row.
Proof. destruct row. unfold con_stock. cbn. f_equal. lia. Qed.

Lemma descontar_stock lineas prods prods' :
  descontar lineas prods = (prods', true) ->
  forall i, prods' !! i =
            (fun row => con_stock row (- cantidad_de i lineas)) <$> prods !! i.
Proof.
  revert prods. induction lineas as [|[idP cant] resto IH]; intros prods Hd i.
  - cbn in Hd. injection Hd as <-. cbn [cantidad_de foldr].
    destruct (prods !! i) as [row|]; cbn; [by rewrite con_stock_cero | done].
  - cbn [descontar] in Hd. destruct (prods !! idP) as [row|] eqn:Hrow; [|done].
    rewrite (IH _ Hd i). cbn [cantidad_de foldr fst snd]. fold (cantidad_de i resto).
    rewrite lookup_insert. destruct (decide (idP = i)) as [->|Hne].
    + rewrite Hrow. cbn. rewrite con_stock_con_stock. do 2 f_equal. lia.
    + done.
Qed.

Lemma descontar_huerfana l1 idm q l2 prods :
  Forall (fun l : Z * Z => is_Some (prods !! l.1)) l1 ->
  prods !! idm = None ->
  (descontar (l1 ++ (idm, q) :: l2) prods).2 = false /\
  forall i, (descontar (l1 ++ (idm, q) :: l2) prods).1 !! i =
            (fun row => con_stock row (- cantidad_de i l1)) <$> prods !! i.
Proof.
  revert prods. induction l1 as [|[idP cant] l1 IH]; intros prods Hv Hno.
  - cbn [app descontar]. rewrite Hno. split; [done|]. intros i.
    cbn [cantidad_de foldr fst]. destruct (prods !! i); cbn; [by rewrite con_stock_cero | done].
  - inversion Hv as [|? ? [row Hrow] Hresto]; subst. cbn [fst] in Hrow.
    cbn [app descontar]. rewrite Hrow.
    destruct (IH (<[idP := con_stock row (- cant)]> prods)) as [Hf Hs].
    + eapply Forall_impl; [exact Hresto|]. intros [j m] [r Hr]. cbn [fst] in *.
      rewrite lookup_insert. destruct (decide (idP = j)); eauto.
    + rewrite lookup_insert_ne; [done|]. intros ->. congruence.
    + split; [done|]. intros i. rewrite Hs.
      cbn [cantidad_de foldr fst snd]. fold (cantidad_de i l1).
      rewrite lookup_insert. destruct (decide (idP = i)) as [->|Hne]; [|done].
      rewrite Hrow. cbn. rewrite con_stock_con_stock. do 2 f_equal. lia.
Qed.

Lemma sumar_lineas_lanza prods lineas acc e :
  sumar_lineas prods lineas acc = Lanza e ->
  e = OverflowError "int too large to convert to float".
Proof.
  revert acc. induction lineas as [|[idP cant] resto IH]; intros acc; cbn [sumar_lineas].
  - done.
  - destruct (prods !! idP); [|apply IH].
    unfold float_of_int. destruct (PrimFloat.is_infinity (redondear cant)); [congruence|].
    apply IH.
Qed.

(** X11. A checkout that succeeds takes from the stock of each product the
    units the cart held of it, added over all the cart's lines (the same
    product may be in several), and changes nothing else in the product
    table: names, descriptions and prices stay, products that were not in
    the cart keep their stock, and no product is added or removed. *)
Theorem verificar_descuenta :
  forall w idC k info w' f,
    OrdenServiceImpl.verificar idC k info w = (w', Devuelve f) ->
    exists c lineas,
      carritos (db w) !! k = Some c /\
      leer_lista w (c_productos c) = lineas /\
      (forall i, productos (db w') !! i =
                 (fun row => con_stock row (- cantidad_de i lineas))
                   <$> productos (db w) !! i) /\
      (forall i row', productos (db w') !! i = Some row' ->
                      exists row, productos (db w) !! i = Some row /\
                                  stock row' = stock row - cantidad_de i lineas /\
                                  precio row' = precio row /\ nombre row' = nombre row) /\
      (forall i, i ∉ lineas.*1 -> productos (db w') !! i = productos (db w) !! i).
Proof.
  intros w idC k info w' f E.
  destruct (verificar_exito _ _ _ _ _ _ E) as (c & lineas & H). destruct H.
  pose proof (descontar_stock _ _ _ ch_descontar0) as Hst.
  exists c, lineas. split; [done|]. split; [done|]. split; [done|]. split.
  - intros i row' Hi. rewrite Hst in Hi.
    destruct (productos (db w) !! i) as [row|]; [|done].
    injection Hi as <-. exists row. cbn. split; [done|]. split; [lia | done].
  - intros i Hi. rewrite Hst.
    assert (Hz : cantidad_de i lineas = 0).
    { clear -Hi. induction lineas as [|[j m] ls IH]; [done|].
      cbn [cantidad_de foldr fst snd]. fold (cantidad_de i ls).
      rewrite fmap_cons, not_elem_of_cons in Hi. destruct Hi as [Hne Hi]. cbn in Hne.
      rewrite decide_False by congruence. by apply IH. }
    rewrite Hz. destruct (productos (db w) !! i); cbn; [by rewrite con_stock_cero | done].
Qed.

(** The oversold cart: three and three units of product 102. *)
Lemma verificar_descuenta_en_sobreventa :
  exists c lineas,
    carritos (db mundo_sobreventa) !! 1 = Some c /\
    leer_lista mundo_sobreventa (c_productos c) = lineas /\
    (forall i, productos (db (OrdenServiceImpl.verificar 1 1 tarjeta mundo_sobreventa).1) !! i =
               (fun row => con_stock row (- cantidad_de i lineas))
                 <$> productos (db mundo_sobreventa) !! i) /\
    (forall i row',
        productos (db (OrdenServiceImpl.verificar 1 1 tarjeta mundo_sobreventa).1) !! i
        = Some row' ->
        exists row, productos (db mundo_sobreventa) !! i = Some row /\
                    stock row' = stock row - cantidad_de i lineas /\
                    precio row' = precio row /\ nombre row' = nombre row) /\
    (forall i, i ∉ lineas.*1 ->
               productos (db (OrdenServiceImpl.verificar 1 1 tarjeta mundo_sobreventa).1) !! i
               = productos (db mundo_sobreventa) !! i).
Proof.
  apply (verificar_descuenta mundo_sobreventa 1 1 tarjeta
           (OrdenServiceImpl.verificar 1 1 tarjeta mundo_sobreventa).1
           {| idFactura := 1;
              f_cliente := {| idCliente := 1; cl_nombre := "Cliente 1";
                              cl_direccion := "-"; cl_telefono := "-" |};
              f_productos := 2%nat; f_total := 570000; f_fecha := 11 |}).
  vm_compute. reflexivity.
Defined.

Lemma verificar_lanza_casos idC k info w w' e :
  OrdenServiceImpl.verificar idC k info w = (w', Lanza e) ->
  (e = ValueError "Carrito vacío o inexistente" /\ w' = w) \/
  (e = OverflowError "int too large to convert to float" /\ w' = w) \/
  (e = ValueError "Producto no existe" /\
   exists c lineas,
     carritos (db w) !! k = Some c /\ leer_lista w (c_productos c) = lineas /\
     (descontar lineas (productos (db w))).2 = false /\
     productos (db w') = (descontar lineas (productos (db w))).1).
Proof.
  intros E.
  destruct (carritos (db w) !! k) as [c|] eqn:Hc.
  2:{ rewrite verificar_sin_lineas in E by (by left). injection E as <- <-. by left. }
  destruct (leer_lista w (c_productos c)) as [|l ls] eqn:Hl.
  { rewrite verificar_sin_lineas in E by (right; eauto). injection E as <- <-. by left. }
  pose proof (verificar_spec idC k info w c l ls Hc Hl) as Hspec.
  destruct (sumar_lineas _ _ _) as [total|e'] eqn:Ht.
  2:{ rewrite E in Hspec. injection Hspec as <- <-. right. left.
      split; [by eapply sumar_lineas_lanza | done]. }
  destruct Hspec as (w1 & Hp & _ & _ & _ & _ & Hspec).
  destruct (descontar (l :: ls) (productos (db w))) as [prods [|]] eqn:Hd;
    cbn [fst snd] in *.
  { destruct Hspec as (fecha & E' & _). cbn zeta in E'. congruence. }
  destruct Hspec as (E' & _). rewrite E in E'. injection E' as -> ->.
  right. right. split; [done|]. exists c, (l :: ls). by rewrite Hd.
Qed.

(** X12. A checkout that fails raises one of three errors and no other: the
    [ValueError] of an empty or missing cart, the [OverflowError] of a
    quantity too large for a float, or the [ValueError] "Producto no
    existe" of the repository; the payment gateway being a stub that
    always approves, "Pago rechazado" is never raised.  Whatever the error,
    no invoice is stored, the invoice counter does not advance, no income
    is recorded, the client table is untouched and every cart still holds
    the line items it held; and except for "Producto no existe" the world
    is exactly as it was. *)
Theorem verificar_fallido :
  forall w idC k info w' e,
    OrdenServiceImpl.verificar idC k info w = (w', Lanza e) ->
    (e = ValueError "Carrito vacío o inexistente" \/
     e = OverflowError "int too large to convert to float" \/
     e = ValueError "Producto no existe") /\
    e <> RuntimeError "Pago rechazado" /\
    (e <> ValueError "Producto no existe" -> w' = w) /\
    facturas (db w') = facturas (db w) /\
    seq_factura (db w') = seq_factura (db w) /\
    conta w' = conta w /\
    clientes (db w') = clientes (db w) /\
    (forall k' c, carritos (db w) !! k' = Some c ->
                  exists c', carritos (db w') !! k' = Some c' /\
                             leer_lista w' (c_productos c') = leer_lista w (c_productos c)).
Proof.
  intros w idC k info w' e E.
  destruct (verificar_fallo _ _ _ _ _ _ E) as (Hcl & Hf & Hs & Hl & Hco & Hca).
  assert (Hcasos := verificar_lanza_casos _ _ _ _ _ _ E).
  split; [destruct Hcasos as [[-> _]|[[-> _]|[-> _]]]; auto|].
  split; [destruct Hcasos as [[-> _]|[[-> _]|[-> _]]]; done|].
  split; [destruct Hcasos as [[_ ->]|[[_ ->]|[-> _]]]; done|].
  repeat (split; [done|]).
  intros k' c Hk'. unfold leer_lista. rewrite Hl.
  destruct Hca as [Hca|(c0 & t & Hk & Hca)]; rewrite Hca.
  - eauto.
  - rewrite lookup_insert. destruct (decide (k = k')) as [<-|]; [|eauto].
    exists (con_total c0 t). split; [done|]. cbn [con_total c_productos]. congruence.
Qed.

(** An empty cart: the one of [demo] after its checkout. *)
Lemma verificar_fallido_en_demo :
  let w := (OrdenServiceImpl.verificar 1 1 tarjeta mundo_demo).1 in
  let e := ValueError "Carrito vacío o inexistente" in
  (e = ValueError "Carrito vacío o inexistente" \/
   e = OverflowError "int too large to convert to float" \/
   e = ValueError "Producto no existe") /\
  e <> RuntimeError "Pago rechazado" /\
  (e <> ValueError "Producto no existe" -> w = w) /\
  facturas (db w) = facturas (db w) /\
  seq_factura (db w) = seq_factura (db w) /\
  conta w = conta w /\
  clientes (db w) = clientes (db w) /\
  (forall k' c, carritos (db w) !! k' = Some c ->
                exists c', carritos (db w) !! k' = Some c' /\
                           leer_lista w (c_productos c') = leer_lista w (c_productos c)).
Proof.
  apply (verificar_fallido (OrdenServiceImpl.verificar 1 1 tarjeta mundo_demo).1
           1 1 tarjeta).
  vm_compute. reflexivity.
Defined.

(** X13. A checkout does not undo what it has done when a later step fails.
    If the cart's lines are [l1], then a line for a product that is not in
    the table, then [l2], with every product of [l1] in the table
    (quantities being in the range of a float), the checkout raises
    "Producto no existe", and the units of the lines [l1] stay taken from
    the stock although no invoice is made and no income recorded; the
    lines [l2] are never dispatched. *)
Theorem verificar_sin_reversion :
  forall w idC k info c l1 idm q l2,
    carritos (db w) !! k = Some c ->
    leer_lista w (c_productos c) = l1 ++ (idm, q) :: l2 ->
    Forall (fun l : Z * Z => exists x, float_of_int l.2 = Devuelve x)
           (l1 ++ (idm, q) :: l2) ->
    Forall (fun l : Z * Z => is_Some (productos (db w) !! l.1)) l1 ->
    productos (db w) !! idm = None ->
    exists w',
      OrdenServiceImpl.verificar idC k info w =
        (w', Lanza (ValueError "Producto no existe")) /\
      (forall i, productos (db w') !! i =
                 (fun row => con_stock row (- cantidad_de i l1))
                   <$> productos (db w) !! i) /\
      facturas (db w') = facturas (db w) /\
      seq_factura (db w') = seq_factura (db w) /\
      conta w' = conta w.
Proof.
  intros w idC k info c l1 idm q l2 Hc Hl Hconv Hv Hno.
  destruct (descontar_huerfana l1 idm q l2 _ Hv Hno) as [Hflag Hst].
  destruct (sumar_lineas_convertible (productos (db w)) _ 0%float Hconv) as [total Ht].
  destruct (l1 ++ (idm, q) :: l2) as [|l ls] eqn:Hlineas.
  { by destruct l1. }
  pose proof (verificar_spec idC k info w c l ls Hc Hl) as Hspec.
  rewrite Ht in Hspec. destruct Hspec as (w' & Hp & _ & _ & _ & _ & Hspec).
  rewrite Hflag in Hspec. destruct Hspec as (E & _ & Hf & Hs & _ & Hco).
  exists w'. split; [done|]. split; [|done].
  intros i. rewrite Hp. apply Hst.
Qed.

Lemma verificar_sin_reversion_en_demo :
  exists w',
    OrdenServiceImpl.verificar 1 1 tarjeta mundo_linea_huerfana =
      (w', Lanza (ValueError "Producto no existe")) /\
    (forall i, productos (db w') !! i =
               (fun row => con_stock row (- cantidad_de i [(101, 2)]))
                 <$> productos (db mundo_linea_huerfana) !! i) /\
    facturas (db w') = facturas (db mundo_linea_huerfana) /\
    seq_factura (db w') = seq_factura (db mundo_linea_huerfana) /\
    conta w' = conta mundo_linea_huerfana.
Proof.
  apply (verificar_sin_reversion mundo_linea_huerfana 1 1 tarjeta
           {| idCarrito := 1; c_productos := 0%nat; c_total := 335000 |}
           [(101, 2)] 999 1 []).
  - vm_compute. reflexivity.
  - vm_compute. reflexivity.
  - repeat constructor; cbn [snd]; eexists; vm_compute; reflexivity.
  - repeat constructor. cbn [fst]. eexists. vm_compute. reflexivity.
  - vm_compute. reflexivity.
Defined.

(** ** Invoices and income along a run *)

Lemma ejecutar_almacenadas lls w :
  forall i f,
    facturas (db (ejecutar lls w).1) !! i = Some f ->
    facturas (db w) !! i = Some f \/
    (f ∈ facturas_emitidas (ejecutar lls w).2 /\ idFactura f = i).
Proof.
  revert w. induction lls as [|ll resto IH]; intros w i f Hi.
  - by left.
  - rewrite ejecutar_cons in *. cbn [fst snd] in *.
    destruct (llamar_a ll w) as [w1 r] eqn:E. cbn [fst snd] in *.
    pose proof (llamar_a_spec _ _ _ _ E) as H.
    destruct (IH w1 i f Hi) as [H1|[Hin Hid]].
    + destruct r as [[f0|]|]; cbn [facturas_emitidas].
      * destruct H as (idC & k & info & c & lineas & _ & []).
        rewrite ch_facturas0, lookup_insert in H1.
        destruct (decide (seq_factura (db w) = i)) as [<-|]; [|by left].
        injection H1 as <-. right. split; [apply list_elem_of_here | done].
      * destruct H as (Hf & _). left. by rewrite <- Hf.
      * destruct H as (Hf & _). left. by rewrite <- Hf.
    + right. split; [|done].
      destruct r as [[f0|]|]; cbn [facturas_emitidas]; [by apply list_elem_of_further|done..].
Qed.

(** X14. At the end of any run of a fresh process the invoice table holds
    exactly the invoices the successful checkouts returned, each under its
    own id and nothing else: no invoice is lost or overwritten, none is
    stored that was not returned, the ids in the table are exactly
    1, ..., n for n successful checkouts, and the counter stands at n + 1. *)
Theorem facturas_almacenadas :
  forall (r0 : nat -> Z) (lls : list Llamada),
    let fin := ejecutar lls (mundo_inicial r0) in
    let emitidas := facturas_emitidas fin.2 in
    (forall i f, facturas (db fin.1) !! i = Some f <-> f ∈ emitidas /\ idFactura f = i) /\
    (forall i, is_Some (facturas (db fin.1) !! i) <->
               1 <= i <= Z.of_nat (length emitidas)) /\
    seq_factura (db fin.1) = Z.of_nat (length emitidas) + 1.
Proof.
  intros r0 lls. cbn zeta.
  destruct (ejecutar_facturas lls (mundo_inicial r0) (invariante_inicial r0)) as [Hs H].
  cbn [mundo_inicial db db_inicial seq_factura] in H, Hs.
  assert (Hiff : forall i f,
    facturas (db (ejecutar lls (mundo_inicial r0)).1) !! i = Some f <->
    f ∈ facturas_emitidas (ejecutar lls (mundo_inicial r0)).2 /\ idFactura f = i).
  { intros i f. split.
    - intros Hi. destruct (ejecutar_almacenadas _ _ _ _ Hi) as [H0|H0]; [|done].
      cbn in H0. by rewrite lookup_empty in H0.
    - intros [Hin <-]. apply list_elem_of_lookup in Hin as [j Hj]. by destruct (H _ _ Hj). }
  split; [exact Hiff|]. split; [|lia].
  intros i. split.
  - intros [f Hi]. apply Hiff in Hi as [Hin Hid].
    apply list_elem_of_lookup in Hin as [j Hj]. destruct (H _ _ Hj) as [Hid' _].
    apply lookup_lt_Some in Hj. lia.
  - intros Hi.
    destruct (lookup_lt_is_Some_2 (facturas_emitidas (ejecutar lls (mundo_inicial r0)).2)
                (Z.to_nat (i - 1))) as [f Hf]; [lia|].
    destruct (H _ _ Hf) as [Hid Hst]. exists f. rewrite <- Hst. f_equal. lia.
Qed.





(** ** How the tables hang together along a run *)

Lemma ordenado_inicial r : ordenado (mundo_inicial r).
Proof.
  split; cbn.
  - intros k c H. by rewrite lookup_empty in H.
  - intros k1 k2 c1 c2 H. by rewrite lookup_empty in H.
  - intros k p H. by rewrite lookup_empty in H.
  - intros k c l H. by rewrite lookup_empty in H.
Qed.

Lemma ordenado_paso w w' extra (upd : option (nat * list (Z * Z)))
    (ins : option (Z * Carrito)) :
  invariante w -> ordenado w ->
  listas w' = from_option (fun p h => <[p.1 := p.2]> h) id upd (listas w ++ extra) ->
  carritos (db w') = from_option (fun p m => <[p.1 := p.2]> m) id ins (carritos (db w)) ->
  (forall k, is_Some (clientes (db w) !! k) -> is_Some (clientes (db w') !! k)) ->
  (forall k, is_Some (productos (db w) !! k) -> is_Some (productos (db w') !! k)) ->
  (forall k p', productos (db w') !! k = Some p' -> idProducto p' = k) ->
  from_option
    (fun p => idCarrito p.2 = p.1 /\ is_Some (clientes (db w') !! p.1) /\
              ((exists c0, carritos (db w) !! p.1 = Some c0 /\
                           c_productos c0 = c_productos p.2) \/
               (length (listas w) <= c_productos p.2 < length (listas w) + length extra)%nat))
    True ins ->
  from_option (fun u => Forall (fun l : Z * Z => is_Some (productos (db w) !! l.1)) u.2)
              True upd ->
  Forall (Forall (fun l : Z * Z => is_Some (productos (db w) !! l.1))) extra ->
  ordenado w'.
Proof.
  intros [Hrefs _] [O1 O2 O3 O4] Hl Hc Hcli Hdom Hid Hins Hupd Hextra.
  assert (Hold : forall k c', carritos (db w') !! k = Some c' ->
            (exists c0, carritos (db w) !! k = Some c0 /\
                        c_productos c0 = c_productos c') \/
            (ins = Some (k, c') /\
             (length (listas w) <= c_productos c' < length (listas w) + length extra)%nat)).
  { intros k c' Hk. rewrite Hc in Hk.
    destruct ins as [[k1 c1]|]; cbn [from_option id fst snd] in *.
    - rewrite lookup_insert in Hk. destruct (decide (k1 = k)) as [->|Hne].
      + injection Hk as <-. destruct Hins as (_ & _ & [(c0 & Hc0 & Hr)|Hfresh]).
        * left. by exists c0.
        * by right.
      + left. by exists c'.
    - left. by exists c'. }
  split.
  - intros k c' Hk. rewrite Hc in Hk.
    destruct ins as [[k1 c1]|]; cbn [from_option id fst snd] in *.
    + rewrite lookup_insert in Hk. destruct (decide (k1 = k)) as [->|Hne].
      * injection Hk as <-. by destruct Hins as (? & ? & _).
      * destruct (O1 _ _ Hk). eauto.
    + destruct (O1 _ _ Hk). eauto.
  - intros k1 k2 c1 c2 H1 H2 Hr.
    destruct (Hold _ _ H1) as [(a1 & Ha1 & Hr1)|[Hi1 Hf1]];
    destruct (Hold _ _ H2) as [(a2 & Ha2 & Hr2)|[Hi2 Hf2]].
    + eapply (O2 k1 k2); eauto. congruence.
    + specialize (Hrefs _ _ Ha1). lia.
    + specialize (Hrefs _ _ Ha2). lia.
    + congruence.
  - exact Hid.
  - intros k c' l Hk Hin. apply Hdom.
    unfold leer_lista in Hin. rewrite Hl in Hin.
    assert (Hbase : forall x, (listas w ++ extra) !! c_productos c' = Some x ->
                              l ∈ x -> is_Some (productos (db w) !! l.1)).
    { intros x Hx Hlx.
      destruct (decide (c_productos c' < length (listas w))%nat) as [Hlt|Hge].
      - rewrite lookup_app_l in Hx by done.
        destruct (Hold _ _ Hk) as [(c0 & Hc0 & Hr0)|[_ ?]]; [|lia].
        apply (O4 k c0 l Hc0). unfold leer_lista. by rewrite Hr0, Hx.
      - rewrite lookup_app_r in Hx by lia.
        apply list_elem_of_lookup_2 in Hx.
        rewrite Forall_forall in Hextra. specialize (Hextra _ Hx).
        rewrite Forall_forall in Hextra. by apply Hextra. }
    destruct upd as [[r0 l0]|]; cbn [from_option id fst snd] in *.
    + destruct (decide (r0 = c_productos c')) as [->|Hne].
      * destruct (decide (c_productos c' < length (listas w ++ extra))%nat).
        -- rewrite list_lookup_insert_eq in Hin by done. cbn in Hin.
           rewrite Forall_forall in Hupd. by apply Hupd.
        -- rewrite list_insert_ge in Hin by lia.
           rewrite lookup_ge_None_2 in Hin by lia. cbn in Hin. by apply elem_of_nil in Hin.
      * rewrite list_lookup_insert_ne in Hin by done.
        destruct ((listas w ++ extra) !! c_productos c') as [x|] eqn:Hx;
          [by eapply Hbase | cbn in Hin; by apply elem_of_nil in Hin].
    + destruct ((listas w ++ extra) !! c_productos c') as [x|] eqn:Hx;
        [by eapply Hbase | cbn in Hin; by apply elem_of_nil in Hin].
Qed.

Lemma productos_con_stock (prods prods' : gmap Z ProductoRow) :
  (forall i, exists d, prods' !! i = (fun row => con_stock row d) <$> prods !! i) ->
  (forall k p, prods !! k = Some p -> idProducto p = k) ->
  (forall k, is_Some (prods !! k) -> is_Some (prods' !! k)) /\
  (forall k p', prods' !! k = Some p' -> idProducto p' = k).
Proof.
  intros H Hid. split.
  - intros k [p Hp]. destruct (H k) as [d Hd]. rewrite Hd, Hp. by eexists.
  - intros k p' Hp'. destruct (H k) as [d Hd]. rewrite Hd in Hp'.
    destruct (prods !! k) as [p|] eqn:Hp; [|done]. injection Hp' as <-.
    cbn. by apply Hid.
Qed.

Lemma insert_con_stock (prods : gmap Z ProductoRow) idP row d i :
  prods !! idP = Some row ->
  exists d', <[idP := con_stock row d]> prods !! i =
             (fun r => con_stock r d') <$> prods !! i.
Proof.
  intros Hrow. rewrite lookup_insert. destruct (decide (idP = i)) as [<-|].
  - exists d. by rewrite Hrow.
  - exists (- 0). destruct (prods !! i); cbn; [by rewrite con_stock_cero | done].
Qed.

Lemma descontar_filas lineas (prods : gmap Z ProductoRow) i :
  exists d, (descontar lineas prods).1 !! i = (fun row => con_stock row d) <$> prods !! i.
Proof.
  revert prods. induction lineas as [|[idP cant] resto IH]; intros prods.
  - exists (- 0). cbn. destruct (prods !! i); cbn; [by rewrite con_stock_cero | done].
  - cbn [descontar]. destruct (prods !! idP) as [row|] eqn:Hrow.
    + destruct (IH (<[idP := con_stock row (- cant)]> prods)) as [d Hd].
      rewrite Hd, lookup_insert. destruct (decide (idP = i)) as [<-|].
      * exists (- cant + d). rewrite Hrow. cbn. by rewrite con_stock_con_stock.
      * by exists d.
    + exists (- 0). cbn. destruct (prods !! i); cbn; [by rewrite con_stock_cero | done].
Qed.

Lemma ordenado_productos w w' :
  invariante w -> ordenado w ->
  listas w' = listas w -> carritos (db w') = carritos (db w) ->
  clientes (db w') = clientes (db w) ->
  (forall k, is_Some (productos (db w) !! k) -> is_Some (productos (db w') !! k)) ->
  (forall k p', productos (db w') !! k = Some p' -> idProducto p' = k) ->
  ordenado w'.
Proof.
  intros Hinv Hor Hl Hc Hcl Hdom Hid.
  apply (ordenado_paso w w' [] None None); try done.
  - cbn. by rewrite app_nil_r.
  - intros k. by rewrite Hcl.
Qed.

Lemma ordenado_stock w w' idP row d :
  invariante w -> ordenado w ->
  productos (db w) !! idP = Some row ->
  db w' = con_productos (fun m => <[idP := con_stock row d]> m) (db w) ->
  listas w' = listas w ->
  ordenado w'.
Proof.
  intros Hinv Hor Hrow Hdb Hl.
  destruct (productos_con_stock (productos (db w)) (productos (db w')))
    as [Hdom Hid].
  { intros i. rewrite Hdb. simpl_mundo. by apply insert_con_stock. }
  { apply Hor. }
  apply (ordenado_productos w w'); try done; by rewrite Hdb.
Qed.

Lemma asegurar_cliente (m : gmap Z ClienteRow) idC :
  is_Some (match m !! idC with
           | Some _ => m
           | None => <[idC := cliente_por_defecto idC]> m
           end !! idC) /\
  forall k, is_Some (m !! k) ->
            is_Some (match m !! idC with
                     | Some _ => m
                     | None => <[idC := cliente_por_defecto idC]> m
                     end !! k).
Proof.
  destruct (m !! idC) as [row0|] eqn:Hm.
  - split; [by rewrite Hm | done].
  - split; [rewrite lookup_insert_eq; eauto|].
    intros k Hk. rewrite lookup_insert. destruct (decide (idC = k)); eauto.
Qed.

Lemma agregarAlCarrito_ordenado idC idP n w w' r :
  FachadaTienda.agregarAlCarrito idC idP n w = (w', r) ->
  invariante w -> ordenado w -> ordenado w'.
Proof.
  rewrite agregarAlCarrito_eq. cbn zeta. intros E Hinv Hor.
  pose proof (or_producto _ Hor) as O3.
  destruct (asegurar_cliente (clientes (db w)) idC) as [Hcl1 Hcl2].
  set (nuevo := {| idCarrito := idC; c_productos := length (listas w); c_total := 0 |}) in *.
  assert (Hextra : Forall (Forall (fun l : Z * Z => is_Some (productos (db w) !! l.1)))
                          [[]]) by (repeat constructor).
  assert (Hprevias : Forall (fun l : Z * Z => is_Some (productos (db w) !! l.1))
            (default [] ((listas w ++ [[]]) !!
               c_productos (default nuevo (carritos (db w) !! idC))))).
  { rewrite leer_lista_mas_vacia.
    destruct (carritos (db w) !! idC) as [c0|] eqn:Hc; cbn [default from_option id].
    - rewrite Forall_forall. intros l Hl. by apply (or_lineas _ Hor idC c0).
    - cbn [nuevo c_productos]. rewrite lookup_ge_None_2 by lia. cbn. constructor. }
  assert (Herror : forall s r0,
    (escribir s
       match carritos (db w) !! idC with
       | Some _ =>
           con_listas (fun h => h ++ [[]])
             (con_db (con_clientes (fun m =>
                match m !! idC with
                | Some _ => m
                | None => <[idC := cliente_por_defecto idC]> m
                end)) w)
       | None =>
           con_db (con_carritos (fun m => <[idC := nuevo]> m))
             (con_listas (fun h => h ++ [[]])
                (con_db (con_clientes (fun m =>
                   match m !! idC with
                   | Some _ => m
                   | None => <[idC := cliente_por_defecto idC]> m
                   end)) w))
       end, r0) = (w', r) -> ordenado w').
  { intros s r0 E0. injection E0 as <- _.
    destruct (carritos (db w) !! idC) as [c0|] eqn:Hc.
    - by apply (ordenado_paso w _ [[]] None None).
    - apply (ordenado_paso w _ [[]] None (Some (idC, nuevo))); try done.
      cbn. split; [done|]. split; [exact Hcl1|]. right. lia. }
  destruct (productos (db w) !! idP) as [prod|] eqn:Hprod; [|by eapply Herror].
  destruct (stock prod <? n); [by eapply Herror|]. clear Herror.
  assert (Hlineas : forall ls,
    Forall (fun l : Z * Z => is_Some (productos (db w) !! l.1)) ls ->
    Forall (fun l : Z * Z => is_Some (productos (db w) !! l.1)) (ls ++ [(idP, n)])).
  { intros ls Hls. apply Forall_app. split; [done|].
    constructor; [|constructor]. cbn. eauto. }
  unfold leer_lista in E. simpl_mundo.
  specialize (Hlineas _ Hprevias).
  destruct (carritos (db w) !! idC) as [c0|] eqn:Hc; cbn [default from_option id] in *.
  - destruct (or_carrito _ Hor _ _ Hc) as [Hid0 _].
    destruct (sumar_lineas _ _ _) as [total|e]; injection E as <- _.
    + eapply (ordenado_paso w _ [[]] (Some (c_productos c0, _))
                (Some (idC, con_total c0 total))); try done; try reflexivity.
      cbn. split; [done|]. split; [done|]. left. eauto.
    + eapply (ordenado_paso w _ [[]] (Some (c_productos c0, _)) None);
        try done; reflexivity.
  - destruct (sumar_lineas _ _ _) as [total|e]; injection E as <- _.
    + eapply (ordenado_paso w _ [[]] (Some (c_productos nuevo, _))
                (Some (idC, con_total nuevo total))); try done; try reflexivity.
      * simpl_mundo. cbn [from_option fst snd]. by rewrite insert_insert_eq.
      * cbn. split; [done|]. split; [exact Hcl1|]. right. lia.
    + eapply (ordenado_paso w _ [[]] (Some (c_productos nuevo, _))
                (Some (idC, nuevo))); try done; try reflexivity.
      cbn. split; [done|]. split; [exact Hcl1|]. right. lia.
Qed.

Lemma vaciarCarrito_ordenado k w w' r :
  Carrito.vaciarCarrito k w = (w', r) -> invariante w -> ordenado w -> ordenado w'.
Proof.
  intros E Hinv Hor. destruct (carritos (db w) !! k) as [c|] eqn:Hc.
  - rewrite (vaciarCarrito_presente _ _ _ Hc) in E. injection E as <- _.
    destruct (or_carrito _ Hor _ _ Hc) as [Hid Hcl].
    apply (ordenado_paso w _ [] (Some (c_productos c, [])) (Some (k, con_total c 0)));
      try done; try apply Hor.
    + simpl_mundo. cbn [from_option fst snd]. by rewrite app_nil_r.
    + cbn. split; [done|]. split; [done|]. left. eauto.
    + cbn. constructor.
  - unfold Carrito.vaciarCarrito in E. rewrite Hc in E. by injection E as <- _.
Qed.

Lemma actualizar_ordenado k idP ev w w' r :
  Carrito.actualizar k idP ev w = (w', r) -> invariante w -> ordenado w -> ordenado w'.
Proof.
  unfold Carrito.actualizar, Carrito.onProductoActualizado. intros E Hinv Hor.
  destruct (carritos (db w) !! k) as [c|] eqn:Hc; [|by injection E as <- _].
  destruct (contiene "agotado" (lower ev)); [|by injection E as <- _].
  destruct (or_carrito _ Hor _ _ Hc) as [Hid Hcl].
  set (nuevos := filter _ _) in E.
  assert (Hshape : forall w0,
    listas w0 = listas w ++ [nuevos] ->
    db w0 = con_carritos (fun m => <[k := {| idCarrito := idCarrito c;
                                             c_productos := length (listas w);
                                             c_total := c_total c |}]> m) (db w) ->
    ordenado w0).
  { intros w0 Hl Hd.
    apply (ordenado_paso w w0 [nuevos] None
             (Some (k, {| idCarrito := idCarrito c; c_productos := length (listas w);
                          c_total := c_total c |}))); try done;
      rewrite ?Hd; simpl_mundo; try done; try apply Hor.
    - cbn. split; [done|]. split; [done|]. right. lia.
    - constructor; [|constructor]. rewrite Forall_forall. intros l Hl0.
      apply list_elem_of_filter in Hl0 as [_ Hl0]. by apply (or_lineas _ Hor k c). }
  revert E. paso. paso. destruct (_ <? _)%nat; intros E; injection E as <- _; by apply Hshape.
Qed.

Lemma verificar_ordenado idC k info w w' r :
  OrdenServiceImpl.verificar idC k info w = (w', r) ->
  invariante w -> ordenado w -> ordenado w'.
Proof.
  intros E Hinv Hor. destruct r as [f|e].
  - destruct (verificar_exito _ _ _ _ _ _ E) as (c & lineas & []).
    destruct (or_carrito _ Hor _ _ ch_carrito0) as [Hid Hcl].
    destruct (productos_con_stock (productos (db w)) (productos (db w')))
      as [Hdom Hids]; [|apply Hor|].
    { intros i. destruct (descontar_filas lineas (productos (db w)) i) as [d Hd].
      exists d. rewrite <- Hd. by rewrite ch_descontar0. }
    apply (ordenado_paso w w' [lineas] (Some (c_productos c, []))
             (Some (k, con_total c 0))); try done.
    + intros k0. by rewrite ch_clientes0.
    + cbn. split; [done|]. split; [by rewrite ch_clientes0|]. left. eauto.
    + cbn. constructor.
    + constructor; [|constructor]. rewrite Forall_forall. intros l Hl.
      apply (or_lineas _ Hor k c); [done|]. by rewrite ch_lineas0.
  - destruct (verificar_fallo _ _ _ _ _ _ E) as (Hcl & _ & _ & Hl & _ & Hca).
    destruct (productos_con_stock (productos (db w)) (productos (db w')))
      as [Hdom Hids]; [|apply Hor|].
    { intros i.
      destruct (verificar_lanza_casos _ _ _ _ _ _ E)
        as [[_ ->]|[[_ ->]|(_ & c & lineas & _ & _ & _ & ->)]].
      - exists (- 0). destruct (productos (db w) !! i); cbn; [by rewrite con_stock_cero|done].
      - exists (- 0). destruct (productos (db w) !! i); cbn; [by rewrite con_stock_cero|done].
      - apply descontar_filas. }
    destruct Hca as [Hca|(c & t & Hk & Hca)].
    + apply (ordenado_productos w w'); try done.
    + destruct (or_carrito _ Hor _ _ Hk) as [Hid Hcl0].
      apply (ordenado_paso w w' [] None (Some (k, con_total c t))); try done.
      * cbn. by rewrite app_nil_r.
      * intros k0. by rewrite Hcl.
      * cbn. split; [done|]. split; [by rewrite Hcl|]. left. eauto.
Qed.

Lemma llamar_a_ordenado ll w w' r :
  llamar_a ll w = (w', r) -> invariante w -> ordenado w -> ordenado w'.
Proof.
  destruct ll; cbn [llamar_a]; intros E Hinv Hor.
  1-5, 7-8: destruct (sin_resultado_inv _ _ _ _ E) as [[r0 E0] _].
  - injection E0 as <- _. by apply (ordenado_productos w); try apply Hor.
  - unfold InventarioServiceImpl.ingresarProducto in E0.
    destruct (bind_inv _ _ _ _ _ E0) as [(e & Em & _)|([] & w1 & Em & Ef)];
      rewrite guardar_eq in Em; destruct (a_float (dto_precio dto)) as [pr|]; try done.
    + by injection Em as <-.
    + injection Em as <-.
      match type of Ef with
      | publicar ?ev ?d ?wx = _ =>
          destruct (publicar_spec ev d wx) as (w2 & E2 & (D2 & L2 & _) & _)
      end.
      rewrite E2 in Ef. injection Ef as <- _.
      apply (ordenado_productos w); rewrite ?D2, ?L2; simpl_mundo; try done.
      * intros k0 Hk0. rewrite lookup_insert. destruct (decide (dto_idProducto dto = k0)); eauto.
      * intros k0 p'. rewrite lookup_insert.
        destruct (decide (dto_idProducto dto = k0)) as [<-|].
        -- by intros [= <-].
        -- apply Hor.
  - destruct (productos (db w) !! idProducto0) as [row|] eqn:Hrow.
    + rewrite (actualizarInventario_presente _ _ _ _ Hrow) in E0. injection E0 as <- _.
      by eapply (ordenado_stock w).
    + rewrite (actualizarInventario_ausente _ _ _ Hrow) in E0. by injection E0 as <- _.
  - destruct (productos (db w) !! idProducto0) as [row|] eqn:Hrow.
    + destruct (darSalidaProducto_presente idProducto0 cantidad w row Hrow)
        as (w1 & E1 & D1 & L1 & _).
      rewrite E1 in E0. injection E0 as <- _. by eapply (ordenado_stock w).
    + rewrite (darSalidaProducto_ausente _ _ _ Hrow) in E0. by injection E0 as <- _.
  - by eapply agregarAlCarrito_ordenado.
  - by eapply vaciarCarrito_ordenado.
  - by eapply actualizar_ordenado.
  - unfold FachadaTienda.finalizarCompra in E.
    destruct (bind_inv _ _ _ _ _ E) as [(e & Em & _)|(f & w1 & Em & Ef)].
    + by eapply verificar_ordenado.
    + unfold mret, M_ret in Ef. injection Ef as <- _. by eapply verificar_ordenado.
Qed.

Lemma alcanzable_ordenado r0 antes : ordenado (ejecutar antes (mundo_inicial r0)).1.
Proof.
  assert (H : forall lls w, invariante w -> ordenado w -> ordenado (ejecutar lls w).1).
  { induction lls as [|ll resto IH]; intros w Hinv Hor; [done|].
    rewrite ejecutar_cons. cbn [fst].
    destruct (llamar_a ll w) as [w1 r] eqn:E. cbn [fst].
    apply IH.
    - by destruct (llamar_a_estable _ _ _ _ E Hinv).
    - by eapply llamar_a_ordenado. }
  apply H; [apply invariante_inicial | apply ordenado_inicial].
Qed.


(** X17. In every world the program can reach no list of line items is
    shared: two different carts never refer to the same list, no cart
    refers to the list of an invoice, and every cart and every invoice
    refers to a list that exists.  So a write to a cart's items can reach
    neither another cart nor an invoice. *)
Theorem listas_sin_compartir :
  forall (r0 : nat -> Z) (antes : list Llamada),
    let w := (ejecutar antes (mundo_inicial r0)).1 in
    (forall k1 k2 c1 c2,
        carritos (db w) !! k1 = Some c1 -> carritos (db w) !! k2 = Some c2 ->
        k1 <> k2 -> c_productos c1 <> c_productos c2) /\
    (forall k c i f,
        carritos (db w) !! k = Some c -> facturas (db w) !! i = Some f ->
        c_productos c <> f_productos f) /\
    (forall k c, carritos (db w) !! k = Some c ->
                 is_Some (listas w !! c_productos c)) /\
    (forall i f, facturas (db w) !! i = Some f ->
                 is_Some (listas w !! f_productos f)).
Proof.
  intros r0 antes w. destruct (alcanzable_ordenado r0 antes) as [O1 O2 O3 O4].
  destruct (alcanzable_invariante r0 antes) as [Hca Hfa].
  split; [|split; [|split]].
  - intros k1 k2 c1 c2 H1 H2 Hne Hr. apply Hne. by eapply O2.
  - intros k c i f Hk Hi. destruct (Hfa _ _ Hi) as (_ & _ & Hno). by eapply Hno.
  - intros k c Hk. apply lookup_lt_is_Some. by eapply Hca.
  - intros i f Hi. apply lookup_lt_is_Some. by destruct (Hfa _ _ Hi) as (_ & ? & _).
Qed.

(** X18. In every world the program can reach, the checkout of a cart that
    is not empty succeeds, provided its quantities are within the range of
    a float: the products of its lines are all in the table (nothing ever
    removes a product) and the payment stub approves.  The invoice returned
    is stored under its id. *)
Theorem verificar_alcanzable :
  forall (r0 : nat -> Z) (antes : list Llamada) idC k info c,
    let w := (ejecutar antes (mundo_inicial r0)).1 in
    carritos (db w) !! k = Some c ->
    leer_lista w (c_productos c) <> [] ->
    Forall (fun l : Z * Z => exists x, float_of_int l.2 = Devuelve x)
           (leer_lista w (c_productos c)) ->
    exists w' f,
      OrdenServiceImpl.verificar idC k info w = (w', Devuelve f) /\
      facturas (db w') !! idFactura f = Some f.
Proof.
  intros r0 antes idC k info c w Hc Hne Hconv.
  destruct (alcanzable_ordenado r0 antes) as [_ _ _ O4]. fold w in O4.
  assert (Hv : Forall (fun l : Z * Z => is_Some (productos (db w) !! l.1))
                      (leer_lista w (c_productos c))).
  { rewrite Forall_forall. intros l Hl. by eapply O4. }
  destruct (leer_lista w (c_productos c)) as [|l ls] eqn:Hl; [done|].
  pose proof (verificar_spec idC k info w c l ls Hc Hl) as Hspec.
  destruct (sumar_lineas_convertible (productos (db w)) _ 0%float Hconv) as [total Ht].
  rewrite Ht in Hspec. destruct Hspec as (w' & _ & _ & _ & _ & _ & Hspec).
  rewrite (descontar_valida _ _ Hv) in Hspec.
  destruct Hspec as (fecha & E & _ & Hf & _). cbn zeta in E, Hf.
  eexists w', _. split; [exact E|]. cbn [idFactura]. rewrite Hf. apply lookup_insert_eq.
Qed.

(** The checkout of [demo]. *)
Lemma verificar_alcanzable_en_demo :
  exists w' f,
    OrdenServiceImpl.verificar 1 1 tarjeta mundo_demo = (w', Devuelve f) /\
    facturas (db w') !! idFactura f = Some f.
Proof.
  apply (verificar_alcanzable reloj_demo
           (demo_suscripciones ++ demo_productos ++
            [LlAgregarAlCarrito 1 101 2; LlAgregarAlCarrito 1 102 1])
           1 1 tarjeta {| idCarrito := 1; c_productos := 0%nat; c_total := 335000 |}).
  - vm_compute. reflexivity.
  - vm_compute. discriminate.
  - match goal with
    | |- Forall _ ?l => replace l with [(101, 2); (102, 1)] by (vm_compute; reflexivity)
    end.
    repeat constructor; cbn [snd]; eexists; vm_compute; reflexivity.
Defined.

(** ** The catalogue *)

Lemma valores_productos_elem w p :
  p ∈ valores_productos w <-> exists k, productos (db w) !! k = Some p.
Proof.
  unfold valores_productos. rewrite list_elem_of_fmap. split.
  - intros ([k p'] & -> & Hin). exists k. by apply elem_of_map_to_list.
  - intros [k Hk]. exists (k, p). split; [done|]. by apply elem_of_map_to_list.
Qed.

Lemma elem_of_List_filter {A} (f : A -> bool) (l : list A) x :
  x ∈ List.filter f l <-> x ∈ l /\ f x = true.
Proof. rewrite !list_elem_of_In. apply filter_In. Qed.

(** X19. [listarProductos] changes nothing and lists rows of the product
    table only.  Called without filters it lists every row.  With filters,
    a row of the table is listed exactly when it passes each filter that is
    set: its price is at least [min_precio], at most [max_precio], and,
    when [disponibles] is true, its stock is above zero (so a product with
    zero or negative stock is left out).  A price bound that is not a
    number (NaN) leaves nothing in the list. *)
Theorem listarProductos_filtra :
  forall w filtros,
    exists l,
      CatalogoServiceImpl.listarProductos filtros w = (w, Devuelve l) /\
      (filtros = None -> l = valores_productos w) /\
      (forall p, p ∈ l ->
                 exists k, productos (db w) !! k = Some p) /\
      (forall f, filtros = Some f ->
         forall p, p ∈ l <->
           (exists k, productos (db w) !! k = Some p) /\
           (forall minp, min_precio f = Some minp -> precio_ge (precio p) minp = true) /\
           (forall maxp, max_precio f = Some maxp -> precio_le (precio p) maxp = true) /\
           (disponibles f = true -> 0 < stock p)) /\
      (forall p, precio_ge (precio p) (Flotante nan) = false /\
                 precio_le (precio p) (Flotante nan) = false).
Proof.
  intros w filtros.
  assert (Hnan : forall p, precio_ge (precio p) (Flotante nan) = false /\
                           precio_le (precio p) (Flotante nan) = false).
  { intros p. cbn [precio_ge precio_le].
    assert (H1 := leb_spec nan (precio p)). assert (H2 := leb_spec (precio p) nan).
    rewrite H1, H2. change (Prim2SF nan) with S754_nan. cbn.
    split; [done|]. by destruct (Prim2SF (precio p)). }
  destruct filtros as [f|].
  2:{ exists (valores_productos w). split; [done|]. split; [done|].
      split; [by intros p Hp; apply valores_productos_elem|]. by split. }
  eexists. split; [reflexivity|]. split; [done|].
  assert (Hiff : forall p,
    p ∈ (if disponibles f
         then List.filter (fun p => 0 <? stock p)
         else fun x => x)
          (match max_precio f with
           | Some maxp => List.filter (fun p => precio_le (precio p) maxp)
           | None => fun x => x
           end
             (match min_precio f with
              | Some minp => List.filter (fun p => precio_ge (precio p) minp)
              | None => fun x => x
              end (valores_productos w))) <->
    (exists k, productos (db w) !! k = Some p) /\
    (forall minp, min_precio f = Some minp -> precio_ge (precio p) minp = true) /\
    (forall maxp, max_precio f = Some maxp -> precio_le (precio p) maxp = true) /\
    (disponibles f = true -> 0 < stock p)).
  { intros p. rewrite <- valores_productos_elem.
    destruct (disponibles f), (max_precio f) as [maxp|], (min_precio f) as [minp|];
      rewrite ?elem_of_List_filter, ?Z.ltb_lt;
      split; intros H; repeat split; try tauto;
      try (intros ? [= <-]; tauto); try (intros ? [=]); try (intros [=]);
      try (apply H; reflexivity). }
  split; [|split; [|exact Hnan]].
  - intros p Hp.
    cut (p ∈ valores_productos w); [by intros ?%valores_productos_elem|].
    destruct (disponibles f), (max_precio f), (min_precio f);
      repeat (apply elem_of_List_filter in Hp as [Hp _]); exact Hp.
  - intros f' [= <-] p. rewrite <- Hiff.
    by destruct (disponibles f), (max_precio f), (min_precio f).
Qed.

(** The price filters on the prices of [demo], with bounds given as
    integers and as floats. *)
Example precio_ge_ejemplos :
  precio_ge 120000 (Entero 100000) = true /\
  precio_ge 95000 (Entero 100000) = false /\
  precio_ge 100000 (Entero 100000) = true /\
  precio_ge 0.5 (Entero 0) = true /\ precio_le 0.5 (Entero 0) = false /\
  precio_le (-0.5) (Entero 0) = true /\
  precio_ge 9007199254740992 (Entero 9007199254740993) = false /\
  precio_ge infinity (Entero (2 ^ 2000)) = true /\
  precio_ge 95000 (Flotante 95000.5) = false /\
  precio_le 95000 (Flotante 95000.5) = true.
Proof. vm_compute. repeat split. Qed.

Lemma prefix_app (a s : string) :
  String.prefix a s = true <-> exists post, s = a +:+ post.
Proof.
  revert s. induction a as [|x a IH]; intros s.
  - split; [intros _; by exists s | by destruct s].
  - destruct s as [|y s]; cbn; [split; [done | by intros [? ?]]|].
    destruct (Ascii.ascii_dec x y) as [<-|Hne].
    + rewrite IH. split; intros [post Hp]; exists post; [by rewrite Hp | by injection Hp].
    + split; [done|]. intros [post Hp]. by injection Hp.
Qed.

Lemma contiene_spec (sub s : string) :
  contiene sub s = true <-> exists pre post, s = pre +:+ sub +:+ post.
Proof.
  induction s as [|y s IH].
  - cbn [contiene]. rewrite orb_false_r, prefix_app. split.
    + intros [post Hp]. by exists "", post.
    + intros (pre & post & Hp). destruct pre; [by exists post|done].
  - cbn [contiene]. rewrite orb_true_iff, prefix_app, IH. split.
    + intros [[post Hp]|(pre & post & Hp)].
      * by exists "", post.
      * exists (String y pre), post. by rewrite Hp.
    + intros (pre & post & Hp). destruct pre as [|x pre].
      * left. by exists post.
      * right. injection Hp as -> Hp. by exists pre, post.
Qed.

Lemma List_filter_todos {A} (f : A -> bool) (l : list A) :
  (forall x, f x = true) -> List.filter f l = l.
Proof. intros H. induction l as [|x l IH]; cbn; [done|]. by rewrite H, IH. Qed.

(** X20. The search of the catalogue (which only hands the query to the
    repository) changes nothing and returns rows of the product table: an
    empty query returns them all; for ASCII text, a row is returned exactly
    when the query, letter case aside, occurs somewhere in its name or in
    its description; and two queries that differ only in letter case
    return the same rows. *)
Theorem buscar_encuentra :
  forall w q,
    exists l,
      CatalogoServiceImpl.buscar q w = (w, Devuelve l) /\
      ProductoRepositorioImpl.buscar q w = (w, Devuelve l) /\
      (forall p, p ∈ l -> exists k, productos (db w) !! k = Some p) /\
      (q = "" -> l = valores_productos w) /\
      (forall p,
          es_ascii q -> es_ascii (nombre p) -> es_ascii (descripcion p) ->
          (p ∈ l <->
           (exists k, productos (db w) !! k = Some p) /\
           ((exists pre post, lower (nombre p) = pre +:+ lower q +:+ post) \/
            (exists pre post, lower (descripcion p) = pre +:+ lower q +:+ post)))) /\
      (forall q', es_ascii q -> es_ascii q' -> lower q' = lower q ->
                  CatalogoServiceImpl.buscar q' w = (w, Devuelve l)).
Proof.
  intros w q. eexists. split; [reflexivity|]. split; [reflexivity|].
  split; [|split; [|split]].
  - intros p Hp. apply elem_of_List_filter in Hp as [Hp _].
    by apply valores_productos_elem.
  - intros ->. apply List_filter_todos. intros p. by destruct (lower (nombre p)).
  - intros p _ _ _. rewrite elem_of_List_filter, orb_true_iff, !contiene_spec.
    by rewrite valores_productos_elem.
  - intros q' _ _ Hq. unfold CatalogoServiceImpl.buscar, ProductoRepositorioImpl.buscar.
    by rewrite Hq.
Qed.

(** The searches of the catalogue of [demo] for "zapatilla" and "DAILY". *)
Example buscar_en_demo :
  (exists l, (CatalogoServiceImpl.buscar "zapatilla" mundo_demo).2 = Devuelve l /\
             length l = 3%nat) /\
  (exists l, (CatalogoServiceImpl.buscar "DAILY" mundo_demo).2 = Devuelve l /\
             nombre <$> l = ["Zapatilla Casual"]) /\
  (CatalogoServiceImpl.buscar "bota" mundo_demo).2 = Devuelve [].
Proof.
  vm_compute. split; [|split]; [eexists; split; reflexivity..|reflexivity].
Qed.

(** ** Checkout: what is published *)

Lemma despachar_publica lineas w :
  exists w' r,
    para_cada lineas (fun l => InventarioServiceImpl.darSalidaProducto l.1 l.2) w = (w', r) /\
    publicaciones (consola w') =
      publicaciones (consola w) ++ eventos_despacho lineas (productos (db w)).
Proof.
  revert w. induction lineas as [|[idP cant] resto IH]; intros w.
  - exists w, (Devuelve tt). split; [done|]. cbn. by rewrite app_nil_r.
  - cbn [para_cada eventos_despacho fst snd].
    destruct (productos (db w) !! idP) as [row|] eqn:Hrow.
    + destruct (darSalidaProducto_presente idP cant w row Hrow)
        as (w1 & E1 & D1 & _ & _ & _ & _ & P1).
      destruct (IH w1) as (w2 & r & E2 & P2).
      exists w2, r. rewrite (bind_devuelve _ _ _ _ _ E1). split; [exact E2|].
      rewrite P2, P1, D1. simpl_mundo. by rewrite <- !app_assoc.
    + exists w, (Lanza (ValueError "Producto no existe")).
      rewrite (bind_lanza _ _ _ _ _ (darSalidaProducto_ausente idP cant w Hrow)).
      split; [done|]. by rewrite app_nil_r.
Qed.

Lemma verificar_publica idC k info w c l ls w' r :
  carritos (db w) !! k = Some c ->
  leer_lista w (c_productos c) = l :: ls ->
  OrdenServiceImpl.verificar idC k info w = (w', r) ->
  publicaciones (consola w') =
    publicaciones (consola w) ++
    match r with
    | Devuelve f =>
        eventos_despacho (l :: ls) (productos (db w)) ++ [orden_completada (idFactura f)]
    | Lanza (ValueError _) => eventos_despacho (l :: ls) (productos (db w))
    | Lanza _ => []
    end.
Proof.
  intros Hc Hl. unfold OrdenServiceImpl.verificar. rewrite Hc, Hl.
  destruct (sumar_lineas (productos (db w)) (l :: ls) 0) as [total|e] eqn:Hs.
  2:{ rewrite (sumar_lineas_lanza _ _ _ _ Hs) in Hs. rewrite <- Hl in Hs.
      rewrite (bind_lanza _ _ _ _ _ (calcularTotal_lanza _ _ _ _ Hc Hs)).
      intros [= <- <-]. by rewrite app_nil_r. }
  rewrite <- Hl in Hs.
  rewrite (bind_devuelve _ _ _ _ _ (calcularTotal_devuelve _ _ _ _ Hc Hs)).
  rewrite (bind_devuelve _ _ _ _ _ (procesarPago_eq _ _ _)).
  cbn [ok]. paso. paso.
  set (w1 := con_tic _ _).
  assert (Hl1 : leer_lista w1 (c_productos c) = l :: ls) by (rewrite <- Hl; reflexivity).
  rewrite Hl1.
  destruct (despachar_spec (l :: ls) w1)
    as (w2 & E2 & P2 & Cl2 & Ca2 & Fa2 & Us2 & Sq2 & L2 & Co2 & Su2 & R2).
  destruct (despachar_publica (l :: ls) w1) as (w2' & r2 & E2' & Pub2).
  rewrite E2 in E2'. injection E2' as <- _.
  assert (Hp1 : productos (db w1) = productos (db w)) by reflexivity.
  assert (Pub1 : publicaciones (consola w1) = publicaciones (consola w)).
  { subst w1. simpl_mundo. rewrite !publicaciones_app. cbn [publicaciones].
    by rewrite !app_nil_r. }
  rewrite Hp1, Pub1 in *.
  destruct (descontar (l :: ls) (productos (db w))) as [prods2 [|]] eqn:Hd;
    cbn [fst snd] in *.
  - rewrite (bind_devuelve _ _ _ _ _ E2).
    do 8 paso.
    match goal with
    | |- context [(publicar ?ev ?d ≫= ?f) ?wx] =>
        destruct (publicar_spec ev d wx) as (w3 & E3 & (D3 & L3 & C3 & S3 & R3) & Pub3);
        rewrite (bind_devuelve _ f _ _ _ E3)
    end.
    assert (Hc3 : carritos (db w3) !! k = Some (con_total c total)).
    { rewrite D3. simpl_mundo. rewrite Ca2. subst w1. simpl_mundo. apply lookup_insert_eq. }
    rewrite (bind_devuelve _ _ _ _ _ (vaciarCarrito_presente _ _ _ Hc3)).
    unfold mret, M_ret. intros [= <- <-]. simpl_mundo.
    rewrite !publicaciones_app, Pub3. simpl_mundo.
    rewrite !publicaciones_app, Pub2. cbn [publicaciones idFactura].
    rewrite !app_nil_r, Sq2. subst w1. simpl_mundo. by rewrite <- !app_assoc.
  - rewrite (bind_lanza _ _ _ _ _ E2). by intros [= <- <-].
Qed.

(** X21. What a checkout publishes on the bus.  A checkout that returns
    an invoice has published, after what was published before and in this
    order: for each line of the cart, one "venta_realizada" event per unit
    and then the sold-out event if the stock left is not positive; and at
    the end one "orden_completada" event that names the invoice number.  A
    checkout that fails because a product is missing has published the
    events of the lines before the missing one, and they stay published;
    a checkout that fails for any other reason has published nothing. *)
Theorem verificar_eventos :
  forall w idC k info w' r c,
    carritos (db w) !! k = Some c ->
    OrdenServiceImpl.verificar idC k info w = (w', r) ->
    (forall f, r = Devuelve f ->
       publicaciones (consola w') =
         publicaciones (consola w) ++
         eventos_despacho (leer_lista w (c_productos c)) (productos (db w)) ++
         [orden_completada (idFactura f)]) /\
    (r = Lanza (ValueError "Producto no existe") ->
       publicaciones (consola w') =
         publicaciones (consola w) ++
         eventos_despacho (leer_lista w (c_productos c)) (productos (db w))) /\
    (forall e, r = Lanza e -> e <> ValueError "Producto no existe" ->
       publicaciones (consola w') = publicaciones (consola w)).
Proof.
  intros w idC k info w' r c Hc E.
  destruct (leer_lista w (c_productos c)) as [|l ls] eqn:Hl.
  - rewrite verificar_sin_lineas in E by (right; eauto). injection E as <- <-.
    split; [done|]. split; [done|]. done.
  - pose proof (verificar_publica idC k info w c l ls w' r Hc Hl E) as P.
    split; [|split].
    + intros f ->. exact P.
    + intros ->. exact P.
    + intros e -> Hne.
      destruct (verificar_lanza_casos idC k info w w' e E)
        as [[_ ->]|[[_ ->]|[-> _]]]; done.
Qed.

(** The checkout of [demo]: two units of product 101 and one of 102, none
    sold out, invoice 1. *)
Lemma verificar_eventos_en_demo :
  exists c f1,
    f1 = {| idFactura := 1;
                f_cliente := {| idCliente := 1; cl_nombre := "Cliente 1";
                                cl_direccion := "-"; cl_telefono := "-" |};
                f_productos := 2%nat; f_total := 335000; f_fecha := 7 |} /\
    (carritos (db mundo_demo) !! 1 = Some c /\
     OrdenServiceImpl.verificar 1 1 tarjeta mundo_demo = ((OrdenServiceImpl.verificar 1 1 tarjeta mundo_demo).1, Devuelve f1)) /\
    eventos_despacho (leer_lista mundo_demo (c_productos c)) (productos (db mundo_demo)) =
      [venta_realizada 101; venta_realizada 101; venta_realizada 102] /\
    (forall f, Devuelve f1 = Devuelve f ->
       publicaciones (consola (OrdenServiceImpl.verificar 1 1 tarjeta mundo_demo).1) =
         publicaciones (consola mundo_demo) ++
         eventos_despacho (leer_lista mundo_demo (c_productos c))
                          (productos (db mundo_demo)) ++
         [orden_completada (idFactura f)]) /\
    (Devuelve f1 = Lanza (ValueError "Producto no existe") ->
       publicaciones (consola (OrdenServiceImpl.verificar 1 1 tarjeta mundo_demo).1) =
         publicaciones (consola mundo_demo) ++
         eventos_despacho (leer_lista mundo_demo (c_productos c))
                          (productos (db mundo_demo))) /\
    (forall e, Devuelve f1 = Lanza e -> e <> ValueError "Producto no existe" ->
       publicaciones (consola (OrdenServiceImpl.verificar 1 1 tarjeta mundo_demo).1) = publicaciones (consola mundo_demo)).
Proof.
  eexists _, _. split; [reflexivity|].
  split; [split; vm_compute; reflexivity|]. split; [vm_compute; reflexivity|].
  apply (verificar_eventos mundo_demo 1 1 tarjeta); vm_compute; reflexivity.
Defined.
